(** * The academic data store of PIM_II_FINAL (app/repositories.py) and its
      reports (app/routers/relatorios.py), embedded and verified.

    The store keeps three Python dicts (students, classes, assignments) and a
    counter, and mirrors itself to a JSON file after every successful
    mutation.  Python floats are IEEE binary64 numbers, so they are the
    primitive floats of the prover; Python dicts keep their insertion order,
    so they are association lists with the update discipline of a dict; the
    methods run in a state-and-exception monad over the store and its file. *)

From Stdlib Require Import ZArith List String Ascii Bool Lia.
From Stdlib Require Import PrimFloat SpecFloat FloatOps.
From Stdlib Require Import DecimalString DecimalZ.
From Stdlib Require FloatAxioms.
Import ListNotations.

Set Warnings "-inexact-float,-register-all".
Open Scope string_scope.
Open Scope Z_scope.

(* ================================================================== *)
(** * Python numbers *)
(* ================================================================== *)

Module Py.

(** The exceptions that the modelled code can see. *)
Inductive exn : Type :=
| ValueError (msg : string)
| TypeError
| OverflowError
| ZeroDivisionError
| KeyError
| AttributeError
| ValidationError
| HTTPException (status_code : Z) (detail : string).

Inductive result (A : Type) : Type :=
| Ok (a : A)
| Raise (e : exn).
Arguments Ok {A} a.
Arguments Raise {A} e.

(** An integer as an exact (unrounded) binary number. *)
Definition Z2SF (z : Z) : spec_float :=
  match z with
  | Z0 => S754_zero false
  | Zpos p => S754_finite false p 0
  | Zneg p => S754_finite true p 0
  end.

(** [float(z)] for an int: the nearest binary64, ties to even;
    OverflowError when the int is too large. *)
Definition float_of_int (z : Z) : result float :=
  let f := SF2Prim (binary_normalize prec emax z 0 false) in
  if is_infinity f then Raise OverflowError else Ok f.

(** An int that a binary64 holds exactly. *)
Definition is_small (z : Z) : bool := Z.abs z <? 2 ^ 53.

(** [a / b] on ints: the correctly rounded quotient.  As in the
    interpreter, two ints that floats hold exactly are divided as floats;
    otherwise the quotient is rounded once, and OverflowError is raised when
    it is too large for a float. *)
Definition int_truediv (a b : Z) : result float :=
  if b =? 0 then Raise ZeroDivisionError
  else if is_small a && is_small b then
    Ok (SF2Prim (Z2SF a) / SF2Prim (Z2SF b))%float
  else
    let f := SF2Prim (SFdiv prec emax (Z2SF a) (Z2SF b)) in
    if is_infinity f then Raise OverflowError else Ok f.

(** Round half to even of the rational [num / den], [den > 0], [num >= 0]. *)
Definition round_half_even (num den : Z) : Z :=
  let q := num / den in
  let r := num mod den in
  match 2 * r ?= den with
  | Lt => q
  | Gt => q + 1
  | Eq => if Z.even q then q else q + 1
  end.

(** The magnitude [m * 2^e] scaled by [scale] and rounded half to even to an
    integer. *)
Definition round_scaled (m : positive) (e : Z) (scale : Z) : Z :=
  match e with
  | Zneg p => round_half_even (Zpos m * scale) (2 ^ Zpos p)
  | _ => Zpos m * 2 ^ e * scale
  end.

(** [round(x)] with one argument: the nearest int, ties to even; NaN raises
    ValueError and the infinities raise OverflowError. *)
Definition round_int (x : float) : result Z :=
  match Prim2SF x with
  | S754_nan => Raise (ValueError "cannot convert float NaN to integer")
  | S754_infinity _ => Raise OverflowError
  | S754_zero _ => Ok 0
  | S754_finite s m e =>
      let k := round_scaled m e 1 in
      Ok (if s then - k else k)
  end.

(** [round(x, ndigits)] for [ndigits >= 0]: the decimal with [ndigits]
    places nearest to the exact value of [x] (ties to the even digit), read
    back as the nearest binary64.  NaN, the infinities and the zeros round to
    themselves. *)
Definition round_ndigits (x : float) (ndigits : nat) : float :=
  match Prim2SF x with
  | S754_finite s m e =>
      let p := 10 ^ Z.of_nat ndigits in
      let k := round_scaled m e p in
      match k with
      | Zpos kp => SF2Prim (SFdiv prec emax (S754_finite s kp 0) (Z2SF p))
      | _ => SF2Prim (S754_zero s)
      end
  | _ => x
  end.

(** [int(x)] for a float: truncation toward zero. *)
Definition int_of_float (x : float) : result Z :=
  match Prim2SF x with
  | S754_nan => Raise (ValueError "cannot convert float NaN to integer")
  | S754_infinity _ => Raise OverflowError
  | S754_zero _ => Ok 0
  | S754_finite s m e =>
      let k := match e with
               | Zneg p => Zpos m / 2 ^ Zpos p
               | _ => Zpos m * 2 ^ e
               end in
      Ok (if s then - k else k)
  end.

(** [str(z)] for an int. *)
Definition str_of_int (z : Z) : string := NilZero.string_of_int (Z.to_int z).

Definition is_space (c : ascii) : bool :=
  let n := nat_of_ascii c in
  ((9 <=? n) && (n <=? 13) || (28 <=? n) && (n <=? 32))%nat.

Definition is_digit (c : ascii) : bool :=
  let n := nat_of_ascii c in ((48 <=? n) && (n <=? 57))%nat.

Fixpoint lstrip (s : list ascii) : list ascii :=
  match s with
  | c :: r => if is_space c then lstrip r else s
  | [] => []
  end.

Definition strip (s : list ascii) : list ascii :=
  rev (lstrip (rev (lstrip s))).

(** The digits of a literal in which single underscores may separate
    digits; [prev] tells whether the previous character was a digit. *)
Fixpoint digits_of (prev : bool) (s : list ascii) : option (list ascii) :=
  match s with
  | [] => if prev then Some [] else None
  | c :: r =>
      if is_digit c then option_map (cons c) (digits_of true r)
      else if (c =? "_")%char then
        if prev then
          match r with
          | d :: _ => if is_digit d then digits_of false r else None
          | [] => None
          end
        else None
      else None
  end.

Definition nat_literal (s : list ascii) : option Z :=
  match digits_of false s with
  | Some ds =>
      option_map Z.of_uint (NilZero.uint_of_string (string_of_list_ascii ds))
  | None => None
  end.

(** [int(s)] for a str, base 10: a decimal literal, with an optional sign,
    blanks around it and single underscores between digits (ASCII text). *)
Definition int_of_str (s : string) : result Z :=
  match NilZero.int_of_string s with
  | Some d => Ok (Z.of_int d)
  | None =>
      let r :=
        match strip (list_ascii_of_string s) with
        | "+"%char :: t => nat_literal t
        | "-"%char :: t => option_map Z.opp (nat_literal t)
        | t => nat_literal t
        end in
      match r with
      | Some z => Ok z
      | None => Raise (ValueError "invalid literal for int() with base 10")
      end
  end.

End Py.

(* ================================================================== *)
(** * Python dicts: insertion-ordered association lists *)
(* ================================================================== *)

(** Keys compared with [==]. *)
Class Key (K : Type) := {
  key_eqb : K -> K -> bool;
  key_eqb_spec : forall x y, reflect (x = y) (key_eqb x y)
}.

#[global] Instance Key_string : Key string :=
  {| key_eqb := String.eqb; key_eqb_spec := String.eqb_spec |}.

#[global] Instance Key_Z : Key Z :=
  {| key_eqb := Z.eqb; key_eqb_spec := Z.eqb_spec |}.

Module Dict.
Section Ops.
Context {K V : Type} `{Key K}.

Definition t := list (K * V).

(** [d.get(k)] *)
Fixpoint get (k : K) (d : t) : option V :=
  match d with
  | [] => None
  | (k', v) :: r => if key_eqb k k' then Some v else get k r
  end.

(** [k in d] *)
Definition mem (k : K) (d : t) : bool :=
  match get k d with Some _ => true | None => false end.

(** [d[k] = v]: an existing key keeps its place, a new one goes last. *)
Fixpoint set (k : K) (v : V) (d : t) : t :=
  match d with
  | [] => [(k, v)]
  | (k', v') :: r =>
      if key_eqb k k' then (k', v) :: r else (k', v') :: set k v r
  end.

Definition keys (d : t) : list K := map fst d.
Definition values (d : t) : list V := map snd d.

(** [{k: v for k, v in items}] *)
Definition of_items (items : list (K * V)) : t :=
  fold_left (fun d kv => set (fst kv) (snd kv) d) items [].
End Ops.
Arguments t : clear implicits.
End Dict.

(** [x in l] for a list of str. *)
Definition list_mem (x : string) (l : list string) : bool :=
  existsb (String.eqb x) l.

(* ================================================================== *)
(** * Python values that JSON can carry *)
(* ================================================================== *)

(** What [json.load] yields and [json.dump] accepts: None, bool, int, float,
    str, list, and dict with str keys.  The file holds the text of such a
    value; writing a value and reading the text back gives the value again
    (floats are written with [repr], which reads back exactly, NaN and the
    infinities included), so the file is modelled by the value it holds.
    Strings are UTF-8 text. *)
Inductive value : Type :=
| VNone
| VBool (b : bool)
| VInt (z : Z)
| VFloat (f : float)
| VStr (s : string)
| VList (l : list value)
| VDict (d : list (string * value)).

Definition of_option_float (o : option float) : value :=
  match o with Some f => VFloat f | None => VNone end.

(** [float(v)]; [float_of_str] is the conversion of a str. *)
Definition py_float (float_of_str : string -> option float) (v : value)
  : Py.result float :=
  match v with
  | VFloat f => Py.Ok f
  | VInt z => Py.float_of_int z
  | VBool b => Py.Ok (if b then 1%float else 0%float)
  | VStr s =>
      match float_of_str s with
      | Some f => Py.Ok f
      | None => Py.Raise (Py.ValueError "could not convert string to float")
      end
  | VNone | VList _ | VDict _ => Py.Raise Py.TypeError
  end.

(** [int(v)]; [int_of_str] is the conversion of a str. *)
Definition py_int (int_of_str : string -> Py.result Z) (v : value)
  : Py.result Z :=
  match v with
  | VInt z => Py.Ok z
  | VBool b => Py.Ok (if b then 1 else 0)
  | VFloat f => Py.int_of_float f
  | VStr s => int_of_str s
  | VNone | VList _ | VDict _ => Py.Raise Py.TypeError
  end.

(* ================================================================== *)
(** * The models (app/models.py) *)
(* ================================================================== *)

Module Aluno.
Record t := make {
  nome : string;
  ra : string;
  curso : string;
  np1 : option float;
  np2 : option float;
  pim : option float
}.

Definition model_dump (a : t) : value :=
  VDict [("nome", VStr (nome a)); ("ra", VStr (ra a));
         ("curso", VStr (curso a));
         ("np1", of_option_float (np1 a));
         ("np2", of_option_float (np2 a));
         ("pim", of_option_float (pim a))].

(** [setattr(aluno, "np1", x)] and its two siblings. *)
Definition set_np1 (x : float) (a : t) : t :=
  make (nome a) (ra a) (curso a) (Some x) (np2 a) (pim a).
Definition set_np2 (x : float) (a : t) : t :=
  make (nome a) (ra a) (curso a) (np1 a) (Some x) (pim a).
Definition set_pim (x : float) (a : t) : t :=
  make (nome a) (ra a) (curso a) (np1 a) (np2 a) (Some x).
End Aluno.

Module Turma.
Record t := make {
  codigo : string;
  nome : string;
  alunos : list string
}.

Definition model_dump (x : t) : value :=
  VDict [("codigo", VStr (codigo x)); ("nome", VStr (nome x));
         ("alunos", VList (map VStr (alunos x)))].

(** [turma.alunos.append(ra)] *)
Definition append_aluno (r : string) (x : t) : t :=
  make (codigo x) (nome x) (alunos x ++ [r]).
End Turma.

Module Atividade.
(** [entregas] is declared [Dict[str, dict]]; the payloads are kept as
    values so that the [isinstance(payload, dict)] tests of the store
    read as they are written. *)
Record t := make {
  id : Z;
  turma_codigo : string;
  titulo : string;
  data_entrega : string;
  entregas : Dict.t string value
}.

Definition model_dump (a : t) : value :=
  VDict [("id", VInt (id a)); ("turma_codigo", VStr (turma_codigo a));
         ("titulo", VStr (titulo a));
         ("data_entrega", VStr (data_entrega a));
         ("entregas", VDict (entregas a))].

(** [atv.id = i] *)
Definition set_id (i : Z) (a : t) : t :=
  make i (turma_codigo a) (titulo a) (data_entrega a) (entregas a).

(** [atv.entregas[ra] = payload] *)
Definition set_entrega (r : string) (payload : value) (a : t) : t :=
  make (id a) (turma_codigo a) (titulo a) (data_entrega a)
       (Dict.set r payload (entregas a)).
End Atividade.

(* ================================================================== *)
(** * The store and its file (app/repositories.py) *)
(* ================================================================== *)

Record DataStore := mkDataStore {
  alunos : Dict.t string Aluno.t;        (* RA -> Aluno *)
  turmas : Dict.t string Turma.t;        (* codigo -> Turma *)
  atividades : Dict.t Z Atividade.t;     (* id -> Atividade *)
  _next_atv_id : Z
}.

(** What a method can touch: the store, the content of data/db.json (None
    while the file does not exist) and, as a ghost, the number of times the
    file has been written. *)
Record World := mkWorld {
  db : DataStore;
  data_file : option value;
  writes : nat
}.

(** A method either returns or raises, and in both cases leaves a world
    behind: the one in which the exception was raised is kept. *)
Definition M (A : Type) : Type := World -> World * Py.result A.

Definition ret {A} (a : A) : M A := fun w => (w, Py.Ok a).

Definition raise {A} (e : Py.exn) : M A := fun w => (w, Py.Raise e).

Definition bind {A B} (m : M A) (k : A -> M B) : M B :=
  fun w =>
    match m w with
    | (w', Py.Ok a) => k a w'
    | (w', Py.Raise e) => (w', Py.Raise e)
    end.

Notation "x <- c ;; k" := (bind c (fun x => k))
  (at level 61, c at next level, right associativity).
Notation "c ;; k" := (bind c (fun _ => k))
  (at level 61, right associativity).

(** A pure computation that may raise, run inside a method. *)
Definition lift {A} (r : Py.result A) : M A := fun w => (w, r).

Definition get_db : M DataStore := fun w => (w, Py.Ok (db w)).

Definition modify_db (f : DataStore -> DataStore) : M unit :=
  fun w => (mkWorld (f (db w)) (data_file w) (writes w), Py.Ok tt).

Definition set_alunos (d : Dict.t string Aluno.t) (s : DataStore) :=
  mkDataStore d (turmas s) (atividades s) (_next_atv_id s).
Definition set_turmas (d : Dict.t string Turma.t) (s : DataStore) :=
  mkDataStore (alunos s) d (atividades s) (_next_atv_id s).
Definition set_atividades (d : Dict.t Z Atividade.t) (s : DataStore) :=
  mkDataStore (alunos s) (turmas s) d (_next_atv_id s).
Definition set_next_atv_id (n : Z) (s : DataStore) :=
  mkDataStore (alunos s) (turmas s) (atividades s) n.

(** [DataStore.__init__] before [_load]. *)
Definition empty_store : DataStore := mkDataStore [] [] [] 1.

(** ** Serialization *)

(** The [data] dict of [_save] as [json.dump] writes it: the int keys of
    [atividades] become their decimal text. *)
Definition dump (s : DataStore) : value :=
  VDict
    [("alunos",
      VDict (Dict.of_items
               (map (fun kv => (fst kv, Aluno.model_dump (snd kv))) (alunos s))));
     ("turmas",
      VDict (Dict.of_items
               (map (fun kv => (fst kv, Turma.model_dump (snd kv))) (turmas s))));
     ("atividades",
      VDict (map (fun kv => (Py.str_of_int (fst kv), snd kv))
               (Dict.of_items
                  (map (fun kv => (fst kv, Atividade.model_dump (snd kv)))
                     (atividades s)))));
     ("next_id", VInt (_next_atv_id s))].

Definition _save : M unit :=
  fun w => (mkWorld (db w) (Some (dump (db w))) (S (writes w)), Py.Ok tt).

(** [v.get(k, default)] on whatever [v] is. *)
Definition value_get (k : string) (default : value) (v : value)
  : Py.result value :=
  match v with
  | VDict d =>
      Py.Ok (match Dict.get k d with Some x => x | None => default end)
  | _ => Py.Raise Py.AttributeError
  end.

(** [v.items()] *)
Definition value_items (v : value) : Py.result (list (string * value)) :=
  match v with
  | VDict d => Py.Ok d
  | _ => Py.Raise Py.AttributeError
  end.

(** [[f(x) for x in l]], stopping at the first exception. *)
Fixpoint traverse {A B} (f : A -> Py.result B) (l : list A)
  : Py.result (list B) :=
  match l with
  | [] => Py.Ok []
  | x :: r =>
      match f x with
      | Py.Raise e => Py.Raise e
      | Py.Ok y =>
          match traverse f r with
          | Py.Raise e => Py.Raise e
          | Py.Ok ys => Py.Ok (y :: ys)
          end
      end
  end.

Definition is_VDict (v : value) : bool :=
  match v with VDict _ => true | _ => false end.

Definition as_VStr (v : value) : option string :=
  match v with VStr s => Some s | _ => None end.

Fixpoint all_some {A} (l : list (option A)) : option (list A) :=
  match l with
  | [] => Some []
  | Some x :: r => option_map (cons x) (all_some r)
  | None :: _ => None
  end.

(* ================================================================== *)
(** * Sessions (app/auth.py) *)
(* ================================================================== *)

Module Auth.

(** The text of a header as the server hands it over: one character per
    byte.  Among these characters the ones that [str.split()] takes for
    blanks are the following. *)
Definition isspace (c : ascii) : bool :=
  let n := nat_of_ascii c in
  ((9 <=? n) && (n <=? 13) || (28 <=? n) && (n <=? 32)
   || (n =? 133) || (n =? 160))%nat.

(** [s.split()]: the maximal runs of characters that are no blanks; [cur]
    is the run being read. *)
Fixpoint split_from (cur : string) (s : string) : list string :=
  match s with
  | EmptyString => match cur with EmptyString => [] | _ => [cur] end
  | String c r =>
      if isspace c then
        match cur with
        | EmptyString => split_from "" r
        | _ => cur :: split_from "" r
        end
      else split_from (cur ++ String c "") r
  end.

Definition split (s : string) : list string := split_from "" s.

(** [c.lower()] for one of these characters: the capital letters A-Z and
    the accented capitals of the upper half move by 32. *)
Definition lower_char (c : ascii) : ascii :=
  let n := nat_of_ascii c in
  if ((65 <=? n) && (n <=? 90)
      || (192 <=? n) && (n <=? 222) && negb (n =? 215))%nat
  then ascii_of_nat (n + 32) else c.

Fixpoint lower (s : string) : string :=
  match s with
  | EmptyString => EmptyString
  | String c r => String (lower_char c) (lower r)
  end.

(** An entry of [USERS]. *)
Record User := mkUser {
  user_username : string;
  user_password : string;
  user_role : string;
  user_ra : option string
}.

Definition USERS : Dict.t string User :=
  [("aluno", mkUser "aluno" "aluno123" "aluno" (Some "H76DJH0"));
   ("professor", mkUser "professor" "prof123" "professor" None)].

(** An entry of [SESSIONS]; instants are counted in microseconds. *)
Record Session := mkSession {
  username : string;
  role : string;
  ra : option string;
  exp : Z
}.

Definition Sessions : Type := Dict.t string Session.

(** [timedelta(hours=8)] *)
Definition SESSION_TTL : Z := 8 * 3600 * 1000000.

Record LoginPayload := mkLoginPayload {
  login_username : string;
  login_password : string
}.

Record LoginResponse := mkLoginResponse {
  resp_token : string;
  resp_role : string;
  resp_username : string;
  resp_ra : option string;
  resp_exp : Z
}.

(** [SESSIONS.pop(k, None)]: no entry is left under [k]. *)
Definition pop {V} (k : string) (d : Dict.t string V) : Dict.t string V :=
  filter (fun kv => negb (String.eqb k (fst kv))) d.

(** [token] is what [uuid4()] gave and [now] what [datetime.utcnow()]
    gave. *)
Definition _issue_token (token : string) (now : Z) (user : User)
  (sessions : Sessions) : Sessions * LoginResponse :=
  let exp := now + SESSION_TTL in
  (Dict.set token
     (mkSession (user_username user) (user_role user) (user_ra user) exp)
     sessions,
   mkLoginResponse token (user_role user) (user_username user)
     (user_ra user) exp).

Definition _get_session_from_header (now : Z) (authorization : option string)
  (sessions : Sessions) : Sessions * Py.result Session :=
  match authorization with
  | None | Some EmptyString =>
      (sessions, Py.Raise (Py.HTTPException 401 "Authorization header ausente."))
  | Some a =>
      match split a with
      | [p0; token] =>
          if negb (String.eqb (lower p0) "bearer") then
            (sessions,
             Py.Raise (Py.HTTPException 401
                         "Authorization inválido (use Bearer token)."))
          else
            match Dict.get token sessions with
            | None =>
                (sessions,
                 Py.Raise (Py.HTTPException 401 "Token inválido ou expirado."))
            | Some sess =>
                if exp sess <? now then
                  (pop token sessions,
                   Py.Raise (Py.HTTPException 401 "Token expirado."))
                else (sessions, Py.Ok sess)
            end
      | _ =>
          (sessions,
           Py.Raise (Py.HTTPException 401
                       "Authorization inválido (use Bearer token)."))
      end
  end.

Definition login (token : string) (now : Z) (payload : LoginPayload)
  (sessions : Sessions) : Sessions * Py.result LoginResponse :=
  match Dict.get (login_username payload) USERS with
  | None =>
      (sessions, Py.Raise (Py.HTTPException 401 "Usuário ou senha inválidos."))
  | Some user =>
      if negb (String.eqb (login_password payload) (user_password user)) then
        (sessions, Py.Raise (Py.HTTPException 401 "Usuário ou senha inválidos."))
      else
        let (sessions', r) := _issue_token token now user sessions in
        (sessions', Py.Ok r)
  end.

(** The answer of [me]: username, role and RA. *)
Definition me (now : Z) (authorization : option string) (sessions : Sessions)
  : Sessions * Py.result (string * string * option string) :=
  match _get_session_from_header now authorization sessions with
  | (s', Py.Ok sess) => (s', Py.Ok (username sess, role sess, ra sess))
  | (s', Py.Raise e) => (s', Py.Raise e)
  end.

(** [logout] always answers [{"ok": True}]; what is left is what it does to
    [SESSIONS]. *)
Definition logout (authorization : option string) (sessions : Sessions)
  : Sessions :=
  match split (match authorization with Some a => a | None => "" end) with
  | [p0; token] =>
      if String.eqb (lower p0) "bearer" then pop token sessions else sessions
  | _ => sessions
  end.

Definition require_auth := _get_session_from_header.

(** [require_professor] and [require_aluno], with the [require_auth] that
    they depend on. *)
Definition require_role (papel : string) (detail : string) (now : Z)
  (authorization : option string) (sessions : Sessions)
  : Sessions * Py.result Session :=
  match require_auth now authorization sessions with
  | (s', Py.Ok sess) =>
      if negb (String.eqb (role sess) papel) then
        (s', Py.Raise (Py.HTTPException 403 detail))
      else (s', Py.Ok sess)
  | (s', Py.Raise e) => (s', Py.Raise e)
  end.

Definition require_professor :=
  require_role "professor" "Acesso permitido somente ao professor.".

Definition require_aluno :=
  require_role "aluno" "Acesso permitido somente ao aluno.".

(** A token as [str(uuid4())] writes them has characters and no blank. *)
Definition token_ok (token : string) : bool :=
  negb (String.eqb token "")
  && forallb (fun c => negb (isspace c)) (list_ascii_of_string token).

End Auth.

(** Conversions of text that refuse every text; they stand for the three
    conversions below where a concrete one is needed and no text is
    converted. *)
Definition no_float_of_str : string -> option float := fun _ => None.
Definition no_int_of_str : string -> option Z := fun _ => None.

Section Store.

(** The conversions of text to numbers that are not spelled out here:
    Python's [float(s)], the two that pydantic applies to a str given for
    a float or an int field, and Python's [int(s)] for a text that has a
    character beyond ASCII, where the decimal digits and the blanks of
    Unicode come in. *)
Variable float_of_str : string -> option float.
Variable pydantic_float_of_str : string -> option float.
Variable pydantic_int_of_str : string -> option Z.
Variable int_of_unicode_str : string -> option Z.

(** A text of ASCII characters only. *)
Definition is_ascii (s : string) : bool :=
  forallb (fun c => (nat_of_ascii c <? 128)%nat) (list_ascii_of_string s).

(** [int(s)] for a str: spelled out for ASCII text, the parameter
    otherwise. *)
Definition int_of_text (s : string) : Py.result Z :=
  if is_ascii s then Py.int_of_str s
  else
    match int_of_unicode_str s with
    | Some z => Py.Ok z
    | None => Py.Raise (Py.ValueError "invalid literal for int() with base 10")
    end.

(** *** pydantic validation, as far as snapshots exercise it *)

(** A required [str] field. *)
Definition field_str (k : string) (kw : Dict.t string value) : option string :=
  match Dict.get k kw with
  | Some (VStr s) => Some s
  | _ => None
  end.

Definition validate_float (v : value) : option float :=
  match v with
  | VFloat f => Some f
  | VInt z =>
      match Py.float_of_int z with Py.Ok f => Some f | Py.Raise _ => None end
  | VBool b => Some (if b then 1%float else 0%float)
  | VStr s => pydantic_float_of_str s
  | VNone | VList _ | VDict _ => None
  end.

(** An [Optional[float] = None] field. *)
Definition field_opt_float (k : string) (kw : Dict.t string value)
  : option (option float) :=
  match Dict.get k kw with
  | None | Some VNone => Some None
  | Some v => option_map Some (validate_float v)
  end.

(** An [int] field takes an int, a bool, and a float that is finite, has
    no fractional part and lies strictly between -2^63 and 2^63. *)
Definition validate_int (v : value) : option Z :=
  match v with
  | VInt z => Some z
  | VBool b => Some (if b then 1 else 0)
  | VFloat f =>
      match Py.int_of_float f with
      | Py.Ok z =>
          match Py.float_of_int z with
          | Py.Ok g =>
              if PrimFloat.eqb f g && (Z.abs z <? 2 ^ 63) then Some z
              else None
          | Py.Raise _ => None
          end
      | Py.Raise _ => None
      end
  | VStr s => pydantic_int_of_str s
  | VNone | VList _ | VDict _ => None
  end.

(** A required [int] field. *)
Definition field_int (k : string) (kw : Dict.t string value) : option Z :=
  match Dict.get k kw with
  | Some v => validate_int v
  | None => None
  end.

(** A [List[str]] field whose default is the empty list. *)
Definition field_list_str (k : string) (kw : Dict.t string value)
  : option (list string) :=
  match Dict.get k kw with
  | None => Some []
  | Some (VList l) => all_some (map as_VStr l)
  | Some _ => None
  end.

(** A [Dict[str, dict]] field whose default is the empty dict. *)
Definition field_dict_of_dict (k : string) (kw : Dict.t string value)
  : option (Dict.t string value) :=
  match Dict.get k kw with
  | None => Some []
  | Some (VDict d) =>
      if forallb (fun kv => is_VDict (snd kv)) d then Some d else None
  | Some _ => None
  end.

(** [Aluno] built from the entries of [a] as keyword arguments. *)
Definition new_Aluno (a : value) : Py.result Aluno.t :=
  match a with
  | VDict kw =>
      match field_str "nome" kw, field_str "ra" kw, field_str "curso" kw,
            field_opt_float "np1" kw, field_opt_float "np2" kw,
            field_opt_float "pim" kw with
      | Some n, Some r, Some c, Some x1, Some x2, Some x3 =>
          Py.Ok (Aluno.make n r c x1 x2 x3)
      | _, _, _, _, _, _ => Py.Raise Py.ValidationError
      end
  | _ => Py.Raise Py.TypeError
  end.

(** [Turma] built from the entries of [t] as keyword arguments. *)
Definition new_Turma (t : value) : Py.result Turma.t :=
  match t with
  | VDict kw =>
      match field_str "codigo" kw, field_str "nome" kw,
            field_list_str "alunos" kw with
      | Some c, Some n, Some l => Py.Ok (Turma.make c n l)
      | _, _, _ => Py.Raise Py.ValidationError
      end
  | _ => Py.Raise Py.TypeError
  end.

(** [Atividade] built from the entries of [atv] as keyword arguments. *)
Definition new_Atividade (atv : value) : Py.result Atividade.t :=
  match atv with
  | VDict kw =>
      match field_int "id" kw, field_str "turma_codigo" kw,
            field_str "titulo" kw, field_str "data_entrega" kw,
            field_dict_of_dict "entregas" kw with
      | Some i, Some c, Some t, Some d, Some e =>
          Py.Ok (Atividade.make i c t d e)
      | _, _, _, _, _ => Py.Raise Py.ValidationError
      end
  | _ => Py.Raise Py.TypeError
  end.

(** [{key(k): build(v) for k, v in raw.get(name, {}).items()}]; the key
    is evaluated before the value. *)
Definition load_table {K A} `{Key K} (name : string)
  (key : string -> Py.result K) (build : value -> Py.result A) (raw : value)
  : Py.result (Dict.t K A) :=
  match value_get name (VDict []) raw with
  | Py.Raise e => Py.Raise e
  | Py.Ok tbl =>
      match value_items tbl with
      | Py.Raise e => Py.Raise e
      | Py.Ok items =>
          match traverse
                  (fun kv =>
                     match key (fst kv) with
                     | Py.Raise e => Py.Raise e
                     | Py.Ok k =>
                         match build (snd kv) with
                         | Py.Raise e => Py.Raise e
                         | Py.Ok x => Py.Ok (k, x)
                         end
                     end) items with
          | Py.Raise e => Py.Raise e
          | Py.Ok l => Py.Ok (Dict.of_items l)
          end
      end
  end.

Definition _load : M unit :=
  fun w =>
    match data_file w with
    | None => (w, Py.Ok tt)
    | Some raw =>
        (a <- lift (load_table "alunos" (@Py.Ok string) new_Aluno raw) ;;
         modify_db (set_alunos a) ;;
         t <- lift (load_table "turmas" (@Py.Ok string) new_Turma raw) ;;
         modify_db (set_turmas t) ;;
         v <- lift (load_table "atividades" int_of_text new_Atividade raw) ;;
         modify_db (set_atividades v) ;;
         n <- lift (match value_get "next_id" (VInt 1) raw with
                    | Py.Ok x => py_int int_of_text x
                    | Py.Raise e => Py.Raise e
                    end) ;;
         modify_db (set_next_atv_id n)) w
    end.

(** [DataStore()]: the constructor, run on the file found at start. *)
Definition __init__ : M unit :=
  modify_db (fun _ => empty_store) ;; _load.

(** Each student, class, assignment and payload object is held at one place
    of the store, so a mutation in place of an object is an update of the
    entry that holds it.  (An assignment can come to be held at two places,
    when [add_atividade] is given an object that the store holds: for that,
    see [ObjWorld] and [add_atividade_obj].) *)

(** ** Alunos *)

Definition add_aluno (aluno : Aluno.t) : M Aluno.t :=
  s <- get_db ;;
  if Dict.mem (Aluno.ra aluno) (alunos s) then
    raise (Py.ValueError "RA já cadastrado.")
  else
    modify_db (fun s => set_alunos (Dict.set (Aluno.ra aluno) aluno (alunos s)) s) ;;
    _save ;;
    ret aluno.

Definition get_aluno (s : DataStore) (ra : string) : option Aluno.t :=
  Dict.get ra (alunos s).


(** ** Turmas *)

Definition add_turma (turma : Turma.t) : M Turma.t :=
  s <- get_db ;;
  if Dict.mem (Turma.codigo turma) (turmas s) then
    raise (Py.ValueError "Turma já cadastrada.")
  else
    modify_db (fun s => set_turmas (Dict.set (Turma.codigo turma) turma (turmas s)) s) ;;
    _save ;;
    ret turma.

Definition get_turma (s : DataStore) (codigo : string) : option Turma.t :=
  Dict.get codigo (turmas s).

(** The class object is the one held by [turmas], so appending to its list
    changes the entry under [codigo]. *)
Definition add_aluno_to_turma (codigo ra : string) : M Turma.t :=
  s <- get_db ;;
  match get_turma s codigo with
  | None => raise (Py.ValueError "Turma não encontrada.")
  | Some turma =>
      if negb (Dict.mem ra (alunos s)) then
        raise (Py.ValueError "Aluno (RA) não encontrado.")
      else
        let turma' :=
          if negb (list_mem ra (Turma.alunos turma))
          then Turma.append_aluno ra turma else turma in
        modify_db (fun s => set_turmas (Dict.set codigo turma' (turmas s)) s) ;;
        _save ;;
        ret turma'
  end.

(** ** Atividades and entregas *)

(** [add_atividade] by value: [atv] is an object built for the call, which
    the store does not hold (so do the routers).  For any object of the
    caller's, held by the store or not, see [add_atividade_obj]. *)
Definition add_atividade (atv : Atividade.t) : M Atividade.t :=
  s <- get_db ;;
  let atv := Atividade.set_id (_next_atv_id s) atv in
  modify_db (fun s => set_next_atv_id (_next_atv_id s + 1) s) ;;
  modify_db (fun s => set_atividades (Dict.set (Atividade.id atv) atv (atividades s)) s) ;;
  _save ;;
  ret atv.

Definition get_atividade (s : DataStore) (atv_id : Z) : option Atividade.t :=
  Dict.get atv_id (atividades s).

(** [atv.entregas.get(ra, {})], and [{}] again when that is not a dict. *)
Definition payload_of (atv : Atividade.t) (ra : string) : Dict.t string value :=
  let payload :=
    match Dict.get ra (Atividade.entregas atv) with
    | Some p => p
    | None => VDict []
    end in
  match payload with
  | VDict d => d
  | _ => []
  end.

(** The assignment object is the one held by [atividades] under [atv_id]. *)
Definition add_entrega (atv_id : Z) (ra arquivo : string) : M Atividade.t :=
  s <- get_db ;;
  match get_atividade s atv_id with
  | None => raise (Py.ValueError "Atividade não encontrada.")
  | Some atv =>
      if negb (Dict.mem ra (alunos s)) then
        raise (Py.ValueError "Aluno (RA) não encontrado.")
      else
        let payload := payload_of atv ra in
        let payload := Dict.set "arquivo" (VStr arquivo) payload in
        let atv := Atividade.set_entrega ra (VDict payload) atv in
        modify_db (fun s => set_atividades (Dict.set atv_id atv (atividades s)) s) ;;
        _save ;;
        ret atv
  end.

Definition set_nota_entrega (atv_id : Z) (ra : string) (nota : value)
  : M Atividade.t :=
  match nota with
  | VNone => raise (Py.ValueError "Informe uma nota.")
  | _ =>
      match py_float float_of_str nota with
      | Py.Raise _ => raise (Py.ValueError "Nota inválida.")
      | Py.Ok n =>
          if (n <? 0)%float || (10 <? n)%float then
            raise (Py.ValueError "Nota deve estar entre 0 e 10.")
          else
            s <- get_db ;;
            match get_atividade s atv_id with
            | None => raise (Py.ValueError "Atividade não encontrada.")
            | Some atv =>
                if negb (Dict.mem ra (alunos s)) then
                  raise (Py.ValueError "Aluno (RA) não encontrado.")
                else
                  let payload := payload_of atv ra in
                  let payload := Dict.set "nota" (VFloat n) payload in
                  let atv := Atividade.set_entrega ra (VDict payload) atv in
                  modify_db (fun s => set_atividades (Dict.set atv_id atv (atividades s)) s) ;;
                  _save ;;
                  ret atv
            end
      end
  end.

(** ** Notas do aluno *)

(** The dict that [get_notas] returns. *)
Record Notas := mkNotas {
  notas_np1 : option float;
  notas_np2 : option float;
  notas_pim : option float;
  media : option float;
  situacao : string
}.

Definition get_notas (s : DataStore) (ra : string) : option Notas :=
  match Dict.get ra (alunos s) with
  | None => None
  | Some aluno =>
      let np1 := Aluno.np1 aluno in
      let np2 := Aluno.np2 aluno in
      let pim := Aluno.pim aluno in
      match np1, np2, pim with
      | Some x1, Some x2, Some x3 =>
          let media := Py.round_ndigits ((x1 * 4 + x2 * 4 + x3 * 2) / 10)%float 2 in
          let situacao := if (7 <=? media)%float then "Aprovado" else "Reprovado" in
          Some (mkNotas np1 np2 pim (Some media) situacao)
      | _, _, _ => Some (mkNotas np1 np2 pim None "Sem notas")
      end
  end.

(** The inner [_val(v, nome)] of [set_notas]. *)
Definition _val (v : value) (nome : string) : M unit :=
  match v with
  | VNone => ret tt
  | _ =>
      match py_float float_of_str v with
      | Py.Raise _ => raise (Py.ValueError (nome ++ " inválida."))
      | Py.Ok n =>
          if (n <? 0)%float || (10 <? n)%float then
            raise (Py.ValueError (nome ++ " deve estar entre 0 e 10."))
          else ret tt
      end
  end.

(** [if v is not None: setattr(aluno, field, float(v))] on the student
    object held by [alunos] under [ra]. *)
Definition assign_nota (ra : string) (setter : float -> Aluno.t -> Aluno.t)
  (v : value) : M unit :=
  match v with
  | VNone => ret tt
  | _ =>
      x <- lift (py_float float_of_str v) ;;
      modify_db (fun s =>
        match Dict.get ra (alunos s) with
        | Some aluno => set_alunos (Dict.set ra (setter x aluno) (alunos s)) s
        | None => s
        end)
  end.

Definition set_notas (ra : string) (np1 np2 pim : value) : M (option Notas) :=
  s <- get_db ;;
  match Dict.get ra (alunos s) with
  | None => raise (Py.ValueError "Aluno não encontrado.")
  | Some _ =>
      _val np1 "NP1" ;;
      _val np2 "NP2" ;;
      _val pim "PIM" ;;
      assign_nota ra Aluno.set_np1 np1 ;;
      assign_nota ra Aluno.set_np2 np2 ;;
      assign_nota ra Aluno.set_pim pim ;;
      _save ;;
      s <- get_db ;;
      ret (get_notas s ra)
  end.

(** ** Consulta rápida *)

Definition atividades_da_turma (s : DataStore) (codigo : string)
  : list Atividade.t :=
  filter (fun a => String.eqb (Atividade.turma_codigo a) codigo)
         (Dict.values (atividades s)).

Definition pendencias_entrega (s : DataStore) (codigo : string)
  : Py.result (Dict.t Z (list string)) :=
  match get_turma s codigo with
  | None => Py.Raise (Py.ValueError "Turma não encontrada.")
  | Some t =>
      Py.Ok
        (fold_left
           (fun out atv =>
              let faltam :=
                filter (fun ra => negb (Dict.mem ra (Atividade.entregas atv)))
                       (Turma.alunos t) in
              Dict.set (Atividade.id atv) faltam out)
           (atividades_da_turma s codigo) [])
  end.

(** The [nota] that [pendencias_nota] reads for one [ra]: None unless the
    payload is a dict, and then [payload.get("nota")]. *)
Definition nota_da_entrega (atv : Atividade.t) (ra : string) : value :=
  match Dict.get ra (Atividade.entregas atv) with
  | Some (VDict d) =>
      match Dict.get "nota" d with Some n => n | None => VNone end
  | _ => VNone
  end.

Definition is_None (v : value) : bool :=
  match v with VNone => true | _ => false end.

Definition pendencias_nota (s : DataStore) (codigo : string)
  : Py.result (Dict.t Z (list string)) :=
  match get_turma s codigo with
  | None => Py.Raise (Py.ValueError "Turma não encontrada.")
  | Some t =>
      Py.Ok
        (fold_left
           (fun out atv =>
              let sem_nota :=
                filter (fun ra => is_None (nota_da_entrega atv ra))
                       (Turma.alunos t) in
              Dict.set (Atividade.id atv) sem_nota out)
           (atividades_da_turma s codigo) [])
  end.

(* ------------------------------------------------------------------ *)
(** ** The reports (app/routers/relatorios.py) *)
(* ------------------------------------------------------------------ *)

(** The [valor] read from one payload: [payload.get("nota", None)] for a
    dict; any other value has no attribute [nota]. *)
Definition valor_do_payload (payload : value) : value :=
  match payload with
  | VDict d => match Dict.get "nota" d with Some n => n | None => VNone end
  | _ => VNone
  end.

(** One turn of the loop of [_coletar_notas_da_atividade]: the grade to
    append, if any.  Only TypeError and ValueError are caught. *)
Definition coletar_nota (payload : value) : Py.result (option float) :=
  let valor := valor_do_payload payload in
  match valor with
  | VNone => Py.Ok None
  | _ =>
      match py_float float_of_str valor with
      | Py.Raise Py.TypeError | Py.Raise (Py.ValueError _) => Py.Ok None
      | Py.Raise e => Py.Raise e
      | Py.Ok n =>
          if (0 <=? n)%float && (n <=? 10)%float then Py.Ok (Some n)
          else Py.Ok None
      end
  end.

Fixpoint coletar_notas (payloads : list value) : Py.result (list float) :=
  match payloads with
  | [] => Py.Ok []
  | p :: r =>
      match coletar_nota p with
      | Py.Raise e => Py.Raise e
      | Py.Ok o =>
          match coletar_notas r with
          | Py.Raise e => Py.Raise e
          | Py.Ok notas =>
              Py.Ok (match o with Some n => n :: notas | None => notas end)
          end
      end
  end.

Definition _coletar_notas_da_atividade (atv : Atividade.t)
  : Py.result (list float) :=
  coletar_notas (Dict.values (Atividade.entregas atv)).

(** One entry of the list under ["atividades"] in the class report. *)
Record ResumoAtividade := mkResumo {
  resumo_id : Z;
  resumo_titulo : string;
  resumo_data_entrega : string;
  total_entregas : Z;
  percentual_entregas : float
}.

Record RelatorioTurma := mkRelatorio {
  rel_turma : string;
  rel_nome : string;
  total_alunos : Z;
  total_atividades : Z;
  rel_atividades : list ResumoAtividade;
  media_entregas_por_atividade : float
}.

Definition len {A} (l : list A) : Z := Z.of_nat (List.length l).

(** The body of the loop over the assignments of the class. *)
Definition resumo (turma : Turma.t) (atv : Atividade.t)
  : Py.result ResumoAtividade :=
  let total := len (Atividade.entregas atv) in
  match
    match Turma.alunos turma with
    | [] => Py.Ok 0%float
    | _ :: _ =>
        match Py.int_truediv total (len (Turma.alunos turma)) with
        | Py.Ok q => Py.Ok (Py.round_ndigits (q * 100)%float 2)
        | Py.Raise e => Py.Raise e
        end
    end
  with
  | Py.Raise e => Py.Raise e
  | Py.Ok percentual =>
      Py.Ok (mkResumo (Atividade.id atv) (Atividade.titulo atv)
               (Atividade.data_entrega atv) total percentual)
  end.

(** [sum(len(atv.entregas) for atv in atividades)] *)
Definition soma_entregas (atividades : list Atividade.t) : Z :=
  fold_left Z.add (map (fun atv => len (Atividade.entregas atv)) atividades) 0.

Definition relatorio_turma (s : DataStore) (codigo : string)
  : Py.result RelatorioTurma :=
  match get_turma s codigo with
  | None => Py.Raise (Py.HTTPException 404 "Turma não encontrada.")
  | Some turma =>
      let atividades :=
        filter (fun atv => String.eqb (Atividade.turma_codigo atv) codigo)
               (Dict.values (atividades s)) in
      match traverse (resumo turma) atividades with
      | Py.Raise e => Py.Raise e
      | Py.Ok resumos =>
          match
            match atividades with
            | [] => Py.Ok 0%float
            | _ :: _ =>
                let soma := soma_entregas atividades in
                match Py.int_truediv soma (len atividades) with
                | Py.Ok q => Py.Ok (Py.round_ndigits q 2)
                | Py.Raise e => Py.Raise e
                end
            end
          with
          | Py.Raise e => Py.Raise e
          | Py.Ok media =>
              Py.Ok (mkRelatorio (Turma.codigo turma) (Turma.nome turma)
                       (len (Turma.alunos turma)) (len atividades)
                       resumos media)
          end
      end
  end.

(** The two shapes of the answer of the two grade reports. *)
Inductive RelatorioNotas : Type :=
| SemNotas (atividade_id : Z) (mensagem : string)
| Distribuicao (atividade_id : Z) (distribuicao : Dict.t Z Z).

(** [{i: 0 for i in range(11)}] *)
Definition buckets0 : Dict.t Z Z :=
  Dict.of_items (map (fun i => (Z.of_nat i, 0)) (seq 0 11)).

(** The loop over the grades: [k = min(max(int(round(n)), 0), 10)] and
    [buckets[k] += 1]. *)
Fixpoint tally (notas : list float) (buckets : Dict.t Z Z)
  : Py.result (Dict.t Z Z) :=
  match notas with
  | [] => Py.Ok buckets
  | n :: r =>
      match Py.round_int n with
      | Py.Raise e => Py.Raise e
      | Py.Ok i =>
          let k := Z.min (Z.max i 0) 10 in
          match Dict.get k buckets with
          | None => Py.Raise Py.KeyError
          | Some c => tally r (Dict.set k (c + 1) buckets)
          end
      end
  end.

Definition distribuicao_notas (s : DataStore) (atividade_id : Z)
  : Py.result RelatorioNotas :=
  match get_atividade s atividade_id with
  | None => Py.Raise (Py.HTTPException 404 "Atividade não encontrada.")
  | Some atv =>
      match _coletar_notas_da_atividade atv with
      | Py.Raise e => Py.Raise e
      | Py.Ok [] => Py.Ok (SemNotas atividade_id "Sem notas registradas.")
      | Py.Ok notas =>
          match tally notas buckets0 with
          | Py.Raise e => Py.Raise e
          | Py.Ok buckets => Py.Ok (Distribuicao atividade_id buckets)
          end
      end
  end.

(* ------------------------------------------------------------------ *)
(** ** Vocabulary of the properties *)
(* ------------------------------------------------------------------ *)

(** A call of one of the mutating methods of the store. *)
Inductive call : Type :=
| Call_add_aluno (aluno : Aluno.t)
| Call_add_turma (turma : Turma.t)
| Call_add_aluno_to_turma (codigo ra : string)
| Call_add_atividade (atv : Atividade.t)
| Call_add_entrega (atv_id : Z) (ra arquivo : string)
| Call_set_nota_entrega (atv_id : Z) (ra : string) (nota : value)
| Call_set_notas (ra : string) (np1 np2 pim : value).

(** Running a call; the answer keeps only the id given to a new
    assignment. *)
Definition exec (c : call) : M (option Z) :=
  match c with
  | Call_add_aluno aluno => add_aluno aluno ;; ret None
  | Call_add_turma turma => add_turma turma ;; ret None
  | Call_add_aluno_to_turma codigo ra => add_aluno_to_turma codigo ra ;; ret None
  | Call_add_atividade atv => a <- add_atividade atv ;; ret (Some (Atividade.id a))
  | Call_add_entrega atv_id ra arquivo => add_entrega atv_id ra arquivo ;; ret None
  | Call_set_nota_entrega atv_id ra nota => set_nota_entrega atv_id ra nota ;; ret None
  | Call_set_notas ra np1 np2 pim => set_notas ra np1 np2 pim ;; ret None
  end.

(** A caller that issues the calls one after the other, goes on after a
    call that raised, and notes the ids of the assignments created. *)
Fixpoint run_calls (cs : list call) (w : World) : World * list Z :=
  match cs with
  | [] => (w, [])
  | c :: r =>
      let (w1, res) := exec c w in
      let (w2, ids) := run_calls r w1 in
      (w2, match res with Py.Ok (Some i) => i :: ids | _ => ids end)
  end.

Definition is_add_atividade (c : call) : bool :=
  match c with Call_add_atividade _ => true | _ => false end.

(** A method that leaves the counter of ids alone, whether it returns or
    raises. *)
Definition keeps_next_id {A} (m : M A) : Prop :=
  forall w, _next_atv_id (db (fst (m w))) = _next_atv_id (db w).

(** The ids [k], [k + 1], ... *)
Fixpoint ids_from (k : Z) (n : nat) : list Z :=
  match n with
  | O => []
  | S m => k :: ids_from (k + 1) m
  end.

(** What [_val] lets through: None, or a value that converts to a float
    that is neither below 0 nor above 10. *)
Definition aceita (v : value) : Prop :=
  v = VNone
  \/ exists n, py_float float_of_str v = Py.Ok n
               /\ (n <? 0)%float = false /\ (10 <? n)%float = false.

(** The field of a student after [set_notas] was given [v] for it. *)
Definition nota_atribuida (v : value) (old : option float) : option float :=
  match v with
  | VNone => old
  | _ =>
      match py_float float_of_str v with
      | Py.Ok n => Some n
      | Py.Raise _ => old
      end
  end.

(** The student after [assign_nota] was given [v] for the field of
    [setter]. *)
Definition atribui (setter : float -> Aluno.t -> Aluno.t) (v : value)
  (a : Aluno.t) : Aluno.t :=
  match v with
  | VNone => a
  | _ =>
      match py_float float_of_str v with
      | Py.Ok n => setter n a
      | Py.Raise _ => a
      end
  end.

(** The grade that a submission carries, in the sense of the reports: a
    value that converts to a number of [0, 10]. *)
Definition nota_valida (payload : value) : option float :=
  match valor_do_payload payload with
  | VNone => None
  | valor =>
      match py_float float_of_str valor with
      | Py.Ok n => if (0 <=? n)%float && (n <=? 10)%float then Some n else None
      | Py.Raise _ => None
      end
  end.






Definition in_range (n : float) : bool := ((0 <=? n) && (n <=? 10))%float.

(** ** Rounding, said without the functions that round *)

(** [k] is the integer nearest to the rational [num / den], and the even
    one when two integers are as near ([den > 0]). *)
Definition nearest_even (num den k : Z) : Prop :=
  2 * Z.abs (k * den - num) <= den
  /\ (2 * Z.abs (k * den - num) = den -> Z.even k = true).

(** [k] is the integer nearest, ties to even, to [scale] times the
    magnitude [m * 2^e] of a finite float. *)
Definition nearest_scaled (m : positive) (e : Z) (scale k : Z) : Prop :=
  match e with
  | Zneg p => nearest_even (Zpos m * scale) (2 ^ Zpos p) k
  | _ => k = Zpos m * 2 ^ e * scale
  end.

(** The float nearest (ties to even) to the decimal number
    [k / 10^ndigits], [k >= 0], with the sign [neg]. *)
Definition float_of_decimal (neg : bool) (k : Z) (ndigits : nat) : float :=
  SF2Prim
    (SFdiv prec emax
       (match k with
        | Zpos kp => S754_finite neg kp 0
        | _ => S754_zero neg
        end)
       (S754_finite false (Z.to_pos (10 ^ Z.of_nat ndigits)) 0)).

(** [y] is [x] rounded to [ndigits] decimal places: for a finite [x], the
    float nearest to the decimal number with [ndigits] places that is
    nearest to the exact value of [x]; NaN, the infinities and the zeros
    are left as they are. *)
Definition rounded_to (ndigits : nat) (x y : float) : Prop :=
  match Prim2SF x with
  | S754_finite s m e =>
      exists k,
        0 <= k
        /\ nearest_scaled m e (10 ^ Z.of_nat ndigits) k
        /\ y = float_of_decimal s k ndigits
  | _ => y = x
  end.


(** The submission of [ra] in assignment [atv_id] went from [atv] to [atv']
    with nothing but [field] written, as [v], in its payload: the other
    keys of the payload, the other submissions, the other fields of the
    assignment and the rest of the store are as before, and the file holds
    the new store. *)
Definition entrega_updated (field : string) (v : value) (atv_id : Z)
  (ra : string) (w w' : World) (atv atv' : Atividade.t) : Prop :=
  get_atividade (db w') atv_id = Some atv'
  /\ Dict.get field (payload_of atv' ra) = Some v
  /\ (forall k, k <> field ->
       Dict.get k (payload_of atv' ra) = Dict.get k (payload_of atv ra))
  /\ (forall r, r <> ra ->
       Dict.get r (Atividade.entregas atv') = Dict.get r (Atividade.entregas atv))
  /\ Atividade.id atv' = Atividade.id atv
  /\ Atividade.turma_codigo atv' = Atividade.turma_codigo atv
  /\ Atividade.titulo atv' = Atividade.titulo atv
  /\ Atividade.data_entrega atv' = Atividade.data_entrega atv
  /\ (forall i, i <> atv_id ->
       get_atividade (db w') i = get_atividade (db w) i)
  /\ alunos (db w') = alunos (db w)
  /\ turmas (db w') = turmas (db w)
  /\ _next_atv_id (db w') = _next_atv_id (db w)
  /\ data_file w' = Some (dump (db w')).

(** What holds of every store that Python can build: the keys of a dict are
    pairwise distinct, and the payloads of [entregas] are dicts, as the
    field is declared. *)
Fixpoint distinct {K} `{Key K} (l : list K) : bool :=
  match l with
  | [] => true
  | k :: r => negb (existsb (key_eqb k) r) && distinct r
  end.

Definition atividade_ok (atv : Atividade.t) : bool :=
  forallb is_VDict (Dict.values (Atividade.entregas atv)).

Definition well_formed (s : DataStore) : bool :=
  distinct (Dict.keys (alunos s))
  && distinct (Dict.keys (turmas s))
  && distinct (Dict.keys (atividades s))
  && forallb atividade_ok (Dict.values (atividades s)).

(** The calls whose arguments are objects that pydantic has validated. *)
Definition call_ok (c : call) : bool :=
  match c with
  | Call_add_atividade atv => atividade_ok atv
  | _ => true
  end.

(** The world in which the process starts: nothing in memory yet, and
    [file] on disk. *)
Definition boot (file : option value) : World := mkWorld empty_store file 0.

(* ------------------------------------------------------------------ *)
(** ** Sample data *)
(* ------------------------------------------------------------------ *)

Definition ana : Aluno.t :=
  Aluno.make "Ana" "H76DJH0" "ADS" (Some 8%float) (Some 6%float) (Some 10%float).

Definition bia : Aluno.t :=
  Aluno.make "Bia" "G12ABC3" "ADS" None None None.

Definition tads01 : Turma.t :=
  Turma.make "TADS01" "ADS - 1 Semestre" ["H76DJH0"; "G12ABC3"].

(** A class without students. *)
Definition tads02 : Turma.t := Turma.make "TADS02" "ADS - 2 Semestre" [].

Definition atv1 : Atividade.t :=
  Atividade.make 1 "TADS01" "Atv 1" "2025-11-30"
    [("H76DJH0", VDict [("arquivo", VStr "Atividade1.pdf"); ("nota", VFloat 9.5)])].

(** An assignment of the class without students, with one submission. *)
Definition atv2 : Atividade.t :=
  Atividade.make 2 "TADS02" "Atv 2" "2025-12-05"
    [("H76DJH0", VDict [("arquivo", VStr "Atividade2.pdf")])].

(** An assignment that nobody has submitted yet. *)
Definition atv3 : Atividade.t :=
  Atividade.make 3 "TADS01" "Atv 3" "2025-12-12" [].

(** An assignment with the grades 7.4, 7.6 and 10.0, and one submission
    without a grade. *)
Definition atv4 : Atividade.t :=
  Atividade.make 4 "TADS01" "Atv 4" "2025-12-19"
    [("H76DJH0", VDict [("arquivo", VStr "a.pdf"); ("nota", VFloat 7.4)]);
     ("G12ABC3", VDict [("nota", VFloat 7.6)]);
     ("K00XYZ1", VDict [("arquivo", VStr "k.pdf")]);
     ("K00XYZ2", VDict [("nota", VFloat 10)])].

Definition sample_store : DataStore :=
  mkDataStore
    [("H76DJH0", ana); ("G12ABC3", bia)]
    [("TADS01", tads01); ("TADS02", tads02)]
    [(1, atv1); (2, atv2); (3, atv3); (4, atv4)]
    5.

Definition sample_world : World :=
  mkWorld sample_store (Some (dump sample_store)) 8.

(** A snapshot edited by hand: the file reference is there, the grade of
    one student is a text that is no number, the grade of the other is a
    number out of the range. *)
Definition edited_snapshot : value :=
  VDict
    [("alunos",
      VDict [("H76DJH0", Aluno.model_dump ana); ("G12ABC3", Aluno.model_dump bia)]);
     ("turmas", VDict [("TADS01", Turma.model_dump tads01)]);
     ("atividades",
      VDict
        [("1",
          VDict
            [("id", VInt 1); ("turma_codigo", VStr "TADS01");
             ("titulo", VStr "Atv 1"); ("data_entrega", VStr "2025-11-30");
             ("entregas",
              VDict
                [("H76DJH0",
                  VDict [("arquivo", VStr "Atividade1.pdf"); ("nota", VStr "abc")]);
                 ("G12ABC3",
                  VDict [("arquivo", VStr "Atividade1.pdf"); ("nota", VFloat 11.5)])])])]);
     ("next_id", VInt 2)].

(** The assignment and the store that this snapshot loads as. *)
Definition edited_atv : Atividade.t :=
  Atividade.make 1 "TADS01" "Atv 1" "2025-11-30"
    [("H76DJH0", VDict [("arquivo", VStr "Atividade1.pdf"); ("nota", VStr "abc")]);
     ("G12ABC3", VDict [("arquivo", VStr "Atividade1.pdf"); ("nota", VFloat 11.5)])].

Definition edited_store : DataStore :=
  mkDataStore [("H76DJH0", ana); ("G12ABC3", bia)] [("TADS01", tads01)]
    [(1, edited_atv)] 2.

(* ------------------------------------------------------------------ *)
(** ** The mean of the grades (app/routers/relatorios.py) *)
(* ------------------------------------------------------------------ *)

(** Python's [sum] over a list of floats; how it adds them up depends on
    the version of the interpreter, so it is not spelled out. *)
Variable sum_floats : list float -> float.

(** [x / n] for a float and an int. *)
Definition float_truediv_int (x : float) (n : Z) : Py.result float :=
  match Py.float_of_int n with
  | Py.Raise e => Py.Raise e
  | Py.Ok d =>
      if (d =? 0)%float then Py.Raise Py.ZeroDivisionError
      else Py.Ok (x / d)%float
  end.

(** The two shapes of the answer of [media_notas]. *)
Inductive RelatorioMedia : Type :=
| MediaSemNotas (atividade_id : Z) (mensagem : string)
| Media (atividade_id : Z) (media : float) (total_notas : Z).

Definition media_notas (s : DataStore) (atividade_id : Z)
  : Py.result RelatorioMedia :=
  match get_atividade s atividade_id with
  | None => Py.Raise (Py.HTTPException 404 "Atividade não encontrada.")
  | Some atv =>
      match _coletar_notas_da_atividade atv with
      | Py.Raise e => Py.Raise e
      | Py.Ok [] => Py.Ok (MediaSemNotas atividade_id "Sem notas registradas.")
      | Py.Ok notas =>
          match float_truediv_int (sum_floats notas) (len notas) with
          | Py.Raise e => Py.Raise e
          | Py.Ok q => Py.Ok (Media atividade_id (Py.round_ndigits q 2) (len notas))
          end
      end
  end.


(* ------------------------------------------------------------------ *)
(** ** The routers that call the store *)
(* ------------------------------------------------------------------ *)

(** [try: ... except ValueError as e: raise HTTPException(status, str(e))]
    around a method of the store. *)
Definition except_ValueError {A} (status : Z) (m : M A) : M A :=
  fun w =>
    match m w with
    | (w', Py.Raise (Py.ValueError msg)) =>
        (w', Py.Raise (Py.HTTPException status msg))
    | r => r
    end.

Record TurmaCreate := mkTurmaCreate {
  tc_codigo : string;
  tc_nome : string
}.

Record AtividadeCreate := mkAtividadeCreate {
  ac_turma_codigo : string;
  ac_titulo : string;
  ac_data_entrega : string
}.

Record EntregaCreate := mkEntregaCreate {
  ec_ra : string;
  ec_arquivo : string
}.

Record NotaCreate := mkNotaCreate {
  nc_ra : string;
  nc_nota : float
}.

(** routers/turmas.py *)
Definition turmas_criar_turma (payload : TurmaCreate) : M Turma.t :=
  except_ValueError 400
    (add_turma (Turma.make (tc_codigo payload) (tc_nome payload) [])).

Definition turmas_obter_turma (s : DataStore) (codigo : string)
  : Py.result Turma.t :=
  match get_turma s codigo with
  | None => Py.Raise (Py.HTTPException 404 "Turma não encontrada.")
  | Some turma => Py.Ok turma
  end.

Definition turmas_adicionar_aluno_na_turma (codigo ra : string) : M Turma.t :=
  except_ValueError 400 (add_aluno_to_turma codigo ra).

Definition turmas_listar_atividades_da_turma (s : DataStore) (codigo : string)
  : Py.result (list Atividade.t) :=
  match get_turma s codigo with
  | None => Py.Raise (Py.HTTPException 404 "Turma não encontrada.")
  | Some _ =>
      Py.Ok (filter (fun atv => String.eqb (Atividade.turma_codigo atv) codigo)
               (Dict.values (atividades s)))
  end.

(** routers/atividades.py *)
Definition atividades_criar_atividade (payload : AtividadeCreate)
  : M Atividade.t :=
  s <- get_db ;;
  match get_turma s (ac_turma_codigo payload) with
  | None => raise (Py.HTTPException 404 "Turma não encontrada.")
  | Some _ =>
      add_atividade
        (Atividade.make 0 (ac_turma_codigo payload) (ac_titulo payload)
           (ac_data_entrega payload) [])
  end.

Definition atividades_obter_atividade (s : DataStore) (atividade_id : Z)
  : Py.result Atividade.t :=
  match get_atividade s atividade_id with
  | None => Py.Raise (Py.HTTPException 404 "Atividade não encontrada.")
  | Some atv => Py.Ok atv
  end.

Definition atividades_entregar_atividade (atividade_id : Z)
  (entrega : EntregaCreate) : M Atividade.t :=
  except_ValueError 400
    (add_entrega atividade_id (ec_ra entrega) (ec_arquivo entrega)).

(** [registrar_nota] calls [db.set_nota], and the store has no method of
    that name (its method is [set_nota_entrega]): the lookup of the
    attribute raises AttributeError, which [except ValueError] lets
    through. *)
Definition atividades_registrar_nota (atividade_id : Z) (payload : NotaCreate)
  : M Atividade.t :=
  except_ValueError 400 (raise Py.AttributeError).

(** routers/consulta_rapida.py *)
Definition consulta_rapida_pendencias_entrega (s : DataStore) (codigo : string)
  : Py.result (string * Dict.t Z (list string)) :=
  match pendencias_entrega s codigo with
  | Py.Raise (Py.ValueError msg) => Py.Raise (Py.HTTPException 404 msg)
  | Py.Raise e => Py.Raise e
  | Py.Ok mapa => Py.Ok (codigo, mapa)
  end.

Definition consulta_rapida_pendencias_notas (s : DataStore) (codigo : string)
  : Py.result (string * Dict.t Z (list string)) :=
  match pendencias_nota s codigo with
  | Py.Raise (Py.ValueError msg) => Py.Raise (Py.HTTPException 404 msg)
  | Py.Raise e => Py.Raise e
  | Py.Ok mapa => Py.Ok (codigo, mapa)
  end.

(** [payload.get(k, None)] on the body of the request. *)
Definition body_get (k : string) (payload : Dict.t string value) : value :=
  match Dict.get k payload with Some v => v | None => VNone end.

(** The answer of [lancar_notas]: "status", "mensagem", "ra" and the
    entries of the consolidated view. *)
Record NotasLancadas := mkNotasLancadas {
  nl_status : string;
  nl_mensagem : string;
  nl_ra : string;
  nl_notas : Notas
}.

Definition consulta_rapida_lancar_notas (ra : string)
  (payload : Dict.t string value) : M NotasLancadas :=
  s <- get_db ;;
  match get_aluno s ra with
  | None => raise (Py.HTTPException 404 "Aluno não encontrado.")
  | Some _ =>
      let np1 := body_get "np1" payload in
      let np2 := body_get "np2" payload in
      let pim := body_get "pim" payload in
      result <- except_ValueError 400 (set_notas ra np1 np2 pim) ;;
      match result with
      | Some notas =>
          ret (mkNotasLancadas "ok" "Notas lançadas/atualizadas com sucesso."
                 ra notas)
      | None => raise Py.TypeError
      end
  end.

(** The answer of [status_atualizado]: the RA and, when the store has a
    view for it, its entries. *)
Definition consulta_rapida_status_atualizado (s : DataStore) (ra : string)
  : Py.result (string * option Notas) :=
  match get_aluno s ra with
  | None => Py.Raise (Py.HTTPException 404 "Aluno não encontrado.")
  | Some _ => Py.Ok (ra, get_notas s ra)
  end.

(** routers/aluno_portal.py *)
Record StatusAluno := mkStatusAluno {
  st_ra : string;
  st_nome : string;
  st_curso : string;
  st_turma : option string;
  st_np1 : option float;
  st_np2 : option float;
  st_pim : option float;
  st_media : option float;
  st_situacao : string
}.

(** [[t.codigo for t in db.turmas.values() if ra in t.alunos]] *)
Definition turmas_do_aluno (s : DataStore) (ra : string) : list string :=
  map Turma.codigo
    (filter (fun t => list_mem ra (Turma.alunos t)) (Dict.values (turmas s))).

Definition aluno_portal_status_aluno (s : DataStore) (ra : string)
  : Py.result StatusAluno :=
  match get_aluno s ra with
  | None => Py.Raise (Py.HTTPException 404 "Aluno não encontrado.")
  | Some aluno =>
      let turma :=
        match turmas_do_aluno s ra with
        | c :: _ => Some c
        | [] => None
        end in
      match get_notas s ra with
      | Some n =>
          Py.Ok (mkStatusAluno ra (Aluno.nome aluno) (Aluno.curso aluno) turma
                   (notas_np1 n) (notas_np2 n) (notas_pim n) (media n)
                   (situacao n))
      | None =>
          Py.Ok (mkStatusAluno ra (Aluno.nome aluno) (Aluno.curso aluno) turma
                   None None None None "Sem notas")
      end
  end.

(** A request to one of the routes that change the store. *)
Inductive request : Type :=
| Req_criar_turma (payload : TurmaCreate)
| Req_adicionar_aluno_na_turma (codigo ra : string)
| Req_criar_atividade (payload : AtividadeCreate)
| Req_entregar_atividade (atividade_id : Z) (entrega : EntregaCreate)
| Req_registrar_nota (atividade_id : Z) (payload : NotaCreate)
| Req_lancar_notas (ra : string) (payload : Dict.t string value).

Definition handle (r : request) : M unit :=
  match r with
  | Req_criar_turma payload => turmas_criar_turma payload ;; ret tt
  | Req_adicionar_aluno_na_turma codigo ra =>
      turmas_adicionar_aluno_na_turma codigo ra ;; ret tt
  | Req_criar_atividade payload => atividades_criar_atividade payload ;; ret tt
  | Req_entregar_atividade atividade_id entrega =>
      atividades_entregar_atividade atividade_id entrega ;; ret tt
  | Req_registrar_nota atividade_id payload =>
      atividades_registrar_nota atividade_id payload ;; ret tt
  | Req_lancar_notas ra payload => consulta_rapida_lancar_notas ra payload ;; ret tt
  end.

(* ------------------------------------------------------------------ *)
(** ** What a call does, as a function of the store *)
(* ------------------------------------------------------------------ *)

(** The test of the range as the store writes it: neither below 0 nor
    above 10. *)
Definition passa (n : float) : bool := negb ((n <? 0)%float || (10 <? n)%float).

(** [aceita] as a test. *)
Definition aceitab (v : value) : bool :=
  match v with
  | VNone => true
  | _ =>
      match py_float float_of_str v with
      | Py.Ok n => passa n
      | Py.Raise _ => false
      end
  end.

(** Whether the call returns. *)
Definition guarda (c : call) (s : DataStore) : bool :=
  match c with
  | Call_add_aluno aluno => negb (Dict.mem (Aluno.ra aluno) (alunos s))
  | Call_add_turma turma => negb (Dict.mem (Turma.codigo turma) (turmas s))
  | Call_add_aluno_to_turma codigo ra =>
      Dict.mem codigo (turmas s) && Dict.mem ra (alunos s)
  | Call_add_atividade _ => true
  | Call_add_entrega atv_id ra _ =>
      Dict.mem atv_id (atividades s) && Dict.mem ra (alunos s)
  | Call_set_nota_entrega atv_id ra nota =>
      negb (is_None nota) && aceitab nota
      && Dict.mem atv_id (atividades s) && Dict.mem ra (alunos s)
  | Call_set_notas ra np1 np2 pim =>
      Dict.mem ra (alunos s) && aceitab np1 && aceitab np2 && aceitab pim
  end.

(** The store that the call leaves when it returns. *)
Definition efeito (c : call) (s : DataStore) : DataStore :=
  match c with
  | Call_add_aluno aluno =>
      set_alunos (Dict.set (Aluno.ra aluno) aluno (alunos s)) s
  | Call_add_turma turma =>
      set_turmas (Dict.set (Turma.codigo turma) turma (turmas s)) s
  | Call_add_aluno_to_turma codigo ra =>
      match get_turma s codigo with
      | Some turma =>
          let turma' :=
            if list_mem ra (Turma.alunos turma) then turma
            else Turma.append_aluno ra turma in
          set_turmas (Dict.set codigo turma' (turmas s)) s
      | None => s
      end
  | Call_add_atividade atv =>
      mkDataStore (alunos s) (turmas s)
        (Dict.set (_next_atv_id s) (Atividade.set_id (_next_atv_id s) atv)
           (atividades s))
        (_next_atv_id s + 1)
  | Call_add_entrega atv_id ra arquivo =>
      match get_atividade s atv_id with
      | Some atv =>
          set_atividades
            (Dict.set atv_id
               (Atividade.set_entrega ra
                  (VDict (Dict.set "arquivo" (VStr arquivo) (payload_of atv ra)))
                  atv)
               (atividades s)) s
      | None => s
      end
  | Call_set_nota_entrega atv_id ra nota =>
      match get_atividade s atv_id, py_float float_of_str nota with
      | Some atv, Py.Ok n =>
          set_atividades
            (Dict.set atv_id
               (Atividade.set_entrega ra
                  (VDict (Dict.set "nota" (VFloat n) (payload_of atv ra)))
                  atv)
               (atividades s)) s
      | _, _ => s
      end
  | Call_set_notas ra np1 np2 pim =>
      match Dict.get ra (alunos s) with
      | Some a =>
          set_alunos
            (Dict.set ra
               (atribui Aluno.set_pim pim
                  (atribui Aluno.set_np2 np2 (atribui Aluno.set_np1 np1 a)))
               (alunos s)) s
      | None => s
      end
  end.

(** ** More of what holds of the stores that the calls build *)

(** What the routers hand to the store: a student without grades, a class
    without members, an assignment without submissions. *)
Definition as_routers_build (c : call) : bool :=
  match c with
  | Call_add_aluno a =>
      match Aluno.np1 a, Aluno.np2 a, Aluno.pim a with
      | None, None, None => true
      | _, _, _ => false
      end
  | Call_add_turma t => match Turma.alunos t with [] => true | _ => false end
  | Call_add_atividade atv =>
      match Atividade.entregas atv with [] => true | _ => false end
  | _ => true
  end.

(** The members of every class are registered students, each listed
    once. *)
Definition membros_ok (s : DataStore) : bool :=
  forallb
    (fun t =>
       distinct (Turma.alunos t)
       && forallb (fun ra => Dict.mem ra (alunos s)) (Turma.alunos t))
    (Dict.values (turmas s)).

(** The submissions of every assignment are those of registered students. *)
Definition entregas_ok (s : DataStore) : bool :=
  forallb
    (fun atv =>
       forallb (fun ra => Dict.mem ra (alunos s))
         (Dict.keys (Atividade.entregas atv)))
    (Dict.values (atividades s)).

(** Every assignment is held once, under its own id, and the ids run from 1
    to below the counter. *)
Definition ids_ok (s : DataStore) : bool :=
  (1 <=? _next_atv_id s)
  && distinct (Dict.keys (atividades s))
  && forallb
       (fun kv =>
          (fst kv =? Atividade.id (snd kv))
          && (1 <=? fst kv) && (fst kv <? _next_atv_id s))
       (atividades s).

Definition nota_opcional_ok (o : option float) : bool :=
  match o with Some n => passa n | None => true end.

Definition aluno_notas_ok (a : Aluno.t) : bool :=
  nota_opcional_ok (Aluno.np1 a) && nota_opcional_ok (Aluno.np2 a)
  && nota_opcional_ok (Aluno.pim a).

(** A payload whose grade, if it has one, is a float that passes the test
    of the range. *)
Definition payload_nota_ok (p : value) : bool :=
  match p with
  | VDict d =>
      match Dict.get "nota" d with
      | None => true
      | Some (VFloat n) => passa n
      | Some _ => false
      end
  | _ => false
  end.

(** Every grade in the store passed the test of the range. *)
Definition notas_ok (s : DataStore) : bool :=
  forallb aluno_notas_ok (Dict.values (alunos s))
  && forallb
       (fun atv => forallb payload_nota_ok (Dict.values (Atividade.entregas atv)))
       (Dict.values (atividades s)).

(** Every assignment belongs to a class of the store. *)
Definition turmas_ok (s : DataStore) : bool :=
  forallb (fun atv => Dict.mem (Atividade.turma_codigo atv) (turmas s))
    (Dict.values (atividades s)).

(** [l1] is the beginning of [l2]. *)
Definition prefixo {A} (l1 l2 : list A) : Prop := exists r, l2 = (l1 ++ r)%list.

(** The sum of the counts of a histogram. *)
Definition soma_contagens (b : Dict.t Z Z) : Z :=
  fold_left Z.add (Dict.values b) 0.


(** The call of the store that a request comes down to, when its route
    gets as far as the store. *)
Definition call_of (r : request) (s : DataStore) : option call :=
  match r with
  | Req_criar_turma payload =>
      Some (Call_add_turma (Turma.make (tc_codigo payload) (tc_nome payload) []))
  | Req_adicionar_aluno_na_turma codigo ra =>
      Some (Call_add_aluno_to_turma codigo ra)
  | Req_criar_atividade payload =>
      match get_turma s (ac_turma_codigo payload) with
      | Some _ =>
          Some (Call_add_atividade
                  (Atividade.make 0 (ac_turma_codigo payload)
                     (ac_titulo payload) (ac_data_entrega payload) []))
      | None => None
      end
  | Req_entregar_atividade atividade_id entrega =>
      Some (Call_add_entrega atividade_id (ec_ra entrega) (ec_arquivo entrega))
  | Req_registrar_nota _ _ => None
  | Req_lancar_notas ra payload =>
      match get_aluno s ra with
      | Some _ =>
          Some (Call_set_notas ra (body_get "np1" payload)
                  (body_get "np2" payload) (body_get "pim" payload))
      | None => None
      end
  end.

(** What the routes keep of the store, all in one. *)
Definition consistente (s : DataStore) : bool :=
  membros_ok s && entregas_ok s && ids_ok s && notas_ok s && turmas_ok s.

(** A client that sends the requests one after the other, whatever the
    answers. *)
Definition serve (rs : list request) (w : World) : World :=
  fold_left (fun w r => fst (handle r w)) rs w.

(** A method that neither writes the file nor changes what it holds. *)
Definition reads_only {A} (m : M A) : Prop :=
  forall w, data_file (fst (m w)) = data_file w
            /\ writes (fst (m w)) = writes w.

(* ------------------------------------------------------------------ *)
(** ** Assignments as objects *)
(* ------------------------------------------------------------------ *)

(** [add_atividade] keeps the very object that it is given and writes
    [atv.id] on it; [add_entrega] and [set_nota_entrega] write on the
    object that they find in the store.  The methods above hold the
    assignments by value, which comes to the same as long as no object is
    held at two places.  Here the assignments are objects in a memory and
    [self.atividades] holds their addresses, so that one object can be
    given twice and held under two ids.  The payloads of the submissions
    stay values: what is proved of the objects speaks of the ids, the keys
    and the places of the entries, on which no write of a payload bears. *)
Record ObjWorld := mkObjWorld {
  objetos : list Atividade.t;        (* the Atividade objects, by address *)
  o_alunos : Dict.t string Aluno.t;
  o_turmas : Dict.t string Turma.t;
  o_atividades : Dict.t Z nat;       (* id -> address of the object held *)
  o_next_atv_id : Z;
  o_data_file : option value;
  o_writes : nat
}.

(** The object at an address. *)
Definition objeto (m : list Atividade.t) (o : nat) : Atividade.t :=
  nth o m (Atividade.make 0 "" "" "" []).

(** A write on the object at an address. *)
Fixpoint escreve (o : nat) (a : Atividade.t) (m : list Atividade.t)
  : list Atividade.t :=
  match m, o with
  | [], _ => []
  | _ :: r, O => a :: r
  | x :: r, S o' => x :: escreve o' a r
  end.

(** What [self.atividades] shows: under each id, the object held. *)
Definition atividades_vistas (m : list Atividade.t) (tab : Dict.t Z nat)
  : Dict.t Z Atividade.t :=
  map (fun kv => (fst kv, objeto m (snd kv))) tab.

(** The world as the methods by value see it. *)
Definition visto (ow : ObjWorld) : World :=
  mkWorld
    (mkDataStore (o_alunos ow) (o_turmas ow)
       (atividades_vistas (objetos ow) (o_atividades ow))
       (o_next_atv_id ow))
    (o_data_file ow) (o_writes ow).

(** [_save] *)
Definition o_save (ow : ObjWorld) : ObjWorld :=
  mkObjWorld (objetos ow) (o_alunos ow) (o_turmas ow) (o_atividades ow)
    (o_next_atv_id ow) (Some (dump (db (visto ow)))) (S (o_writes ow)).

(** [Atividade(...)]: a new object, at an address of its own. *)
Definition nova_atividade (atv : Atividade.t) (ow : ObjWorld)
  : ObjWorld * nat :=
  (mkObjWorld (objetos ow ++ [atv])%list (o_alunos ow) (o_turmas ow)
     (o_atividades ow) (o_next_atv_id ow) (o_data_file ow) (o_writes ow),
   List.length (objetos ow)).

(** [add_atividade(atv)], [atv] being the object at address [o]. *)
Definition add_atividade_obj (o : nat) (ow : ObjWorld)
  : ObjWorld * Py.result nat :=
  (* atv.id = self._next_atv_id *)
  let m :=
    escreve o (Atividade.set_id (o_next_atv_id ow) (objeto (objetos ow) o))
      (objetos ow) in
  (* self._next_atv_id += 1 *)
  let next := o_next_atv_id ow + 1 in
  (* self.atividades[atv.id] = atv *)
  let tab := Dict.set (Atividade.id (objeto m o)) o (o_atividades ow) in
  (o_save
     (mkObjWorld m (o_alunos ow) (o_turmas ow) tab next (o_data_file ow)
        (o_writes ow)),
   Py.Ok o).

(** [get_atividade]: the object held under the id, if any. *)
Definition get_atividade_obj (ow : ObjWorld) (atv_id : Z) : option nat :=
  Dict.get atv_id (o_atividades ow).

(** The write of a payload on the object found. *)
Definition escreve_entrega (o : nat) (ra field : string) (v : value)
  (ow : ObjWorld) : ObjWorld :=
  let atv := objeto (objetos ow) o in
  let payload := Dict.set field v (payload_of atv ra) in
  o_save
    (mkObjWorld
       (escreve o (Atividade.set_entrega ra (VDict payload) atv) (objetos ow))
       (o_alunos ow) (o_turmas ow) (o_atividades ow) (o_next_atv_id ow)
       (o_data_file ow) (o_writes ow)).

Definition add_entrega_obj (atv_id : Z) (ra arquivo : string) (ow : ObjWorld)
  : ObjWorld * Py.result nat :=
  match get_atividade_obj ow atv_id with
  | None => (ow, Py.Raise (Py.ValueError "Atividade não encontrada."))
  | Some o =>
      if negb (Dict.mem ra (o_alunos ow)) then
        (ow, Py.Raise (Py.ValueError "Aluno (RA) não encontrado."))
      else (escreve_entrega o ra "arquivo" (VStr arquivo) ow, Py.Ok o)
  end.

Definition set_nota_entrega_obj (atv_id : Z) (ra : string) (nota : value)
  (ow : ObjWorld) : ObjWorld * Py.result nat :=
  match nota with
  | VNone => (ow, Py.Raise (Py.ValueError "Informe uma nota."))
  | _ =>
      match py_float float_of_str nota with
      | Py.Raise _ => (ow, Py.Raise (Py.ValueError "Nota inválida."))
      | Py.Ok n =>
          if (n <? 0)%float || (10 <? n)%float then
            (ow, Py.Raise (Py.ValueError "Nota deve estar entre 0 e 10."))
          else
            match get_atividade_obj ow atv_id with
            | None => (ow, Py.Raise (Py.ValueError "Atividade não encontrada."))
            | Some o =>
                if negb (Dict.mem ra (o_alunos ow)) then
                  (ow, Py.Raise (Py.ValueError "Aluno (RA) não encontrado."))
                else (escreve_entrega o ra "nota" (VFloat n) ow, Py.Ok o)
            end
      end
  end.

(** The methods that touch no assignment run on the store as seen by
    value; the objects and what the store holds of them stay. *)
Definition sem_atividades {A} (m : M A) (ow : ObjWorld)
  : ObjWorld * Py.result A :=
  let (w', r) := m (visto ow) in
  (mkObjWorld (objetos ow) (alunos (db w')) (turmas (db w'))
     (o_atividades ow) (_next_atv_id (db w')) (data_file w') (writes w'),
   r).

(** The calls of a caller that writes on no object by itself: it builds an
    assignment, gives to [add_atividade] an object that exists already (one
    that it built, or one that the store gave it), or makes one of the
    calls by value, of which [Call_add_atividade] gives to [add_atividade]
    an object just built. *)
Inductive ocall : Type :=
| OCall_nova (atv : Atividade.t)
| OCall_add_atividade (o : nat)
| OCall (c : call).

Definition oexec (c : ocall) (ow : ObjWorld) : ObjWorld * Py.result (option Z) :=
  match c with
  | OCall_nova atv => (fst (nova_atividade atv ow), Py.Ok None)
  | OCall_add_atividade o =>
      let (ow', _) := add_atividade_obj o ow in
      (ow', Py.Ok (Some (Atividade.id (objeto (objetos ow') o))))
  | OCall (Call_add_atividade atv) =>
      let (ow1, o) := nova_atividade atv ow in
      let (ow', _) := add_atividade_obj o ow1 in
      (ow', Py.Ok (Some (Atividade.id (objeto (objetos ow') o))))
  | OCall (Call_add_entrega atv_id ra arquivo) =>
      match add_entrega_obj atv_id ra arquivo ow with
      | (ow', Py.Ok _) => (ow', Py.Ok None)
      | (ow', Py.Raise e) => (ow', Py.Raise e)
      end
  | OCall (Call_set_nota_entrega atv_id ra nota) =>
      match set_nota_entrega_obj atv_id ra nota ow with
      | (ow', Py.Ok _) => (ow', Py.Ok None)
      | (ow', Py.Raise e) => (ow', Py.Raise e)
      end
  | OCall c => sem_atividades (exec c) ow
  end.

(** A caller that does these one after the other. *)
Definition orun (cs : list ocall) (ow : ObjWorld) : ObjWorld :=
  fold_left (fun ow c => fst (oexec c ow)) cs ow.

(** The store holds the object at address [o]. *)
Definition guardado (o : nat) (ow : ObjWorld) : bool :=
  existsb (Nat.eqb o) (Dict.values (o_atividades ow)).

Fixpoint sem_repetidos (l : list nat) : bool :=
  match l with
  | [] => true
  | o :: r => negb (existsb (Nat.eqb o) r) && sem_repetidos r
  end.

(** No object is held under two ids, and what the store holds are
    addresses of objects. *)
Definition sem_partilha (ow : ObjWorld) : bool :=
  sem_repetidos (Dict.values (o_atividades ow))
  && forallb (fun o => (o <? List.length (objetos ow))%nat)
       (Dict.values (o_atividades ow)).

(** Whenever, in the course of the run, [add_atividade] is given an object
    that exists already, it is one that the store does not hold then. *)
Fixpoint objetos_novos (cs : list ocall) (ow : ObjWorld) : bool :=
  match cs with
  | [] => true
  | c :: r =>
      match c with
      | OCall_add_atividade o =>
          (o <? List.length (objetos ow))%nat && negb (guardado o ow)
      | _ => true
      end
      && objetos_novos r (fst (oexec c ow))
  end.

(** ** More sample data *)

(** A store in which every submission is that of a registered student. *)
Definition tidy_store : DataStore :=
  mkDataStore
    [("H76DJH0", ana); ("G12ABC3", bia)]
    [("TADS01", tads01); ("TADS02", tads02)]
    [(1, atv1); (3, atv3)]
    4.

Definition tidy_world : World := mkWorld tidy_store (Some (dump tidy_store)) 5.

(** A term of work, call by call: some calls return and some raise. *)
Definition sample_calls : list call :=
  [Call_add_aluno bia;
   Call_add_turma tads02;
   Call_add_aluno_to_turma "TADS02" "G12ABC3";
   Call_add_aluno_to_turma "TADS02" "G12ABC3";
   Call_add_aluno_to_turma "TADS02" "H76DJH0";
   Call_add_atividade atv3;
   Call_add_entrega 1 "G12ABC3" "Atividade3.pdf";
   Call_set_nota_entrega 1 "G12ABC3" (VFloat 8.5);
   Call_set_nota_entrega 1 "G12ABC3" (VFloat 10.5);
   Call_add_atividade atv3;
   Call_set_notas "G12ABC3" (VFloat 7) VNone (VInt 9);
   Call_add_aluno bia].

(** The same through the routes. *)
Definition sample_requests : list request :=
  [Req_criar_turma (mkTurmaCreate "TADS03" "ADS - 3 Semestre");
   Req_criar_turma (mkTurmaCreate "TADS01" "ADS");
   Req_adicionar_aluno_na_turma "TADS03" "G12ABC3";
   Req_criar_atividade (mkAtividadeCreate "TADS03" "Atv 5" "2026-03-01");
   Req_criar_atividade (mkAtividadeCreate "TADS09" "Atv 6" "2026-03-08");
   Req_entregar_atividade 4 (mkEntregaCreate "G12ABC3" "Atividade5.pdf");
   Req_registrar_nota 4 (mkNotaCreate "G12ABC3" 9%float);
   Req_lancar_notas "G12ABC3" [("np1", VFloat 7.5); ("pim", VInt 10)];
   Req_lancar_notas "G12ABC3" [("np2", VFloat 11)]].
(** The sample store with its assignments as objects, one to each id. *)
Definition sample_objetos : ObjWorld :=
  mkObjWorld [atv1; atv2; atv3; atv4]
    [("H76DJH0", ana); ("G12ABC3", bia)]
    [("TADS01", tads01); ("TADS02", tads02)]
    [(1, 0%nat); (2, 1%nat); (3, 2%nat); (4, 3%nat)]
    5 (Some (dump sample_store)) 8.

(** A caller who builds an assignment and adds it, has the store build and
    add another, writes on it, and builds and adds a third. *)
Definition sample_ocalls : list ocall :=
  [OCall_nova atv1;
   OCall_add_atividade 4%nat;
   OCall (Call_add_atividade atv2);
   OCall (Call_add_entrega 6 "G12ABC3" "Atividade6.pdf");
   OCall_nova atv3;
   OCall_add_atividade 6%nat].

(** A caller who adds twice the assignment that it has built. *)
Definition mesmo_objeto : list ocall :=
  [OCall_nova atv3; OCall_add_atividade 0%nat; OCall_add_atividade 0%nat].

(** Before any call: no object, and the store of [__init__]. *)
Definition sem_objetos : ObjWorld := mkObjWorld [] [] [] [] 1 None 0.

(* ================================================================== *)
(** * Properties *)
(* ================================================================== *)

(** ** Dicts *)

Section DictFacts.
Context {K V : Type} `{Key K}.

Lemma key_eqb_refl (k : K) : key_eqb k k = true.
Proof. destruct (key_eqb_spec k k); congruence. Qed.

Lemma key_eqb_neq (k k' : K) : k <> k' -> key_eqb k k' = false.
Proof. intros Hn. destruct (key_eqb_spec k k'); congruence. Qed.

Lemma dict_get_set_same (k : K) (v : V) (d : Dict.t K V) :
  Dict.get k (Dict.set k v d) = Some v.
Proof.
  induction d as [|[k' v'] r IH]; simpl.
  - now rewrite key_eqb_refl.
  - destruct (key_eqb_spec k k') as [->|Hn]; simpl.
    + now rewrite key_eqb_refl.
    + now rewrite (key_eqb_neq _ _ Hn).
Qed.

Lemma dict_get_set_other (k k' : K) (v : V) (d : Dict.t K V) :
  k' <> k -> Dict.get k' (Dict.set k v d) = Dict.get k' d.
Proof.
  intros Hn. induction d as [|[k0 v0] r IH]; simpl.
  - now rewrite (key_eqb_neq _ _ Hn).
  - destruct (key_eqb_spec k k0) as [->|Hk]; simpl.
    + now rewrite (key_eqb_neq _ _ Hn).
    + now rewrite IH.
Qed.

Lemma dict_mem_false_notin (k : K) (d : Dict.t K V) :
  Dict.mem k d = false <-> ~ In k (Dict.keys d).
Proof.
  unfold Dict.mem. induction d as [|[k' v'] r IH]; simpl.
  - tauto.
  - destruct (key_eqb_spec k k') as [->|Hn].
    + split; [discriminate | tauto].
    + rewrite IH. split; [intros Hr [E|Hi]; congruence | tauto].
Qed.

Lemma dict_keys_set_mem (k : K) (v : V) (d : Dict.t K V) :
  Dict.mem k d = true -> Dict.keys (Dict.set k v d) = Dict.keys d.
Proof.
  unfold Dict.mem. induction d as [|[k' v'] r IH]; simpl.
  - discriminate.
  - destruct (key_eqb_spec k k') as [->|Hn]; simpl; [reflexivity|].
    intros Hm. now rewrite IH.
Qed.

Lemma dict_set_new (k : K) (v : V) (d : Dict.t K V) :
  Dict.mem k d = false -> Dict.set k v d = (d ++ [(k, v)])%list.
Proof.
  unfold Dict.mem. induction d as [|[k' v'] r IH]; simpl.
  - reflexivity.
  - destruct (key_eqb_spec k k') as [->|Hn]; [discriminate|].
    intros Hm. now rewrite IH.
Qed.

Lemma distinct_NoDup (l : list K) : distinct l = true <-> NoDup l.
Proof.
  induction l as [|k r IH]; simpl.
  - split; [constructor | reflexivity].
  - rewrite andb_true_iff, negb_true_iff, IH. split.
    + intros [Hn Hd]. constructor; [|assumption].
      intros Hi. assert (E : existsb (key_eqb k) r = true)
        by (apply existsb_exists; exists k; split; [assumption | apply key_eqb_refl]).
      congruence.
    + intros Hnd. inversion Hnd as [|? ? Hni Hr]; subst. split; [|assumption].
      destruct (existsb (key_eqb k) r) eqn:E; [|reflexivity].
      apply existsb_exists in E. destruct E as [x [Hx Hk]].
      destruct (key_eqb_spec k x); [subst; contradiction | discriminate].
Qed.

Lemma of_items_acc (l acc : list (K * V)) :
  NoDup (map fst (acc ++ l)%list) ->
  fold_left (fun d kv => Dict.set (fst kv) (snd kv) d) l acc = (acc ++ l)%list.
Proof.
  revert acc. induction l as [|[k v] r IH]; intros acc Hnd; simpl.
  - now rewrite app_nil_r.
  - rewrite dict_set_new.
    + rewrite IH; rewrite <- app_assoc; [reflexivity | exact Hnd].
    + apply dict_mem_false_notin. unfold Dict.keys.
      rewrite map_app in Hnd. simpl in Hnd.
      apply NoDup_remove_2 in Hnd. intros Hi. apply Hnd.
      apply in_or_app. now left.
Qed.

Lemma of_items_distinct (l : list (K * V)) :
  distinct (map fst l) = true -> Dict.of_items l = l.
Proof.
  intros Hd. apply distinct_NoDup in Hd.
  unfold Dict.of_items. now rewrite of_items_acc.
Qed.

End DictFacts.

(** ** Rounding *)

Lemma round_half_even_nearest (num den : Z) :
  0 <= num -> 0 < den ->
  0 <= Py.round_half_even num den
  /\ nearest_even num den (Py.round_half_even num den).
Proof.
  intros Hn Hd. unfold Py.round_half_even, nearest_even.
  assert (E : num = den * (num / den) + num mod den)
    by (apply Z.div_mod; lia).
  pose proof (Z.mod_pos_bound num den Hd) as Hr.
  pose proof (Z.div_pos num den Hn Hd) as Hq.
  set (q := num / den) in *. set (r := num mod den) in *.
  destruct (Z.compare_spec (2 * r) den) as [C|C|C].
  - destruct (Z.even q) eqn:Ev.
    + split; [lia|]. replace (q * den - num) with (- r) by lia.
      split; [lia | auto].
    + split; [lia|]. replace ((q + 1) * den - num) with (den - r) by lia.
      split; [lia|]. intros _.
      rewrite Z.add_1_r, Z.even_succ, <- Z.negb_even, Ev. reflexivity.
  - split; [lia|]. replace (q * den - num) with (- r) by lia.
    split; lia.
  - split; [lia|]. replace ((q + 1) * den - num) with (den - r) by lia.
    split; lia.
Qed.

(** No two integers are nearest in this sense. *)
Lemma nearest_even_unique (num den k1 k2 : Z) :
  0 < den -> nearest_even num den k1 -> nearest_even num den k2 -> k1 = k2.
Proof.
  intros Hd [H1 E1] [H2 E2].
  assert (Hlt : forall a b, nearest_even num den a -> nearest_even num den b ->
                            a < b -> False).
  { clear - Hd. intros a b [Ha Ea] [Hb Eb] Hab.
    assert (Hb1 : b = a + 1) by nia. subst b.
    assert (Ta : 2 * Z.abs (a * den - num) = den) by nia.
    assert (Tb : 2 * Z.abs ((a + 1) * den - num) = den) by nia.
    specialize (Ea Ta). specialize (Eb Tb).
    rewrite Z.add_1_r, Z.even_succ, <- Z.negb_even, Ea in Eb. discriminate. }
  destruct (Z.lt_trichotomy k1 k2) as [L|[L|L]]; [|assumption|].
  - exfalso. eapply (Hlt k1 k2); [split | split |]; eassumption.
  - exfalso. eapply (Hlt k2 k1); [split | split |]; eassumption.
Qed.

Lemma round_scaled_nearest (m : positive) (e scale : Z) :
  0 < scale ->
  0 <= Py.round_scaled m e scale
  /\ nearest_scaled m e scale (Py.round_scaled m e scale).
Proof.
  intros Hs. unfold Py.round_scaled, nearest_scaled. destruct e as [|p|p].
  - split; [lia | reflexivity].
  - split; [|reflexivity].
    pose proof (Z.pow_pos_nonneg 2 (Z.pos p) ltac:(lia) ltac:(lia)). nia.
  - apply round_half_even_nearest; [lia|].
    apply Z.pow_pos_nonneg; lia.
Qed.

Lemma nearest_scaled_unique (m : positive) (e scale k1 k2 : Z) :
  nearest_scaled m e scale k1 -> nearest_scaled m e scale k2 -> k1 = k2.
Proof.
  unfold nearest_scaled. destruct e as [|p|p]; try congruence.
  apply nearest_even_unique. apply Z.pow_pos_nonneg; lia.
Qed.

(** [round(x, ndigits)] is [x] rounded to [ndigits] places, and nothing
    else is. *)
Lemma round_ndigits_rounded_to (x : float) (ndigits : nat) :
  rounded_to ndigits x (Py.round_ndigits x ndigits).
Proof.
  unfold rounded_to, Py.round_ndigits.
  destruct (Prim2SF x) as [sg|sg| |sg m e]; try reflexivity.
  assert (Hp : 0 < 10 ^ Z.of_nat ndigits) by (apply Z.pow_pos_nonneg; lia).
  destruct (round_scaled_nearest m e (10 ^ Z.of_nat ndigits) Hp) as [H0 Hn].
  exists (Py.round_scaled m e (10 ^ Z.of_nat ndigits)).
  split; [assumption|]. split; [assumption|].
  unfold float_of_decimal.
  assert (Ez : Py.Z2SF (10 ^ Z.of_nat ndigits)
               = S754_finite false (Z.to_pos (10 ^ Z.of_nat ndigits)) 0).
  { destruct (10 ^ Z.of_nat ndigits); try lia. reflexivity. }
  cbv zeta. rewrite Ez.
  destruct (Py.round_scaled m e (10 ^ Z.of_nat ndigits)); try lia.
  - unfold SFdiv. now rewrite xorb_false_r.
  - reflexivity.
Qed.

Lemma rounded_to_unique (ndigits : nat) (x y1 y2 : float) :
  rounded_to ndigits x y1 -> rounded_to ndigits x y2 -> y1 = y2.
Proof.
  unfold rounded_to. destruct (Prim2SF x) as [sg|sg| |sg m e]; try congruence.
  intros [k1 [_ [H1 ->]]] [k2 [_ [H2 ->]]].
  now rewrite (nearest_scaled_unique _ _ _ _ _ H1 H2).
Qed.



(** ** Student grades: [get_notas] *)

(** C1.  For a student of the store, [get_notas] answers with the three
    grades as stored; when the three are present, [media] is
    [round((np1*4 + np2*4 + pim*2) / 10, 2)], that is, the weighted mean
    [q] computed on floats and then rounded to two decimal places (the
    float nearest to the decimal with two places nearest to the exact value
    of [q], ties to the even digit), and [situacao] is "Aprovado" when
    [media >= 7.0] and "Reprovado" otherwise; when one of them is missing,
    [media] is absent and [situacao] is "Sem notas". *)
Theorem get_notas_media_situacao (s : DataStore) (ra : string) (aluno : Aluno.t) :
  Dict.get ra (alunos s) = Some aluno ->
  exists n,
    get_notas s ra = Some n
    /\ notas_np1 n = Aluno.np1 aluno
    /\ notas_np2 n = Aluno.np2 aluno
    /\ notas_pim n = Aluno.pim aluno
    /\ (forall x1 x2 x3,
          Aluno.np1 aluno = Some x1 -> Aluno.np2 aluno = Some x2 ->
          Aluno.pim aluno = Some x3 ->
          let q := ((x1 * 4 + x2 * 4 + x3 * 2) / 10)%float in
          let m := Py.round_ndigits q 2 in
          media n = Some m
          /\ rounded_to 2 q m
          /\ (forall m', rounded_to 2 q m' -> m' = m)
          /\ situacao n = if (7 <=? m)%float then "Aprovado" else "Reprovado")
    /\ (Aluno.np1 aluno = None \/ Aluno.np2 aluno = None \/ Aluno.pim aluno = None ->
        media n = None /\ situacao n = "Sem notas").
Proof.
  intros Hget. unfold get_notas. rewrite Hget.
  destruct (Aluno.np1 aluno) as [x1|] eqn:E1;
    destruct (Aluno.np2 aluno) as [x2|] eqn:E2;
    destruct (Aluno.pim aluno) as [x3|] eqn:E3;
    eexists; (split; [reflexivity|]); simpl;
    repeat (split; [reflexivity|]);
    (split;
     [ intros y1 y2 y3 H1 H2 H3; try discriminate;
       injection H1 as <-; injection H2 as <-; injection H3 as <-;
       (split;
        [ reflexivity
        | split;
          [ apply round_ndigits_rounded_to
          | split;
            [ intros m' Hm';
              exact (rounded_to_unique 2 _ _ _ Hm'
                       (round_ndigits_rounded_to _ 2))
            | reflexivity ] ] ])
     | intros [H|[H|H]]; try discriminate; split; reflexivity ]).
Qed.

(** The two worked cases of the specification. *)
Example get_notas_aprovado :
  get_notas (mkDataStore [("A", Aluno.make "Ana" "A" "ADS" (Some 8%float) (Some 6%float) (Some 10%float))] [] [] 1) "A"
  = Some (mkNotas (Some 8%float) (Some 6%float) (Some 10%float) (Some 7.6%float) "Aprovado").
Proof. vm_compute. reflexivity. Qed.

(** A case in which the rounding decides: the weighted mean of 7, 7 and
    6.975 is 6.995 on floats, below 7, and its rounding is 7.0. *)
Example get_notas_arredonda :
  ((7 * 4 + 7 * 4 + 6.975 * 2) / 10 <? 7)%float = true
  /\ get_notas (mkDataStore [("A", Aluno.make "Ana" "A" "ADS" (Some 7%float) (Some 7%float) (Some 6.975%float))] [] [] 1) "A"
     = Some (mkNotas (Some 7%float) (Some 7%float) (Some 6.975%float) (Some 7%float) "Aprovado").
Proof. split; vm_compute; reflexivity. Qed.

Example get_notas_reprovado :
  get_notas (mkDataStore [("A", Aluno.make "Ana" "A" "ADS" (Some 5%float) (Some 5%float) (Some 5%float))] [] [] 1) "A"
  = Some (mkNotas (Some 5%float) (Some 5%float) (Some 5%float) (Some 5%float) "Reprovado").
Proof. vm_compute. reflexivity. Qed.

(** ** Duplicate students *)

(** C7.  [add_aluno] with an RA that is already a key of [alunos] raises
    ValueError("RA já cadastrado.") and leaves the world as it was: the
    store, the file and the number of writes. *)
Theorem add_aluno_duplicate (w : World) (aluno : Aluno.t) :
  Dict.mem (Aluno.ra aluno) (alunos (db w)) = true ->
  add_aluno aluno w = (w, Py.Raise (Py.ValueError "RA já cadastrado.")).
Proof.
  intros Hmem. unfold add_aluno, bind, get_db. rewrite Hmem. reflexivity.
Qed.

(** ** Failed calls *)

Ltac unfold_monad :=
  unfold bind, ret, raise, lift, get_db, modify_db, _save in *; simpl in *.

(** Splits on the test that stands first in the hypothesis or the goal. *)
Ltac case_step :=
  match goal with
  | H : context [match ?x with _ => _ end] |- _ =>
      lazymatch x with
      | context [match _ with _ => _ end] => fail
      | _ => destruct x eqn:?
      end
  | H : context [if ?x then _ else _] |- _ =>
      lazymatch x with
      | context [if _ then _ else _] => fail
      | _ => destruct x eqn:?
      end
  end.

Ltac inv_pair :=
  match goal with
  | H : (_, _) = (_, _) |- _ => inversion H; subst; clear H
  end.

Lemma _val_world (v : value) (nome : string) (w : World) :
  fst (_val v nome w) = w.
Proof.
  unfold _val. destruct v; try reflexivity;
    (destruct (py_float float_of_str _) as [n|e]; [|reflexivity];
     destruct ((n <? 0)%float || (10 <? n)%float); reflexivity).
Qed.

Lemma _val_raises (v : value) (nome : string) (w w' : World) (e : Py.exn) :
  _val v nome w = (w', Py.Raise e) ->
  w' = w /\ (e = Py.ValueError (nome ++ " inválida.")
             \/ e = Py.ValueError (nome ++ " deve estar entre 0 e 10.")).
Proof.
  intros Hv. pose proof (_val_world v nome w) as Hw. rewrite Hv in Hw.
  simpl in Hw. split; [assumption|].
  unfold _val in Hv. unfold_monad.
  destruct v; try discriminate;
    (destruct (py_float float_of_str _) as [n|e0];
     [ destruct ((n <? 0)%float || (10 <? n)%float); inversion Hv; auto
     | inversion Hv; auto ]).
Qed.

(** A value that passed [_val] is None or converts to a float that is
    neither below 0 nor above 10. *)
Lemma _val_returns (v : value) (nome : string) (w w' : World) :
  _val v nome w = (w', Py.Ok tt) ->
  w' = w /\ (v = VNone
             \/ exists n, py_float float_of_str v = Py.Ok n
                          /\ (n <? 0)%float = false /\ (10 <? n)%float = false).
Proof.
  intros Hv. pose proof (_val_world v nome w) as Hw. rewrite Hv in Hw.
  simpl in Hw. split; [assumption|].
  unfold _val in Hv. unfold_monad.
  destruct v; auto;
    (destruct (py_float float_of_str _) as [n|e0]; [|discriminate];
     destruct ((n <? 0)%float) eqn:E1; destruct ((10 <? n)%float) eqn:E2;
     simpl in Hv; try discriminate; right; exists n; auto).
Qed.

Lemma assign_nota_returns (ra : string) (setter : float -> Aluno.t -> Aluno.t)
  (v : value) (w : World) :
  v = VNone \/ (exists n, py_float float_of_str v = Py.Ok n) ->
  exists w', assign_nota ra setter v w = (w', Py.Ok tt)
             /\ data_file w' = data_file w /\ writes w' = writes w.
Proof.
  intros [->|[n Hn]].
  - exists w. auto.
  - unfold assign_nota. rewrite Hn. unfold_monad.
    destruct v; eexists; (split; [reflexivity | auto]).
Qed.

Lemma set_notas_raises (ra : string) (np1 np2 pim : value)
  (w w' : World) (e : Py.exn) :
  set_notas ra np1 np2 pim w = (w', Py.Raise e) ->
  w' = w /\ exists msg, e = Py.ValueError msg.
Proof.
  unfold set_notas. unfold bind at 1. unfold get_db at 1.
  destruct (Dict.get ra (alunos (db w))) as [a|]; cycle 1.
  { unfold raise. intros Hr; inversion Hr; eauto. }
  unfold bind at 1.
  destruct (_val np1 "NP1" w) as [w1 [[]|e1]] eqn:V1; cycle 1.
  { intros Hr; inversion Hr; subst. apply _val_raises in V1.
    destruct V1 as [-> [->| ->]]; eauto. }
  apply _val_returns in V1. destruct V1 as [-> O1].
  unfold bind at 1.
  destruct (_val np2 "NP2" w) as [w2 [[]|e2]] eqn:V2; cycle 1.
  { intros Hr; inversion Hr; subst. apply _val_raises in V2.
    destruct V2 as [-> [->| ->]]; eauto. }
  apply _val_returns in V2. destruct V2 as [-> O2].
  unfold bind at 1.
  destruct (_val pim "PIM" w) as [w3 [[]|e3]] eqn:V3; cycle 1.
  { intros Hr; inversion Hr; subst. apply _val_raises in V3.
    destruct V3 as [-> [->| ->]]; eauto. }
  apply _val_returns in V3. destruct V3 as [-> O3].
  assert (A1 : np1 = VNone \/ exists n, py_float float_of_str np1 = Py.Ok n)
    by (destruct O1 as [|[n [? _]]]; eauto).
  assert (A2 : np2 = VNone \/ exists n, py_float float_of_str np2 = Py.Ok n)
    by (destruct O2 as [|[n [? _]]]; eauto).
  assert (A3 : pim = VNone \/ exists n, py_float float_of_str pim = Py.Ok n)
    by (destruct O3 as [|[n [? _]]]; eauto).
  unfold bind at 1.
  destruct (assign_nota_returns ra Aluno.set_np1 np1 w A1) as [u1 [-> _]].
  unfold bind at 1.
  destruct (assign_nota_returns ra Aluno.set_np2 np2 u1 A2) as [u2 [-> _]].
  unfold bind at 1.
  destruct (assign_nota_returns ra Aluno.set_pim pim u2 A3) as [u3 [-> _]].
  unfold_monad. discriminate.
Qed.

Lemma exec_raises (c : call) (w w' : World) (e : Py.exn) :
  exec c w = (w', Py.Raise e) ->
  w' = w /\ exists msg, e = Py.ValueError msg.
Proof.
  destruct c; unfold exec.
  - unfold add_aluno. unfold_monad. intros Hr.
    repeat case_step; inv_pair; eauto.
  - unfold add_turma. unfold_monad. intros Hr.
    repeat case_step; inv_pair; eauto.
  - unfold add_aluno_to_turma. unfold_monad. intros Hr.
    repeat case_step; inv_pair; eauto.
  - unfold add_atividade. unfold_monad. intros Hr. discriminate.
  - unfold add_entrega. unfold_monad. intros Hr.
    repeat case_step; inv_pair; eauto.
  - unfold set_nota_entrega. intros Hr.
    destruct nota; unfold_monad;
      repeat case_step; try inv_pair; try discriminate; eauto.
  - unfold bind at 1.
    destruct (set_notas ra np1 np2 pim w) as [w1 [o|e1]] eqn:E.
    + unfold ret. discriminate.
    + intros Hr; inversion Hr; subst. eapply set_notas_raises; eassumption.
Qed.

(** C10.  A call of a mutating method that raises leaves the world as it
    found it - the store in memory, the file and the number of writes -
    and what it raises is a ValueError; for [set_notas] this says that the
    three values are validated before any of them is assigned. *)
Theorem failed_call_leaves_world (c : call) (w w' : World) (e : Py.exn) :
  exec c w = (w', Py.Raise e) ->
  w' = w /\ exists msg, e = Py.ValueError msg.
Proof. apply exec_raises. Qed.

(** ** Submissions: file reference and grade *)

Lemma payload_of_set_entrega (atv : Atividade.t) (ra : string)
  (d : Dict.t string value) :
  payload_of (Atividade.set_entrega ra (VDict d) atv) ra = d.
Proof.
  unfold payload_of, Atividade.set_entrega. simpl.
  now rewrite dict_get_set_same.
Qed.

Lemma set_entrega_updated (field : string) (v : value) (atv_id : Z)
  (ra : string) (w : World) (atv : Atividade.t) :
  let atv' :=
    Atividade.set_entrega ra
      (VDict (Dict.set field v (payload_of atv ra))) atv in
  let s' := set_atividades (Dict.set atv_id atv' (atividades (db w))) (db w) in
  entrega_updated field v atv_id ra w
    (mkWorld s' (Some (dump s')) (S (writes w))) atv atv'.
Proof.
  intros atv' s'. unfold entrega_updated. simpl.
  split. { unfold get_atividade. simpl. apply dict_get_set_same. }
  unfold atv'. rewrite payload_of_set_entrega.
  split. { apply dict_get_set_same. }
  split. { intros k Hk. now apply dict_get_set_other. }
  split. { intros r Hr. simpl. now apply dict_get_set_other. }
  repeat (split; [reflexivity|]).
  split; [|auto].
  intros i Hi. unfold get_atividade. simpl. now apply dict_get_set_other.
Qed.

Lemma add_entrega_updates (w : World) (atv_id : Z) (ra arquivo : string)
  (atv : Atividade.t) :
  get_atividade (db w) atv_id = Some atv ->
  Dict.mem ra (alunos (db w)) = true ->
  exists w' atv',
    add_entrega atv_id ra arquivo w = (w', Py.Ok atv')
    /\ entrega_updated "arquivo" (VStr arquivo) atv_id ra w w' atv atv'.
Proof.
  intros Hatv Hra. unfold add_entrega, bind, get_db. cbv beta iota.
  rewrite Hatv, Hra. simpl.
  eexists. eexists. split; [reflexivity|].
  apply set_entrega_updated.
Qed.

Lemma set_nota_entrega_updates (w : World) (atv_id : Z) (ra : string)
  (nota : value) (n : float) (atv : Atividade.t) :
  get_atividade (db w) atv_id = Some atv ->
  Dict.mem ra (alunos (db w)) = true ->
  py_float float_of_str nota = Py.Ok n ->
  (n <? 0)%float = false -> (10 <? n)%float = false ->
  exists w' atv',
    set_nota_entrega atv_id ra nota w = (w', Py.Ok atv')
    /\ entrega_updated "nota" (VFloat n) atv_id ra w w' atv atv'.
Proof.
  intros Hatv Hra Hn Hlo Hhi.
  destruct nota; try discriminate Hn;
    (unfold set_nota_entrega; cbv beta iota; rewrite Hn, Hlo, Hhi;
     cbn [orb]; unfold bind, get_db; cbv beta iota; rewrite Hatv, Hra; simpl;
     eexists; eexists; split; [reflexivity | apply set_entrega_updated]).
Qed.

(** C3.  For an assignment and a student that exist: [add_entrega] returns,
    and writes nothing but "arquivo" in the payload of the submission, so a
    grade set before is still there; [set_nota_entrega] with a grade that
    passes its checks returns, and writes nothing but "nota", so a file
    reference set before is still there. *)
Theorem entrega_writes_one_field (w : World) (atv_id : Z) (ra : string)
  (atv : Atividade.t) :
  get_atividade (db w) atv_id = Some atv ->
  Dict.mem ra (alunos (db w)) = true ->
  (forall arquivo,
      exists w' atv',
        add_entrega atv_id ra arquivo w = (w', Py.Ok atv')
        /\ entrega_updated "arquivo" (VStr arquivo) atv_id ra w w' atv atv')
  /\ (forall nota n,
        py_float float_of_str nota = Py.Ok n ->
        (n <? 0)%float = false -> (10 <? n)%float = false ->
        exists w' atv',
          set_nota_entrega atv_id ra nota w = (w', Py.Ok atv')
          /\ entrega_updated "nota" (VFloat n) atv_id ra w w' atv atv').
Proof.
  intros Hatv Hra. split.
  - intros arquivo. now apply add_entrega_updates.
  - intros nota n. now apply set_nota_entrega_updates.
Qed.

(** In particular the grade survives a new file reference, and the file
    reference survives a grade. *)
Corollary add_entrega_keeps_nota (w : World) (atv_id : Z) (ra arquivo : string)
  (atv : Atividade.t) :
  get_atividade (db w) atv_id = Some atv ->
  Dict.mem ra (alunos (db w)) = true ->
  exists w' atv',
    add_entrega atv_id ra arquivo w = (w', Py.Ok atv')
    /\ Dict.get "nota" (payload_of atv' ra) = Dict.get "nota" (payload_of atv ra)
    /\ Dict.get "arquivo" (payload_of atv' ra) = Some (VStr arquivo).
Proof.
  intros Hatv Hra.
  destruct (add_entrega_updates w atv_id ra arquivo atv Hatv Hra)
    as [w' [atv' [Hrun Hupd]]].
  exists w', atv'. split; [assumption|].
  destruct Hupd as [_ [Hf [Hk _]]]. split; [|assumption].
  apply Hk. discriminate.
Qed.

Corollary set_nota_entrega_keeps_arquivo (w : World) (atv_id : Z) (ra : string)
  (nota : value) (n : float) (atv : Atividade.t) :
  get_atividade (db w) atv_id = Some atv ->
  Dict.mem ra (alunos (db w)) = true ->
  py_float float_of_str nota = Py.Ok n ->
  (n <? 0)%float = false -> (10 <? n)%float = false ->
  exists w' atv',
    set_nota_entrega atv_id ra nota w = (w', Py.Ok atv')
    /\ Dict.get "arquivo" (payload_of atv' ra)
       = Dict.get "arquivo" (payload_of atv ra)
    /\ Dict.get "nota" (payload_of atv' ra) = Some (VFloat n).
Proof.
  intros Hatv Hra Hn Hlo Hhi.
  destruct (set_nota_entrega_updates w atv_id ra nota n atv Hatv Hra Hn Hlo Hhi)
    as [w' [atv' [Hrun Hupd]]].
  exists w', atv'. split; [assumption|].
  destruct Hupd as [_ [Hf [Hk _]]]. split; [|assumption].
  apply Hk. discriminate.
Qed.

(** ** Assignment ids *)

Lemma keeps_bind {A B} (m : M A) (k : A -> M B) :
  keeps_next_id m -> (forall a, keeps_next_id (k a)) -> keeps_next_id (bind m k).
Proof.
  intros Hm Hk w. unfold bind. specialize (Hm w).
  destruct (m w) as [w1 [a|e]]; simpl in *.
  - now rewrite Hk.
  - assumption.
Qed.

Lemma keeps_ret {A} (a : A) : keeps_next_id (ret a).
Proof. intros w. reflexivity. Qed.

Lemma keeps_raise {A} (e : Py.exn) : keeps_next_id (@raise A e).
Proof. intros w. reflexivity. Qed.

Lemma keeps_lift {A} (r : Py.result A) : keeps_next_id (lift r).
Proof. intros w. reflexivity. Qed.

Lemma keeps_get_db : keeps_next_id get_db.
Proof. intros w. reflexivity. Qed.

Lemma keeps_save : keeps_next_id _save.
Proof. intros w. reflexivity. Qed.

Lemma keeps_modify (f : DataStore -> DataStore) :
  (forall s, _next_atv_id (f s) = _next_atv_id s) -> keeps_next_id (modify_db f).
Proof. intros Hf w. simpl. apply Hf. Qed.

Lemma keeps_val (v : value) (nome : string) : keeps_next_id (_val v nome).
Proof. intros w. now rewrite _val_world. Qed.

Lemma keeps_assign_nota (ra : string) (setter : float -> Aluno.t -> Aluno.t)
  (v : value) : keeps_next_id (assign_nota ra setter v).
Proof.
  unfold assign_nota.
  destruct v; try apply keeps_ret;
    (apply keeps_bind; [apply keeps_lift|]; intros x; apply keeps_modify;
     intros st; destruct (Dict.get ra (alunos st)); reflexivity).
Qed.

Create HintDb keeps.

#[local] Hint Resolve keeps_ret keeps_raise keeps_lift keeps_get_db keeps_save
  keeps_val keeps_assign_nota : keeps.

Ltac keeps_step :=
  first
    [ apply keeps_bind; [|intros ?]
    | apply keeps_modify; intros ?; reflexivity
    | solve [auto with keeps] ].

Lemma keeps_add_aluno (aluno : Aluno.t) : keeps_next_id (add_aluno aluno).
Proof.
  unfold add_aluno. keeps_step; [keeps_step|].
  destruct (Dict.mem _ _); repeat keeps_step.
Qed.

Lemma keeps_add_turma (turma : Turma.t) : keeps_next_id (add_turma turma).
Proof.
  unfold add_turma. keeps_step; [keeps_step|].
  destruct (Dict.mem _ _); repeat keeps_step.
Qed.

Lemma keeps_add_aluno_to_turma (codigo ra : string) :
  keeps_next_id (add_aluno_to_turma codigo ra).
Proof.
  unfold add_aluno_to_turma. keeps_step; [keeps_step|].
  destruct (get_turma _ _); [|keeps_step].
  destruct (negb _); repeat keeps_step.
Qed.

Lemma keeps_add_entrega (atv_id : Z) (ra arquivo : string) :
  keeps_next_id (add_entrega atv_id ra arquivo).
Proof.
  unfold add_entrega. keeps_step; [keeps_step|].
  destruct (get_atividade _ _); [|keeps_step].
  destruct (negb _); repeat keeps_step.
Qed.

Lemma keeps_set_nota_entrega (atv_id : Z) (ra : string) (nota : value) :
  keeps_next_id (set_nota_entrega atv_id ra nota).
Proof.
  unfold set_nota_entrega.
  destruct nota; try keeps_step;
    (destruct (py_float float_of_str _) as [n|e]; [|keeps_step];
     destruct (_ || _); [keeps_step|];
     keeps_step; [keeps_step|];
     destruct (get_atividade _ _); [|keeps_step];
     destruct (negb _); repeat keeps_step).
Qed.

Lemma keeps_set_notas (ra : string) (np1 np2 pim : value) :
  keeps_next_id (set_notas ra np1 np2 pim).
Proof.
  unfold set_notas. keeps_step; [keeps_step|].
  destruct (Dict.get _ _); repeat keeps_step.
Qed.

(** What one call does to the counter and what it answers. *)
Lemma exec_next_id (c : call) (w : World) :
  if is_add_atividade c then
    snd (exec c w) = Py.Ok (Some (_next_atv_id (db w)))
    /\ _next_atv_id (db (fst (exec c w))) = _next_atv_id (db w) + 1
  else
    (snd (exec c w) = Py.Ok None \/ exists e, snd (exec c w) = Py.Raise e)
    /\ _next_atv_id (db (fst (exec c w))) = _next_atv_id (db w).
Proof.
  assert (shape : forall A (m : M A) u,
             snd ((m ;; ret (@None Z)) u) = Py.Ok None
             \/ exists e, snd ((m ;; ret (@None Z)) u) = Py.Raise e).
  { intros A m u. unfold bind, ret. destruct (m u) as [u1 [a|e]]; simpl; eauto. }
  destruct c; simpl; (split; [try apply shape|]);
    try (apply keeps_bind; [|intros ?; apply keeps_ret]).
  - apply keeps_add_aluno.
  - apply keeps_add_turma.
  - apply keeps_add_aluno_to_turma.
  - reflexivity.
  - reflexivity.
  - apply keeps_add_entrega.
  - apply keeps_set_nota_entrega.
  - apply keeps_set_notas.
Qed.

Lemma run_calls_ids (cs : list call) (w : World) :
  snd (run_calls cs w)
  = ids_from (_next_atv_id (db w)) (List.length (filter is_add_atividade cs)).
Proof.
  revert w. induction cs as [|c r IH]; intros w; simpl; [reflexivity|].
  pose proof (exec_next_id c w) as Hc.
  destruct (exec c w) as [w1 res] eqn:E. simpl in Hc.
  specialize (IH w1). destruct (run_calls r w1) as [w2 ids]. simpl in *.
  destruct (is_add_atividade c).
  - destruct Hc as [-> Hn]. simpl. now rewrite IH, Hn.
  - destruct Hc as [[->|[e ->]] Hn]; now rewrite IH, Hn.
Qed.

Lemma ids_from_seq (k : nat) (n : nat) :
  ids_from (Z.of_nat k) n = map Z.of_nat (seq k n).
Proof.
  revert k. induction n as [|n IH]; intros k; simpl; [reflexivity|].
  f_equal. rewrite <- IH. f_equal. lia.
Qed.

Lemma _load_next_id (d : Dict.t string value) (w w' : World) :
  data_file w = Some (VDict d) ->
  _load w = (w', Py.Ok tt) ->
  py_int int_of_text
    (match Dict.get "next_id" d with Some x => x | None => VInt 1 end)
  = Py.Ok (_next_atv_id (db w')).
Proof.
  intros Hfile. unfold _load. rewrite Hfile. unfold_monad.
  destruct (load_table "alunos" _ _ _) as [a|e]; [|discriminate].
  destruct (load_table "turmas" _ _ _) as [t|e]; [|discriminate].
  destruct (load_table "atividades" _ _ _) as [v|e]; [|discriminate].
  destruct (py_int _) as [n|e]; [|discriminate].
  intros Hr. inversion Hr. reflexivity.
Qed.

Lemma add_atividade_id (atv : Atividade.t) (w : World) :
  exists w' atv',
    add_atividade atv w = (w', Py.Ok atv')
    /\ Atividade.id atv' = _next_atv_id (db w)
    /\ _next_atv_id (db w') = _next_atv_id (db w) + 1
    /\ get_atividade (db w') (Atividade.id atv') = Some atv'.
Proof.
  unfold add_atividade. unfold_monad. eexists. eexists.
  split; [reflexivity|]. simpl. repeat split.
  unfold get_atividade. simpl. apply dict_get_set_same.
Qed.

(** C4.  From the empty store, whatever calls are made in between and
    whatever class each new assignment belongs to, the ids given by
    [add_atividade] are 1, 2, 3, ... in the order of creation; and after a
    start on a snapshot whose "next_id" is 5, the next assignment created
    gets id 5. *)
Theorem add_atividade_ids :
  (forall cs,
      snd (run_calls cs (fst (__init__ (boot None))))
      = map Z.of_nat (seq 1 (List.length (filter is_add_atividade cs))))
  /\ (forall d w' atv,
        Dict.get "next_id" d = Some (VInt 5) ->
        __init__ (boot (Some (VDict d))) = (w', Py.Ok tt) ->
        exists w'' atv',
          add_atividade atv w' = (w'', Py.Ok atv')
          /\ Atividade.id atv' = 5).
Proof.
  split.
  - intros cs. rewrite run_calls_ids. simpl. apply (ids_from_seq 1).
  - intros d w' atv Hnext Hinit.
    unfold __init__, bind in Hinit. simpl in Hinit.
    apply _load_next_id with (d := d) in Hinit; [|reflexivity].
    rewrite Hnext in Hinit. simpl in Hinit. injection Hinit as Hn.
    destruct (add_atividade_id atv w') as [w'' [atv' [Hrun [Hid _]]]].
    exists w'', atv'. split; [assumption|]. congruence.
Qed.

(** ** Saving and loading *)

Lemma int_of_str_of_int (z : Z) : Py.int_of_str (Py.str_of_int z) = Py.Ok z.
Proof.
  unfold Py.int_of_str, Py.str_of_int.
  rewrite NilZero.isi.
  - now rewrite DecimalZ.of_to.
  - destruct z; simpl; try discriminate.
    intros E. injection E. apply DecimalPos.Unsigned.to_uint_nonnil.
  - destruct z; simpl; try discriminate.
    intros E. injection E. apply DecimalPos.Unsigned.to_uint_nonnil.
Qed.

Lemma traverse_map {A B} (f : A -> Py.result B) (g : B -> A) (l : list B) :
  (forall x, In x l -> f (g x) = Py.Ok x) ->
  traverse f (map g l) = Py.Ok l.
Proof.
  induction l as [|x r IH]; intros Hf; simpl; [reflexivity|].
  rewrite Hf by (now left). rewrite IH; [reflexivity|].
  intros y Hy. apply Hf. now right.
Qed.

Lemma all_some_as_VStr (l : list string) :
  all_some (map as_VStr (map VStr l)) = Some l.
Proof.
  induction l as [|x r IH]; simpl; [reflexivity|]. now rewrite IH.
Qed.

Lemma new_Aluno_model_dump (a : Aluno.t) :
  new_Aluno (Aluno.model_dump a) = Py.Ok a.
Proof.
  destruct a as [n r c [x1|] [x2|] [x3|]]; reflexivity.
Qed.

Lemma new_Turma_model_dump (t : Turma.t) :
  new_Turma (Turma.model_dump t) = Py.Ok t.
Proof.
  destruct t as [c n l]. unfold new_Turma, Turma.model_dump.
  cbn -[all_some map]. now rewrite all_some_as_VStr.
Qed.

Lemma new_Atividade_model_dump (a : Atividade.t) :
  atividade_ok a = true ->
  new_Atividade (Atividade.model_dump a) = Py.Ok a.
Proof.
  destruct a as [i c t d e]. unfold atividade_ok, Dict.values. simpl.
  intros Hok. unfold new_Atividade, Atividade.model_dump, field_dict_of_dict.
  cbn -[forallb].
  rewrite forallb_forall in Hok.
  assert (E : forallb (fun kv : string * value => is_VDict (snd kv)) e = true).
  { apply forallb_forall. intros kv Hkv. apply Hok. now apply in_map. }
  now rewrite E.
Qed.

(** Dumping a table and loading it again. *)
Lemma load_table_dump {A} (name : string) (build : value -> Py.result A)
  (dumpv : A -> value) (d : Dict.t string A) (raw : Dict.t string value) :
  Dict.get name raw
  = Some (VDict (Dict.of_items (map (fun kv => (fst kv, dumpv (snd kv))) d))) ->
  distinct (Dict.keys d) = true ->
  (forall x, In x (Dict.values d) -> build (dumpv x) = Py.Ok x) ->
  load_table name (@Py.Ok string) build (VDict raw) = Py.Ok d.
Proof.
  intros Hget Hd Hb. unfold load_table, value_get, value_items.
  rewrite Hget.
  rewrite of_items_distinct by (now rewrite map_map).
  rewrite traverse_map.
  - now rewrite of_items_distinct.
  - intros [k x] Hin. cbn [fst snd]. rewrite Hb; [reflexivity|].
    unfold Dict.values. now apply (in_map snd) in Hin.
Qed.

Lemma is_ascii_string_of_uint (d : Decimal.uint) :
  is_ascii (NilEmpty.string_of_uint d) = true.
Proof. induction d; simpl; auto. Qed.

Lemma is_ascii_nilzero (d : Decimal.uint) :
  is_ascii (NilZero.string_of_uint d) = true.
Proof.
  destruct d; first [reflexivity | exact (is_ascii_string_of_uint _)].
Qed.

Lemma is_ascii_str_of_int (z : Z) : is_ascii (Py.str_of_int z) = true.
Proof.
  unfold Py.str_of_int, NilZero.string_of_int.
  destruct (Z.to_int z) as [d|d]; [apply is_ascii_nilzero|].
  change (is_ascii (String "-" (NilZero.string_of_uint d)))
    with ((nat_of_ascii "-" <? 128)%nat
          && is_ascii (NilZero.string_of_uint d)).
  now rewrite is_ascii_nilzero.
Qed.

Lemma int_of_text_of_int (z : Z) : int_of_text (Py.str_of_int z) = Py.Ok z.
Proof.
  unfold int_of_text. rewrite is_ascii_str_of_int. apply int_of_str_of_int.
Qed.

Lemma load_atividades_dump (d : Dict.t Z Atividade.t) (raw : Dict.t string value) :
  Dict.get "atividades" raw
  = Some (VDict (map (fun kv => (Py.str_of_int (fst kv), snd kv))
                   (Dict.of_items
                      (map (fun kv => (fst kv, Atividade.model_dump (snd kv))) d)))) ->
  distinct (Dict.keys d) = true ->
  forallb atividade_ok (Dict.values d) = true ->
  load_table "atividades" int_of_text new_Atividade (VDict raw) = Py.Ok d.
Proof.
  intros Hget Hd Hok. unfold load_table, value_get, value_items.
  rewrite Hget.
  rewrite of_items_distinct by (now rewrite map_map).
  rewrite map_map.
  rewrite traverse_map.
  - now rewrite of_items_distinct.
  - intros [k x] Hin. cbn [fst snd]. rewrite int_of_text_of_int.
    rewrite new_Atividade_model_dump; [reflexivity|].
    rewrite forallb_forall in Hok. apply Hok.
    unfold Dict.values. now apply (in_map snd) in Hin.
Qed.

(** Loading the snapshot of [s], whatever the store in memory was. *)
Lemma load_dump (s : DataStore) (w : World) :
  well_formed s = true ->
  data_file w = Some (dump s) ->
  _load w = (mkWorld s (Some (dump s)) (writes w), Py.Ok tt).
Proof.
  unfold well_formed. rewrite !andb_true_iff.
  intros [[[Ha Ht] Hv] Hok] Hfile.
  assert (E1 : load_table "alunos" (@Py.Ok string) new_Aluno (dump s)
               = Py.Ok (alunos s)).
  { apply (load_table_dump "alunos" new_Aluno Aluno.model_dump);
      [reflexivity | assumption | intros; apply new_Aluno_model_dump]. }
  assert (E2 : load_table "turmas" (@Py.Ok string) new_Turma (dump s)
               = Py.Ok (turmas s)).
  { apply (load_table_dump "turmas" new_Turma Turma.model_dump);
      [reflexivity | assumption | intros; apply new_Turma_model_dump]. }
  assert (E3 : load_table "atividades" int_of_text new_Atividade (dump s)
               = Py.Ok (atividades s)).
  { apply load_atividades_dump; [reflexivity | assumption | assumption]. }
  assert (E4 : value_get "next_id" (VInt 1) (dump s) = Py.Ok (VInt (_next_atv_id s)))
    by reflexivity.
  unfold _load. rewrite Hfile.
  remember (dump s) as raw eqn:Hraw.
  unfold bind, lift, modify_db. cbn [data_file db writes fst snd].
  rewrite E1, E2, E3, E4. cbn [data_file db writes]. rewrite Hfile.
  clear. destruct s; reflexivity.
Qed.

Lemma init_dump (s : DataStore) :
  well_formed s = true ->
  __init__ (boot (Some (dump s))) = (mkWorld s (Some (dump s)) 0, Py.Ok tt).
Proof.
  intros Hwf. unfold __init__, bind at 1. simpl.
  now rewrite (load_dump s (mkWorld empty_store (Some (dump s)) 0) Hwf eq_refl).
Qed.


(** ** The class report *)

Lemma int_truediv_no_zero_division (a b : Z) :
  b <> 0 -> Py.int_truediv a b <> Py.Raise Py.ZeroDivisionError.
Proof.
  intros Hb. unfold Py.int_truediv.
  destruct (Z.eqb_spec b 0) as [|_]; [contradiction|].
  destruct (Py.is_small a && Py.is_small b); [discriminate|].
  destruct (is_infinity _); discriminate.
Qed.

Lemma int_truediv_small (a b : Z) :
  b <> 0 -> Py.is_small a = true -> Py.is_small b = true ->
  exists f, Py.int_truediv a b = Py.Ok f.
Proof.
  intros Hb Ha Hs. unfold Py.int_truediv.
  destruct (Z.eqb_spec b 0) as [|_]; [contradiction|].
  rewrite Ha, Hs. simpl. eauto.
Qed.

Lemma len_cons_nonzero {A} (x : A) (l : list A) : len (x :: l) <> 0.
Proof. unfold len. simpl. lia. Qed.

Lemma resumo_sem_alunos (turma : Turma.t) (atv : Atividade.t) :
  Turma.alunos turma = [] ->
  resumo turma atv
  = Py.Ok (mkResumo (Atividade.id atv) (Atividade.titulo atv)
             (Atividade.data_entrega atv) (len (Atividade.entregas atv)) 0).
Proof. intros Hz. unfold resumo. now rewrite Hz. Qed.

Lemma resumo_no_zero_division (turma : Turma.t) (atv : Atividade.t) :
  resumo turma atv <> Py.Raise Py.ZeroDivisionError.
Proof.
  unfold resumo. destruct (Turma.alunos turma) as [|x l] eqn:E; [discriminate|].
  pose proof (int_truediv_no_zero_division
                (len (Atividade.entregas atv)) (len (x :: l))
                (len_cons_nonzero x l)) as Hd.
  destruct (Py.int_truediv _ _) as [q|e]; [discriminate|].
  intros Hr. apply Hd. congruence.
Qed.

Lemma traverse_raises {A B} (f : A -> Py.result B) (l : list A) (e : Py.exn) :
  traverse f l = Py.Raise e -> exists x, In x l /\ f x = Py.Raise e.
Proof.
  induction l as [|x r IH]; simpl; [discriminate|].
  destruct (f x) as [y|e0] eqn:E.
  - destruct (traverse f r) as [ys|e1]; [discriminate|].
    intros Hr. destruct (IH Hr) as [z [Hz Hf]]. exists z. auto.
  - intros Hr. exists x. split; [now left | congruence].
Qed.

Lemma traverse_resumo_sem_alunos (turma : Turma.t) (l : list Atividade.t) :
  Turma.alunos turma = [] ->
  traverse (resumo turma) l
  = Py.Ok (map (fun atv =>
                  mkResumo (Atividade.id atv) (Atividade.titulo atv)
                    (Atividade.data_entrega atv)
                    (len (Atividade.entregas atv)) 0) l).
Proof.
  intros Hz. induction l as [|x r IH]; simpl; [reflexivity|].
  now rewrite (resumo_sem_alunos turma x Hz), IH.
Qed.

Lemma relatorio_turma_no_zero_division (s : DataStore) (codigo : string) :
  relatorio_turma s codigo <> Py.Raise Py.ZeroDivisionError.
Proof.
  unfold relatorio_turma. destruct (get_turma s codigo) as [turma|]; [|discriminate].
  fold (atividades_da_turma s codigo).
  destruct (traverse (resumo turma) _) as [rs|e] eqn:T.
  - destruct (atividades_da_turma s codigo) as [|a l] eqn:E; [discriminate|].
    pose proof (int_truediv_no_zero_division (soma_entregas (a :: l))
                  (len (a :: l)) (len_cons_nonzero a l)) as Hd.
    destruct (Py.int_truediv _ _) as [q|e]; [discriminate|].
    intros Hr. apply Hd. congruence.
  - intros Hr. injection Hr as ->. apply traverse_raises in T.
    destruct T as [x [_ Hx]]. now apply resumo_no_zero_division in Hx.
Qed.

(** C9.  For a class that exists, the report never divides by zero.  When
    the class has no student, every assignment of the class gets its line,
    with 0.0 as the percentage of submissions, and the report is returned as
    soon as the counts are ints that floats hold exactly; when the class has
    no assignment, the report is returned with 0.0 as the mean number of
    submissions per assignment. *)
Theorem relatorio_turma_sem_divisao (s : DataStore) (codigo : string)
  (turma : Turma.t) :
  get_turma s codigo = Some turma ->
  let atvs := atividades_da_turma s codigo in
  relatorio_turma s codigo <> Py.Raise Py.ZeroDivisionError
  /\ (Turma.alunos turma = [] ->
      (forall r, relatorio_turma s codigo = Py.Ok r ->
                 map resumo_id (rel_atividades r) = map Atividade.id atvs
                 /\ forall a, In a (rel_atividades r) ->
                              percentual_entregas a = 0%float)
      /\ (Py.is_small (soma_entregas atvs) = true ->
          Py.is_small (len atvs) = true ->
          exists r, relatorio_turma s codigo = Py.Ok r))
  /\ (atvs = [] ->
      exists r, relatorio_turma s codigo = Py.Ok r
                /\ rel_atividades r = []
                /\ media_entregas_por_atividade r = 0%float).
Proof.
  intros Ht atvs. split; [apply relatorio_turma_no_zero_division|].
  unfold relatorio_turma. rewrite Ht. fold (atividades_da_turma s codigo).
  fold atvs. split.
  - intros Hz. rewrite (traverse_resumo_sem_alunos turma atvs Hz). split.
    + intros r Hr.
      assert (Hl : rel_atividades r
                   = map (fun atv =>
                            mkResumo (Atividade.id atv) (Atividade.titulo atv)
                              (Atividade.data_entrega atv)
                              (len (Atividade.entregas atv)) 0) atvs).
      { destruct atvs as [|a l]; [injection Hr as <-; reflexivity|].
        destruct (Py.int_truediv _ _) as [q|e]; [|discriminate].
        injection Hr as <-. reflexivity. }
      rewrite Hl. split.
      * rewrite map_map. reflexivity.
      * intros a Ha. apply in_map_iff in Ha. destruct Ha as [atv [<- _]].
        reflexivity.
    + intros Hs Hn. destruct atvs as [|a l] eqn:E; [eauto|].
      destruct (int_truediv_small (soma_entregas (a :: l)) (len (a :: l))
                  (len_cons_nonzero a l) Hs Hn) as [q ->].
      eauto.
  - intros He. rewrite He. simpl. eauto.
Qed.

(** ** The histogram of grades *)













(** The grades 7.4, 7.6 and 10.0 of the specification. *)
Example distribuicao_notas_exemplo :
  distribuicao_notas
    (mkDataStore [] []
       [(1, Atividade.make 1 "T1" "Atv" "2025-11-30"
              [("A", VDict [("arquivo", VStr "a.pdf"); ("nota", VFloat 7.4)]);
               ("B", VDict [("nota", VFloat 7.6)]);
               ("C", VDict [("arquivo", VStr "c.pdf")]);
               ("D", VDict [("nota", VFloat 10)])])] 2) 1
  = Py.Ok (Distribuicao 1
             [(0, 0); (1, 0); (2, 0); (3, 0); (4, 0); (5, 0); (6, 0);
              (7, 1); (8, 1); (9, 0); (10, 1)]).
Proof. vm_compute. reflexivity. Qed.

(** A grade that is an int beyond the floats: [float(valor)] raises
    OverflowError, which the loop does not catch. *)
Example distribuicao_notas_overflow_exemplo :
  distribuicao_notas
    (mkDataStore [] []
       [(1, Atividade.make 1 "T1" "Atv" "2025-11-30"
              [("A", VDict [("nota", VFloat 7.4)]);
               ("B", VDict [("nota", VInt (2 ^ 1024))])])] 2) 1
  = Py.Raise Py.OverflowError.
Proof. vm_compute. reflexivity. Qed.

(** Ties go to the even integer: 6.5 falls into bucket 6 and 7.5 into
    bucket 8. *)
Example distribuicao_notas_empates :
  distribuicao_notas
    (mkDataStore [] []
       [(1, Atividade.make 1 "T1" "Atv" "2025-11-30"
              [("A", VDict [("nota", VFloat 6.5)]);
               ("B", VDict [("nota", VFloat 7.5)])])] 2) 1
  = Py.Ok (Distribuicao 1
             [(0, 0); (1, 0); (2, 0); (3, 0); (4, 0); (5, 0); (6, 1);
              (7, 0); (8, 1); (9, 0); (10, 0)]).
Proof. vm_compute. reflexivity. Qed.

(** ** Setting the grades of a student *)

Lemma _val_aceita (v : value) (nome : string) (w : World) :
  aceita v -> _val v nome w = (w, Py.Ok tt).
Proof.
  intros [->|[n [Hn [Hlo Hhi]]]]; [reflexivity|].
  unfold _val. rewrite Hn, Hlo, Hhi. destruct v; reflexivity.
Qed.

Lemma assign_nota_aceita (ra : string) (setter : float -> Aluno.t -> Aluno.t)
  (v : value) (w : World) (a : Aluno.t) :
  aceita v ->
  Dict.get ra (alunos (db w)) = Some a ->
  exists w',
    assign_nota ra setter v w = (w', Py.Ok tt)
    /\ data_file w' = data_file w /\ writes w' = writes w
    /\ turmas (db w') = turmas (db w)
    /\ atividades (db w') = atividades (db w)
    /\ _next_atv_id (db w') = _next_atv_id (db w)
    /\ (forall r, r <> ra ->
                  Dict.get r (alunos (db w')) = Dict.get r (alunos (db w)))
    /\ Dict.keys (alunos (db w')) = Dict.keys (alunos (db w))
    /\ Dict.get ra (alunos (db w')) = Some (atribui setter v a).
Proof.
  intros [->|[n [Hn _]]] Ha.
  - exists w. simpl. repeat split; auto.
  - assert (Hm : Dict.mem ra (alunos (db w)) = true)
      by (unfold Dict.mem; now rewrite Ha).
    unfold assign_nota, atribui. rewrite Hn.
    destruct v; try discriminate Hn;
      (cbv beta iota delta [bind lift modify_db]; rewrite Ha;
       eexists; split; [reflexivity|]; cbn [db data_file writes];
       repeat (split; [reflexivity|]);
       split; [intros r Hr; now apply dict_get_set_other|];
       split; [now apply dict_keys_set_mem | apply dict_get_set_same]).
Qed.

Ltac atribui_cases v :=
  unfold atribui, nota_atribuida;
  destruct v; try (repeat split; reflexivity);
  (destruct (py_float float_of_str _); repeat split; reflexivity).

Lemma atribui_np1 (v : value) (a : Aluno.t) :
  let a' := atribui Aluno.set_np1 v a in
  Aluno.np1 a' = nota_atribuida v (Aluno.np1 a)
  /\ Aluno.np2 a' = Aluno.np2 a /\ Aluno.pim a' = Aluno.pim a
  /\ Aluno.nome a' = Aluno.nome a /\ Aluno.ra a' = Aluno.ra a
  /\ Aluno.curso a' = Aluno.curso a.
Proof. atribui_cases v. Qed.

Lemma atribui_np2 (v : value) (a : Aluno.t) :
  let a' := atribui Aluno.set_np2 v a in
  Aluno.np2 a' = nota_atribuida v (Aluno.np2 a)
  /\ Aluno.np1 a' = Aluno.np1 a /\ Aluno.pim a' = Aluno.pim a
  /\ Aluno.nome a' = Aluno.nome a /\ Aluno.ra a' = Aluno.ra a
  /\ Aluno.curso a' = Aluno.curso a.
Proof. atribui_cases v. Qed.

Lemma atribui_pim (v : value) (a : Aluno.t) :
  let a' := atribui Aluno.set_pim v a in
  Aluno.pim a' = nota_atribuida v (Aluno.pim a)
  /\ Aluno.np1 a' = Aluno.np1 a /\ Aluno.np2 a' = Aluno.np2 a
  /\ Aluno.nome a' = Aluno.nome a /\ Aluno.ra a' = Aluno.ra a
  /\ Aluno.curso a' = Aluno.curso a.
Proof. atribui_cases v. Qed.

(** When the student exists and each value is let through by [_val],
    [set_notas] returns the consolidated view; each field given is assigned
    its float, the fields not given keep what they had, the rest of the
    store is as before, and the file holds the new store. *)
Lemma set_notas_returns (ra : string) (np1 np2 pim : value) (w : World)
  (a : Aluno.t) :
  Dict.get ra (alunos (db w)) = Some a ->
  aceita np1 -> aceita np2 -> aceita pim ->
  exists w' a',
    set_notas ra np1 np2 pim w = (w', Py.Ok (get_notas (db w') ra))
    /\ Dict.get ra (alunos (db w')) = Some a'
    /\ Aluno.np1 a' = nota_atribuida np1 (Aluno.np1 a)
    /\ Aluno.np2 a' = nota_atribuida np2 (Aluno.np2 a)
    /\ Aluno.pim a' = nota_atribuida pim (Aluno.pim a)
    /\ Aluno.nome a' = Aluno.nome a /\ Aluno.ra a' = Aluno.ra a
    /\ Aluno.curso a' = Aluno.curso a
    /\ (forall r, r <> ra ->
                  Dict.get r (alunos (db w')) = Dict.get r (alunos (db w)))
    /\ turmas (db w') = turmas (db w)
    /\ atividades (db w') = atividades (db w)
    /\ _next_atv_id (db w') = _next_atv_id (db w)
    /\ Dict.keys (alunos (db w')) = Dict.keys (alunos (db w))
    /\ data_file w' = Some (dump (db w')).
Proof.
  intros Ha A1 A2 A3. unfold set_notas.
  unfold bind at 1. unfold get_db at 1. rewrite Ha.
  unfold bind at 1. rewrite (_val_aceita np1 "NP1" w A1).
  unfold bind at 1. rewrite (_val_aceita np2 "NP2" w A2).
  unfold bind at 1. rewrite (_val_aceita pim "PIM" w A3).
  destruct (assign_nota_aceita ra Aluno.set_np1 np1 w a A1 Ha)
    as [u1 [R1 [F1 [W1 [T1 [V1 [N1 [O1 [K1 G1]]]]]]]]].
  destruct (assign_nota_aceita ra Aluno.set_np2 np2 u1 _ A2 G1)
    as [u2 [R2 [F2 [W2 [T2 [V2 [N2 [O2 [K2 G2]]]]]]]]].
  destruct (assign_nota_aceita ra Aluno.set_pim pim u2 _ A3 G2)
    as [u3 [R3 [F3 [W3 [T3 [V3 [N3 [O3 [K3 G3]]]]]]]]].
  unfold bind at 1. rewrite R1.
  unfold bind at 1. rewrite R2.
  unfold bind at 1. rewrite R3.
  unfold_monad.
  exists (mkWorld (db u3) (Some (dump (db u3))) (S (writes u3))).
  eexists. split; [reflexivity|]. simpl.
  split; [exact G3|].
  destruct (atribui_np1 np1 a) as [P1 [P2 [P3 [P4 [P5 P6]]]]].
  destruct (atribui_np2 np2 (atribui Aluno.set_np1 np1 a))
    as [Q1 [Q2 [Q3 [Q4 [Q5 Q6]]]]].
  destruct (atribui_pim pim
              (atribui Aluno.set_np2 np2 (atribui Aluno.set_np1 np1 a)))
    as [S1 [S2 [S3 [S4 [S5 S6]]]]].
  repeat split; try congruence.
  intros r Hr. rewrite (O3 r Hr), (O2 r Hr), (O1 r Hr). reflexivity.
Qed.

(** Conversely a value that [set_notas] accepted was let through. *)
Lemma set_notas_returned (ra : string) (np1 np2 pim : value) (w w' : World)
  (r : option Notas) :
  set_notas ra np1 np2 pim w = (w', Py.Ok r) ->
  Dict.mem ra (alunos (db w)) = true
  /\ aceita np1 /\ aceita np2 /\ aceita pim.
Proof.
  unfold set_notas. unfold bind at 1. unfold get_db at 1. unfold Dict.mem.
  destruct (Dict.get ra (alunos (db w))) as [a|]; [|discriminate].
  unfold bind at 1.
  destruct (_val np1 "NP1" w) as [w1 [[]|e1]] eqn:V1; [|discriminate].
  apply _val_returns in V1. destruct V1 as [-> O1].
  unfold bind at 1.
  destruct (_val np2 "NP2" w) as [w2 [[]|e2]] eqn:V2; [|discriminate].
  apply _val_returns in V2. destruct V2 as [-> O2].
  unfold bind at 1.
  destruct (_val pim "PIM" w) as [w3 [[]|e3]] eqn:V3; [|discriminate].
  apply _val_returns in V3. destruct V3 as [-> O3].
  intros _. auto.
Qed.

(** A value out of the range is refused with the name of its own field, and
    nothing is written. *)
Lemma set_notas_fora_da_faixa (ra : string) (x : float) (w : World)
  (a : Aluno.t) :
  Dict.get ra (alunos (db w)) = Some a ->
  (x <? 0)%float || (10 <? x)%float = true ->
  set_notas ra (VFloat x) VNone VNone w
  = (w, Py.Raise (Py.ValueError "NP1 deve estar entre 0 e 10."))
  /\ set_notas ra VNone (VFloat x) VNone w
     = (w, Py.Raise (Py.ValueError "NP2 deve estar entre 0 e 10."))
  /\ set_notas ra VNone VNone (VFloat x) w
     = (w, Py.Raise (Py.ValueError "PIM deve estar entre 0 e 10.")).
Proof.
  intros Ha Hx. unfold set_notas, _val, bind, get_db, ret, raise.
  rewrite Ha. simpl. rewrite Hx. auto.
Qed.

(** A value that does not convert is refused with the name of its own
    field, and nothing is written. *)
Lemma set_notas_invalida (ra : string) (v : value) (e : Py.exn) (w : World)
  (a : Aluno.t) :
  Dict.get ra (alunos (db w)) = Some a ->
  v <> VNone ->
  py_float float_of_str v = Py.Raise e ->
  set_notas ra v VNone VNone w = (w, Py.Raise (Py.ValueError "NP1 inválida."))
  /\ set_notas ra VNone v VNone w
     = (w, Py.Raise (Py.ValueError "NP2 inválida."))
  /\ set_notas ra VNone VNone v w
     = (w, Py.Raise (Py.ValueError "PIM inválida.")).
Proof.
  intros Ha Hv He. unfold set_notas, _val, bind, get_db, ret, raise.
  rewrite Ha, He. destruct v; try contradiction; auto.
Qed.

Example set_notas_rejeita_10_5_e_menos_1 (ra : string) (w : World) (a : Aluno.t) :
  Dict.get ra (alunos (db w)) = Some a ->
  set_notas ra (VFloat 10.5) VNone VNone w
  = (w, Py.Raise (Py.ValueError "NP1 deve estar entre 0 e 10."))
  /\ set_notas ra VNone (VFloat (-1)) VNone w
     = (w, Py.Raise (Py.ValueError "NP2 deve estar entre 0 e 10."))
  /\ set_notas ra VNone VNone (VInt (-1)) w
     = (w, Py.Raise (Py.ValueError "PIM deve estar entre 0 e 10.")).
Proof.
  intros Ha. unfold set_notas, _val, bind, get_db, ret, raise.
  rewrite Ha. auto.
Qed.

Example aceita_0_e_10 :
  aceita (VFloat 0) /\ aceita (VFloat 10) /\ aceita (VInt 0) /\ aceita (VInt 10).
Proof. repeat split; right; eexists; repeat split; reflexivity. Qed.

(** ** Pending grades *)

Lemma pendencias_nota_turma_ausente (s : DataStore) (codigo : string) :
  get_turma s codigo = None ->
  pendencias_nota s codigo = Py.Raise (Py.ValueError "Turma não encontrada.").
Proof. intros Ht. unfold pendencias_nota. now rewrite Ht. Qed.

(** The test that the loop applies to a member: the submission is missing
    or is no dict, or its "nota" is missing or None.  What the grade is,
    when there is one, is not looked at. *)
Lemma sem_nota_iff (atv : Atividade.t) (ra : string) :
  is_None (nota_da_entrega atv ra) = true
  <-> match Dict.get ra (Atividade.entregas atv) with
      | Some (VDict d) =>
          Dict.get "nota" d = None \/ Dict.get "nota" d = Some VNone
      | _ => True
      end.
Proof.
  unfold nota_da_entrega.
  destruct (Dict.get ra (Atividade.entregas atv)) as [[ | | | | | |d]|];
    simpl; try tauto.
  destruct (Dict.get "nota" d) as [[]|]; simpl; split; intros H;
    try tauto; try discriminate;
    destruct H as [H|H]; discriminate.
Qed.

Lemma fold_left_set_items {A V} (key : A -> Z) (val : A -> V) (l : list A)
  (acc : Dict.t Z V) :
  fold_left (fun out x => Dict.set (key x) (val x) out) l acc
  = fold_left (fun d kv => Dict.set (fst kv) (snd kv) d)
      (map (fun x => (key x, val x)) l) acc.
Proof.
  revert acc. induction l as [|x r IH]; intros acc; simpl; [reflexivity|].
  apply IH.
Qed.

(** When the assignments of the class have distinct ids, as they have when
    [add_atividade] created them, the answer has one entry per assignment,
    in the order of creation, and the entry lists, in the order of the
    class, the members that pass that test. *)
Lemma pendencias_nota_por_atividade (s : DataStore) (codigo : string)
  (t : Turma.t) :
  get_turma s codigo = Some t ->
  distinct (map Atividade.id (atividades_da_turma s codigo)) = true ->
  pendencias_nota s codigo
  = Py.Ok (map (fun atv =>
                  (Atividade.id atv,
                   filter (fun ra => is_None (nota_da_entrega atv ra))
                          (Turma.alunos t)))
             (atividades_da_turma s codigo)).
Proof.
  intros Ht Hd. unfold pendencias_nota. rewrite Ht. f_equal.
  rewrite (fold_left_set_items Atividade.id
             (fun atv => filter (fun ra => is_None (nota_da_entrega atv ra))
                                (Turma.alunos t))).
  apply of_items_distinct. now rewrite map_map.
Qed.

(** ** The stores that the methods build *)

Lemma distinct_app_new {K} `{Key K} (l : list K) (k : K) :
  distinct l = true -> ~ In k l -> distinct (l ++ [k])%list = true.
Proof.
  rewrite !distinct_NoDup. intros Hl Hk.
  apply NoDup_app; [assumption | repeat constructor; intros [] | ].
  intros x Hx [<-|[]]. contradiction.
Qed.

Lemma distinct_keys_set {K V} `{Key K} (k : K) (v : V) (d : Dict.t K V) :
  distinct (Dict.keys d) = true -> distinct (Dict.keys (Dict.set k v d)) = true.
Proof.
  intros Hd. destruct (Dict.mem k d) eqn:E.
  - now rewrite dict_keys_set_mem.
  - rewrite dict_set_new by assumption. unfold Dict.keys. rewrite map_app.
    apply distinct_app_new; [assumption | now apply dict_mem_false_notin].
Qed.

Lemma forallb_values_set {K V} `{Key K} (P : V -> bool) (k : K) (v : V)
  (d : Dict.t K V) :
  P v = true -> forallb P (Dict.values d) = true ->
  forallb P (Dict.values (Dict.set k v d)) = true.
Proof.
  intros Hv. induction d as [|[k' v'] r IH]; simpl.
  - now rewrite Hv.
  - rewrite andb_true_iff. intros [H1 H2].
    destruct (key_eqb k k'); simpl.
    + now rewrite Hv.
    + now rewrite H1, IH.
Qed.

Lemma forallb_values_get {K V} `{Key K} (P : V -> bool) (k : K) (v : V)
  (d : Dict.t K V) :
  forallb P (Dict.values d) = true -> Dict.get k d = Some v -> P v = true.
Proof.
  induction d as [|[k' v'] r IH]; simpl; [discriminate|].
  rewrite andb_true_iff. intros [H1 H2].
  destruct (key_eqb k k'); [intros E; injection E as <-; assumption | now apply IH].
Qed.

Lemma distinct_keys_of_items {K V} `{Key K} (l : list (K * V)) :
  distinct (Dict.keys (Dict.of_items l)) = true.
Proof.
  unfold Dict.of_items.
  assert (G : forall acc, distinct (Dict.keys acc) = true ->
              distinct (Dict.keys
                (fold_left (fun d kv => Dict.set (fst kv) (snd kv) d) l acc)) = true).
  { induction l as [|[k v] r IH]; intros acc Ha; simpl; [assumption|].
    apply IH. now apply distinct_keys_set. }
  now apply G.
Qed.

Lemma forallb_values_of_items {K V} `{Key K} (P : V -> bool) (l : list (K * V)) :
  forallb P (map snd l) = true ->
  forallb P (Dict.values (Dict.of_items l)) = true.
Proof.
  unfold Dict.of_items.
  assert (G : forall acc, forallb P (Dict.values acc) = true ->
              forallb P (map snd l) = true ->
              forallb P (Dict.values
                (fold_left (fun d kv => Dict.set (fst kv) (snd kv) d) l acc)) = true).
  { induction l as [|[k v] r IH]; intros acc Ha Hl; simpl in *; [assumption|].
    rewrite andb_true_iff in Hl. destruct Hl as [Hv Hr].
    apply IH; [now apply forallb_values_set | assumption]. }
  now apply G.
Qed.

Lemma atividade_ok_set_entrega (ra : string) (d : Dict.t string value)
  (atv : Atividade.t) :
  atividade_ok atv = true ->
  atividade_ok (Atividade.set_entrega ra (VDict d) atv) = true.
Proof.
  unfold atividade_ok. simpl. now apply forallb_values_set.
Qed.

Lemma exec_well_formed (c : call) (w : World) :
  call_ok c = true ->
  well_formed (db w) = true ->
  well_formed (db (fst (exec c w))) = true.
Proof.
  intros Hc Hw. destruct (exec c w) as [w' [o|e]] eqn:E; simpl.
  2:{ apply exec_raises in E. destruct E as [-> _]. assumption. }
  revert Hw. unfold well_formed. rewrite !andb_true_iff.
  intros [[[Ha Ht] Hv] Hok].
  destruct c; unfold exec in E.
  - unfold add_aluno in E. unfold_monad.
    destruct (Dict.mem _ _); inversion E; subst; simpl.
    repeat split; try assumption. now apply distinct_keys_set.
  - unfold add_turma in E. unfold_monad.
    destruct (Dict.mem _ _); inversion E; subst; simpl.
    repeat split; try assumption. now apply distinct_keys_set.
  - unfold add_aluno_to_turma in E. unfold_monad.
    destruct (get_turma _ _); [|discriminate].
    destruct (negb (Dict.mem _ _)); inversion E; subst; simpl.
    repeat split; try assumption. now apply distinct_keys_set.
  - unfold add_atividade in E. unfold_monad. inversion E; subst; simpl.
    repeat split; try assumption; [now apply distinct_keys_set|].
    apply forallb_values_set; [exact Hc | assumption].
  - unfold add_entrega in E. unfold_monad.
    destruct (get_atividade _ _) as [atv|] eqn:G; [|discriminate].
    destruct (negb (Dict.mem _ _)); inversion E; subst; simpl.
    repeat split; try assumption; [now apply distinct_keys_set|].
    apply forallb_values_set; [|assumption].
    apply atividade_ok_set_entrega.
    now apply (forallb_values_get atividade_ok atv_id atv (atividades (db w))).
  - unfold set_nota_entrega in E.
    destruct nota; unfold_monad;
      repeat case_step; try discriminate; inv_pair; simpl;
      (repeat split; try assumption; [now apply distinct_keys_set|];
       apply forallb_values_set; [|assumption];
       apply atividade_ok_set_entrega;
       eapply (forallb_values_get atividade_ok); eassumption).
  - unfold bind in E.
    destruct (set_notas ra np1 np2 pim w) as [w1 [r|e]] eqn:S; [|discriminate].
    unfold ret in E. inversion E; subst.
    destruct (set_notas_returned _ _ _ _ _ _ _ S) as [Hm [A1 [A2 A3]]].
    unfold Dict.mem in Hm.
    destruct (Dict.get ra (alunos (db w))) as [a|] eqn:G; [|discriminate].
    destruct (set_notas_returns ra np1 np2 pim w a G A1 A2 A3)
      as [u [a' [Hrun [_ [_ [_ [_ [_ [_ [_ [_ [Ht' [Hv' [_ [Hk _]]]]]]]]]]]]]]].
    rewrite S in Hrun. inversion Hrun; subst u.
    rewrite Ht', Hv', Hk. repeat split; assumption.
Qed.

Lemma run_calls_well_formed (cs : list call) (w : World) :
  forallb call_ok cs = true ->
  well_formed (db w) = true ->
  well_formed (db (fst (run_calls cs w))) = true.
Proof.
  revert w. induction cs as [|c r IH]; intros w Hcs Hw; simpl; [assumption|].
  simpl in Hcs. rewrite andb_true_iff in Hcs. destruct Hcs as [Hc Hr].
  pose proof (exec_well_formed c w Hc Hw) as H1.
  destruct (exec c w) as [w1 res]. simpl in H1.
  specialize (IH w1 Hr H1). destruct (run_calls r w1) as [w2 ids]. exact IH.
Qed.

Lemma traverse_returns {A B} (f : A -> Py.result B) (l : list A) (l' : list B) :
  traverse f l = Py.Ok l' ->
  Forall (fun y => exists x, In x l /\ f x = Py.Ok y) l'.
Proof.
  revert l'. induction l as [|x r IH]; simpl; intros l' Hl.
  - injection Hl as <-. constructor.
  - destruct (f x) as [y|e] eqn:E; [|discriminate].
    destruct (traverse f r) as [ys|e]; [|discriminate].
    injection Hl as <-. constructor.
    + exists x. auto.
    + eapply Forall_impl; [|apply IH; reflexivity].
      intros z [x0 [Hx Hf]]. exists x0. auto.
Qed.

Lemma new_Atividade_ok (v : value) (a : Atividade.t) :
  new_Atividade v = Py.Ok a -> atividade_ok a = true.
Proof.
  unfold new_Atividade. destruct v; try discriminate.
  destruct (field_int _ _); [|discriminate].
  destruct (field_str "turma_codigo" _); [|discriminate].
  destruct (field_str "titulo" _); [|discriminate].
  destruct (field_str "data_entrega" _); [|discriminate].
  destruct (field_dict_of_dict "entregas" d) as [e|] eqn:E; [|discriminate].
  intros Ha. injection Ha as <-. unfold atividade_ok. simpl.
  unfold field_dict_of_dict in E.
  destruct (Dict.get "entregas" d) as [[ | | | | | |d0]|]; try discriminate.
  - destruct (forallb _ d0) eqn:F; [|discriminate]. injection E as <-.
    unfold Dict.values. clear -F.
    induction d0 as [|kv r IH]; simpl in *; [reflexivity|].
    rewrite andb_true_iff in F. destruct F as [F1 F2]. now rewrite F1, IH.
  - injection E as <-. reflexivity.
Qed.

(** The store with which the process starts is one of these, whatever the
    file held, as soon as the load went through. *)
Lemma init_well_formed (file : option value) (w' : World) :
  __init__ (boot file) = (w', Py.Ok tt) -> well_formed (db w') = true.
Proof.
  unfold __init__, bind at 1. simpl. unfold _load. simpl data_file.
  destruct file as [raw|]; [|intros E; inversion E; reflexivity].
  unfold_monad.
  destruct (load_table "alunos" _ _ raw) as [a|e] eqn:E1; [|discriminate].
  destruct (load_table "turmas" _ _ raw) as [t|e] eqn:E2; [|discriminate].
  destruct (load_table "atividades" _ _ raw) as [v|e] eqn:E3; [|discriminate].
  destruct (match value_get "next_id" (VInt 1) raw with
            | Py.Ok x => py_int int_of_text x | Py.Raise e => Py.Raise e end)
    as [n|e];
    [|discriminate].
  intros E. inversion E; subst. unfold well_formed. simpl.
  unfold load_table in E1, E2, E3.
  destruct (value_get "alunos" _ raw) as [ta|]; [|discriminate].
  destruct (value_items ta) as [ia|]; [|discriminate].
  destruct (traverse _ ia) as [la|]; [|discriminate]. injection E1 as <-.
  destruct (value_get "turmas" _ raw) as [tt0|]; [|discriminate].
  destruct (value_items tt0) as [it|]; [|discriminate].
  destruct (traverse _ it) as [lt|]; [|discriminate]. injection E2 as <-.
  destruct (value_get "atividades" _ raw) as [tv|]; [|discriminate].
  destruct (value_items tv) as [iv|]; [|discriminate].
  destruct (traverse _ iv) as [lv|] eqn:T; [|discriminate]. injection E3 as <-.
  rewrite !distinct_keys_of_items. simpl.
  apply forallb_values_of_items. apply forallb_forall.
  intros x Hx. apply in_map_iff in Hx. destruct Hx as [[k a0] [<- Hin]].
  apply traverse_returns in T. rewrite Forall_forall in T.
  destruct (T _ Hin) as [[ks vs] [_ Hb]]. simpl in Hb.
  destruct (int_of_text ks); [|discriminate].
  destruct (new_Atividade vs) as [a1|] eqn:N; [|discriminate].
  injection Hb as _ <-. now apply new_Atividade_ok in N.
Qed.

(** So a store reached from any start that went through, by calls whose
    arguments pydantic has validated, loads back as itself from its own
    snapshot. *)
Corollary reachable_store_loads_back (file : option value) (cs : list call)
  (w0 : World) :
  __init__ (boot file) = (w0, Py.Ok tt) ->
  forallb call_ok cs = true ->
  let s := db (fst (run_calls cs w0)) in
  __init__ (boot (Some (dump s))) = (mkWorld s (Some (dump s)) 0, Py.Ok tt).
Proof.
  intros Hinit Hcs s. apply init_dump. apply run_calls_well_formed.
  - assumption.
  - now apply init_well_formed with file.
Qed.

(** ** Calls as functions of the store *)

Lemma aceitab_aceita (v : value) : aceitab v = true <-> aceita v.
Proof.
  unfold aceitab, aceita, passa. split.
  - destruct v; auto;
      (destruct (py_float float_of_str _) as [n|e]; [|discriminate];
       rewrite negb_true_iff, orb_false_iff; intros [H1 H2]; right; eauto).
  - intros [->|[n [Hn [H1 H2]]]]; [reflexivity|].
    rewrite Hn, H1, H2. destruct v; reflexivity.
Qed.

Lemma dict_mem_get {K V} `{Key K} (k : K) (d : Dict.t K V) :
  Dict.mem k d = true <-> exists v, Dict.get k d = Some v.
Proof.
  unfold Dict.mem. destruct (Dict.get k d) as [v|].
  - split; eauto.
  - split; [discriminate | intros [v Hv]; discriminate].
Qed.

Lemma dict_set_get_same {K V} `{Key K} (k : K) (v : V) (d : Dict.t K V) :
  Dict.get k d = Some v -> Dict.set k v d = d.
Proof.
  induction d as [|[k' v'] r IH]; simpl; [discriminate|].
  destruct (key_eqb k k'); [intros E; injection E as ->; reflexivity|].
  intros E. now rewrite IH.
Qed.

Lemma dict_set_set {K V} `{Key K} (k : K) (v1 v2 : V) (d : Dict.t K V) :
  Dict.set k v2 (Dict.set k v1 d) = Dict.set k v2 d.
Proof.
  induction d as [|[k' v'] r IH]; simpl.
  - now rewrite key_eqb_refl.
  - destruct (key_eqb k k') eqn:E; simpl; rewrite E; [reflexivity|].
    now rewrite IH.
Qed.

(** The three assignments of [set_notas], one after the other. *)
Lemma assign_nota_efeito (ra : string) (setter : float -> Aluno.t -> Aluno.t)
  (v : value) (w : World) (a : Aluno.t) :
  aceita v ->
  Dict.get ra (alunos (db w)) = Some a ->
  assign_nota ra setter v w
  = (mkWorld (set_alunos (Dict.set ra (atribui setter v a) (alunos (db w))) (db w))
       (data_file w) (writes w), Py.Ok tt).
Proof.
  intros [->|[n [Hn _]]] Ha.
  - simpl. rewrite (dict_set_get_same _ _ _ Ha). destruct w as [[] ? ?]; reflexivity.
  - unfold assign_nota, atribui. rewrite Hn.
    destruct v; try discriminate Hn;
      (cbv beta iota delta [bind lift modify_db]; rewrite Ha; reflexivity).
Qed.

Lemma set_notas_efeito (ra : string) (np1 np2 pim : value) (w : World) :
  guarda (Call_set_notas ra np1 np2 pim) (db w) = true ->
  let s' := efeito (Call_set_notas ra np1 np2 pim) (db w) in
  set_notas ra np1 np2 pim w
  = (mkWorld s' (Some (dump s')) (S (writes w)), Py.Ok (get_notas s' ra)).
Proof.
  simpl. rewrite !andb_true_iff, !aceitab_aceita, dict_mem_get.
  intros [[[[a Ha] A1] A2] A3]. rewrite Ha.
  unfold set_notas. unfold bind at 1. unfold get_db at 1. rewrite Ha.
  unfold bind at 1. rewrite (_val_aceita np1 "NP1" w A1).
  unfold bind at 1. rewrite (_val_aceita np2 "NP2" w A2).
  unfold bind at 1. rewrite (_val_aceita pim "PIM" w A3).
  unfold bind at 1. rewrite (assign_nota_efeito ra _ np1 w a A1 Ha).
  unfold bind at 1.
  rewrite (assign_nota_efeito ra _ np2 _ (atribui Aluno.set_np1 np1 a) A2)
    by (simpl; apply dict_get_set_same).
  unfold bind at 1.
  rewrite (assign_nota_efeito ra _ pim _
             (atribui Aluno.set_np2 np2 (atribui Aluno.set_np1 np1 a)) A3)
    by (simpl; apply dict_get_set_same).
  unfold bind, _save, get_db, ret. simpl. rewrite !dict_set_set. reflexivity.
Qed.

(** Every call is a test on the store followed, when the test holds, by one
    update of the store and one write of the file. *)
Lemma exec_spec (c : call) (w : World) :
  if guarda c (db w) then
    exists o,
      exec c w
      = (mkWorld (efeito c (db w)) (Some (dump (efeito c (db w)))) (S (writes w)),
         Py.Ok o)
  else exists msg, exec c w = (w, Py.Raise (Py.ValueError msg)).
Proof.
  destruct c; cbn [guarda efeito exec].
  - unfold add_aluno, bind, get_db, ret, raise, modify_db, _save. cbv beta iota.
    destruct (Dict.mem _ _); simpl; eauto.
  - unfold add_turma, bind, get_db, ret, raise, modify_db, _save. cbv beta iota.
    destruct (Dict.mem _ _); simpl; eauto.
  - unfold add_aluno_to_turma, bind, get_db, get_turma, Dict.mem,
      ret, raise, modify_db, _save. cbv beta iota.
    destruct (Dict.get codigo (turmas (db w))) as [t|]; simpl; [|eauto].
    destruct (Dict.get ra (alunos (db w))); simpl; [|eauto].
    destruct (list_mem ra (Turma.alunos t)); simpl; eauto.
  - unfold add_atividade, bind, get_db, ret, modify_db, _save. simpl. eauto.
  - unfold add_entrega, bind, get_db, get_atividade, Dict.mem,
      ret, raise, modify_db, _save. cbv beta iota.
    destruct (Dict.get atv_id (atividades (db w))) as [atv|]; simpl; [|eauto].
    destruct (Dict.get ra (alunos (db w))); simpl; eauto.
  - destruct (is_None nota) eqn:N.
    + destruct nota; try discriminate N. unfold bind, raise. simpl. eauto.
    + assert (E1 : set_nota_entrega atv_id ra nota
                   = match py_float float_of_str nota with
                     | Py.Raise _ => raise (Py.ValueError "Nota inválida.")
                     | Py.Ok n =>
                         if (n <? 0)%float || (10 <? n)%float then
                           raise (Py.ValueError "Nota deve estar entre 0 e 10.")
                         else
                           s <- get_db ;;
                           match get_atividade s atv_id with
                           | None => raise (Py.ValueError "Atividade não encontrada.")
                           | Some atv =>
                               if negb (Dict.mem ra (alunos s)) then
                                 raise (Py.ValueError "Aluno (RA) não encontrado.")
                               else
                                 let payload := payload_of atv ra in
                                 let payload := Dict.set "nota" (VFloat n) payload in
                                 let atv := Atividade.set_entrega ra (VDict payload) atv in
                                 modify_db (fun s => set_atividades (Dict.set atv_id atv (atividades s)) s) ;;
                                 _save ;;
                                 ret atv
                           end
                     end)
        by (destruct nota; try discriminate N; reflexivity).
      assert (E2 : aceitab nota
                   = match py_float float_of_str nota with
                     | Py.Ok n => passa n
                     | Py.Raise _ => false
                     end)
        by (destruct nota; try discriminate N; reflexivity).
      rewrite E1, E2. clear E1 E2. unfold passa, get_atividade, Dict.mem.
      destruct (py_float float_of_str nota) as [n|e]; simpl;
        [|unfold bind, raise; simpl; eauto].
      destruct ((n <? 0)%float || (10 <? n)%float); simpl;
        [unfold bind, raise; simpl; eauto|].
      unfold bind, get_db, get_atividade, ret, raise, modify_db, _save.
      cbv beta iota.
      destruct (Dict.get atv_id (atividades (db w))) as [atv|]; simpl; [|eauto].
      destruct (Dict.get ra (alunos (db w))); simpl; eauto.
  - destruct (guarda (Call_set_notas ra np1 np2 pim) (db w)) eqn:G.
    + cbn [guarda] in G. rewrite G.
      pose proof (set_notas_efeito ra np1 np2 pim w G) as Hs. simpl in Hs.
      unfold bind. rewrite Hs. unfold ret. eauto.
    + cbn [guarda] in G. rewrite G.
      unfold bind.
      destruct (set_notas ra np1 np2 pim w) as [w1 [r|e]] eqn:S.
      * apply set_notas_returned in S. destruct S as [Hm [A1 [A2 A3]]].
        apply aceitab_aceita in A1, A2, A3. rewrite Hm, A1, A2, A3 in G.
        discriminate.
      * apply set_notas_raises in S. destruct S as [-> [msg ->]]. eauto.
Qed.

Lemma exec_db (c : call) (w : World) :
  db (fst (exec c w)) = if guarda c (db w) then efeito c (db w) else db w.
Proof.
  pose proof (exec_spec c w) as H. destruct (guarda c (db w)).
  - destruct H as [o ->]. reflexivity.
  - destruct H as [msg ->]. reflexivity.
Qed.

Lemma exec_returned (c : call) (w w' : World) (o : option Z) :
  exec c w = (w', Py.Ok o) ->
  guarda c (db w) = true
  /\ w' = mkWorld (efeito c (db w)) (Some (dump (efeito c (db w))))
            (S (writes w)).
Proof.
  intros E. pose proof (exec_spec c w) as H. destruct (guarda c (db w)).
  - destruct H as [o' H]. rewrite H in E. injection E as <- _. auto.
  - destruct H as [msg H]. rewrite H in E. discriminate.
Qed.

(** What every returning call keeps is kept by every run of calls. *)
Lemma run_calls_invariant (P : DataStore -> Prop) (Q : call -> bool) :
  (forall c s, Q c = true -> P s -> guarda c s = true -> P (efeito c s)) ->
  forall cs w, forallb Q cs = true -> P (db w) -> P (db (fst (run_calls cs w))).
Proof.
  intros Hstep cs. induction cs as [|c r IH]; intros w HQ HP; [exact HP|].
  simpl in HQ. apply andb_true_iff in HQ. destruct HQ as [Hc Hr].
  simpl. destruct (exec c w) as [w1 res] eqn:E.
  specialize (IH w1 Hr). destruct (run_calls r w1) as [w2 ids]. simpl in *.
  apply IH. replace w1 with (fst (exec c w)) by now rewrite E.
  rewrite exec_db. destruct (guarda c (db w)) eqn:G; auto.
Qed.

Lemma dict_mem_set {K V} `{Key K} (k k' : K) (v : V) (d : Dict.t K V) :
  Dict.mem k' (Dict.set k v d) = key_eqb k' k || Dict.mem k' d.
Proof.
  unfold Dict.mem. destruct (key_eqb_spec k' k) as [->|Hn].
  - now rewrite dict_get_set_same.
  - now rewrite dict_get_set_other.
Qed.

Lemma dict_mem_set_mono {K V} `{Key K} (k k' : K) (v : V) (d : Dict.t K V) :
  Dict.mem k' d = true -> Dict.mem k' (Dict.set k v d) = true.
Proof. intros Hm. rewrite dict_mem_set, Hm. apply orb_true_r. Qed.

Lemma prefixo_refl {A} (l : list A) : prefixo l l.
Proof. exists []. now rewrite app_nil_r. Qed.

Lemma prefixo_trans {A} (l1 l2 l3 : list A) :
  prefixo l1 l2 -> prefixo l2 l3 -> prefixo l1 l3.
Proof. intros [r1 ->] [r2 ->]. exists (r1 ++ r2)%list. now rewrite app_assoc. Qed.

Lemma dict_keys_set_prefixo {K V} `{Key K} (k : K) (v : V) (d : Dict.t K V) :
  prefixo (Dict.keys d) (Dict.keys (Dict.set k v d)).
Proof.
  destruct (Dict.mem k d) eqn:Hm.
  - rewrite dict_keys_set_mem by assumption. apply prefixo_refl.
  - rewrite dict_set_new by assumption. exists [k].
    unfold Dict.keys. now rewrite map_app.
Qed.




Lemma list_mem_In (ra : string) (l : list string) :
  list_mem ra l = true <-> In ra l.
Proof.
  unfold list_mem. rewrite existsb_exists. split.
  - intros [x [Hx E]]. apply String.eqb_eq in E. now subst.
  - intros Hin. exists ra. split; [assumption | apply String.eqb_refl].
Qed.

Lemma list_mem_false (ra : string) (l : list string) :
  list_mem ra l = false <-> ~ In ra l.
Proof.
  rewrite <- list_mem_In. destruct (list_mem ra l); split; congruence.
Qed.


(** X3.  A call that returns has written the file once, and the file holds
    the store as the call left it; when the store was well formed and the
    argument of the call a validated object, a process that starts on that
    file has the very same store: students, classes, assignments and
    counter of ids. *)
Theorem returned_call_is_durable (c : call) (w w' : World) (o : option Z) :
  exec c w = (w', Py.Ok o) ->
  data_file w' = Some (dump (db w'))
  /\ writes w' = S (writes w)
  /\ (call_ok c = true -> well_formed (db w) = true ->
      __init__ (boot (data_file w')) = (mkWorld (db w') (data_file w') 0, Py.Ok tt)).
Proof.
  intros E. pose proof (exec_well_formed c w) as Hwf.
  rewrite E in Hwf. simpl in Hwf.
  apply exec_returned in E. destruct E as [_ ->]. simpl.
  repeat split. intros Hc Hw. apply init_dump. auto.
Qed.

(** X4.  No run of calls takes anything out of the store: the RAs, the
    codes of the classes and the ids of the assignments that it held are
    still there, in the same order and before whatever came in, and the
    counter of ids has not gone down. *)
Theorem run_calls_never_remove (cs : list call) (w : World) :
  let w' := fst (run_calls cs w) in
  prefixo (Dict.keys (alunos (db w))) (Dict.keys (alunos (db w')))
  /\ prefixo (Dict.keys (turmas (db w))) (Dict.keys (turmas (db w')))
  /\ prefixo (Dict.keys (atividades (db w))) (Dict.keys (atividades (db w')))
  /\ _next_atv_id (db w) <= _next_atv_id (db w').
Proof.
  cbv zeta.
  apply (run_calls_invariant
           (fun s =>
              prefixo (Dict.keys (alunos (db w))) (Dict.keys (alunos s))
              /\ prefixo (Dict.keys (turmas (db w))) (Dict.keys (turmas s))
              /\ prefixo (Dict.keys (atividades (db w))) (Dict.keys (atividades s))
              /\ _next_atv_id (db w) <= _next_atv_id s)
           (fun _ => true)).
  - intros c s _ [Ha [Ht [Hv Hn]]] G.
    assert (Hstep : prefixo (Dict.keys (alunos s)) (Dict.keys (alunos (efeito c s)))
                    /\ prefixo (Dict.keys (turmas s)) (Dict.keys (turmas (efeito c s)))
                    /\ prefixo (Dict.keys (atividades s))
                         (Dict.keys (atividades (efeito c s)))
                    /\ _next_atv_id s <= _next_atv_id (efeito c s)).
    { destruct c; cbn [efeito]; unfold get_turma, get_atividade.
      - simpl. repeat split; try apply prefixo_refl; try lia.
        apply dict_keys_set_prefixo.
      - simpl. repeat split; try apply prefixo_refl; try lia.
        apply dict_keys_set_prefixo.
      - destruct (Dict.get codigo (turmas s)); simpl;
          repeat split; try apply prefixo_refl; try lia.
        apply dict_keys_set_prefixo.
      - simpl. repeat split; try apply prefixo_refl; try lia.
        apply dict_keys_set_prefixo.
      - destruct (Dict.get atv_id (atividades s)); simpl;
          repeat split; try apply prefixo_refl; try lia.
        apply dict_keys_set_prefixo.
      - destruct (Dict.get atv_id (atividades s));
          [destruct (py_float float_of_str nota)|]; simpl;
          repeat split; try apply prefixo_refl; try lia.
        apply dict_keys_set_prefixo.
      - destruct (Dict.get ra (alunos s)); simpl;
          repeat split; try apply prefixo_refl; try lia.
        apply dict_keys_set_prefixo. }
    destruct Hstep as [Ha' [Ht' [Hv' Hn']]].
    repeat split; try (eapply prefixo_trans; eassumption). lia.
  - clear. induction cs; simpl; auto.
  - repeat split; try apply prefixo_refl. lia.
Qed.

(** ** What holds of every store that the calls build *)

Lemma forallb_impl {A} (P Q : A -> bool) (l : list A) :
  (forall x, P x = true -> Q x = true) ->
  forallb P l = true -> forallb Q l = true.
Proof.
  intros HPQ. rewrite !forallb_forall. auto.
Qed.

Lemma forallb_keys_set {K V} `{Key K} (P : K -> bool) (k : K) (v : V)
  (d : Dict.t K V) :
  P k = true -> forallb P (Dict.keys d) = true ->
  forallb P (Dict.keys (Dict.set k v d)) = true.
Proof.
  intros Hk. induction d as [|[k' v'] r IH]; simpl.
  - now rewrite Hk.
  - destruct (key_eqb k k'); simpl; rewrite !andb_true_iff;
      intros [H1 H2]; auto.
Qed.

Lemma forallb_items_set {K V} `{Key K} (P : K * V -> bool) (k : K) (v : V)
  (d : Dict.t K V) :
  P (k, v) = true -> forallb P d = true -> forallb P (Dict.set k v d) = true.
Proof.
  intros Hk. induction d as [|[k' v'] r IH]; simpl.
  - now rewrite Hk.
  - destruct (key_eqb_spec k k') as [<-|Hn]; simpl; rewrite !andb_true_iff;
      intros [H1 H2]; auto.
Qed.

Lemma forallb_items_get {K V} `{Key K} (P : K * V -> bool) (k : K) (v : V)
  (d : Dict.t K V) :
  forallb P d = true -> Dict.get k d = Some v -> P (k, v) = true.
Proof.
  induction d as [|[k' v'] r IH]; simpl; [discriminate|].
  rewrite andb_true_iff. intros [H1 H2].
  destruct (key_eqb_spec k k') as [->|Hn]; [|auto].
  intros E. injection E as <-. exact H1.
Qed.

Lemma membros_ok_step (c : call) (s : DataStore) :
  as_routers_build c = true -> membros_ok s = true -> guarda c s = true ->
  membros_ok (efeito c s) = true.
Proof.
  unfold membros_ok. intros Hq Hinv G.
  destruct c; cbn [efeito guarda as_routers_build] in *;
    unfold get_turma, get_atividade.
  - simpl. revert Hinv. apply forallb_impl. intros t.
    rewrite !andb_true_iff. intros [Hd Hm]. split; [assumption|].
    revert Hm. apply forallb_impl. intros ra. apply dict_mem_set_mono.
  - simpl. apply forallb_values_set; [|assumption].
    destruct (Turma.alunos turma); [reflexivity | discriminate].
  - apply andb_true_iff in G. destruct G as [G1 G2].
    destruct (Dict.get codigo (turmas s)) as [t|] eqn:Ht; [|assumption].
    simpl. apply forallb_values_set; [|assumption].
    pose proof (forallb_values_get _ _ _ _ Hinv Ht) as Hp. cbv beta in Hp.
    destruct (list_mem ra (Turma.alunos t)) eqn:E; [assumption|].
    apply andb_true_iff in Hp. destruct Hp as [Hd Hm]. simpl.
    apply andb_true_iff. split.
    + apply distinct_app_new; [assumption | now apply list_mem_false].
    + rewrite forallb_app, Hm. simpl. now rewrite G2.
  - exact Hinv.
  - destruct (Dict.get atv_id (atividades s)); exact Hinv.
  - destruct (Dict.get atv_id (atividades s));
      [destruct (py_float float_of_str nota)|]; exact Hinv.
  - destruct (Dict.get ra (alunos s)) as [a0|]; [|assumption]. simpl.
    revert Hinv. apply forallb_impl. intros t0.
    rewrite !andb_true_iff. intros [Hd Hm]. split; [assumption|].
    revert Hm. apply forallb_impl. intros r. apply dict_mem_set_mono.
Qed.

(** X5.  When the calls create students, classes and assignments as the
    routers do (no grades, no members, no submissions), every run of calls
    keeps this of the store: the members of every class are RAs of
    registered students, and no class lists an RA twice. *)
Theorem run_calls_membros_ok (cs : list call) (w : World) :
  forallb as_routers_build cs = true ->
  membros_ok (db w) = true ->
  membros_ok (db (fst (run_calls cs w))) = true.
Proof.
  apply (run_calls_invariant (fun s => membros_ok s = true) as_routers_build).
  intros c s. apply membros_ok_step.
Qed.

Lemma entregas_ok_step (c : call) (s : DataStore) :
  as_routers_build c = true -> entregas_ok s = true -> guarda c s = true ->
  entregas_ok (efeito c s) = true.
Proof.
  unfold entregas_ok. intros Hq Hinv G.
  assert (Hset : forall atv_id atv ra0 p,
             Dict.get atv_id (atividades s) = Some atv ->
             Dict.mem ra0 (alunos s) = true ->
             forallb
               (fun a => forallb (fun r => Dict.mem r (alunos s))
                           (Dict.keys (Atividade.entregas a)))
               (Dict.values
                  (Dict.set atv_id (Atividade.set_entrega ra0 p atv)
                     (atividades s))) = true).
  { intros atv_id atv ra0 p Hget Hm.
    apply forallb_values_set; [|assumption]. simpl.
    apply forallb_keys_set; [assumption|].
    exact (forallb_values_get _ _ _ _ Hinv Hget). }
  destruct c; cbn [efeito guarda as_routers_build] in *;
    unfold get_turma, get_atividade.
  - simpl. revert Hinv. apply forallb_impl. intros atv.
    apply forallb_impl. intros r. apply dict_mem_set_mono.
  - exact Hinv.
  - destruct (Dict.get codigo (turmas s)); exact Hinv.
  - simpl. apply forallb_values_set; [|assumption]. simpl.
    destruct (Atividade.entregas atv); [reflexivity | discriminate].
  - apply andb_true_iff in G. destruct G as [G1 G2].
    destruct (Dict.get atv_id (atividades s)) as [atv|] eqn:Ha; [|assumption].
    simpl. now apply Hset.
  - apply andb_true_iff in G. destruct G as [G1 G2].
    destruct (Dict.get atv_id (atividades s)) as [atv|] eqn:Ha; [|assumption].
    destruct (py_float float_of_str nota); [|assumption].
    simpl. now apply Hset.
  - destruct (Dict.get ra (alunos s)) as [a0|]; [|assumption]. simpl.
    revert Hinv. apply forallb_impl. intros atv.
    apply forallb_impl. intros r. apply dict_mem_set_mono.
Qed.

(** X6.  When the calls create students, classes and assignments as the
    routers do (no grades, no members, no submissions), every run of calls
    keeps this of the store: whoever has a submission or a grade in an
    assignment is a registered student. *)
Theorem run_calls_entregas_ok (cs : list call) (w : World) :
  forallb as_routers_build cs = true ->
  entregas_ok (db w) = true ->
  entregas_ok (db (fst (run_calls cs w))) = true.
Proof.
  apply (run_calls_invariant (fun s => entregas_ok s = true) as_routers_build).
  intros c s. apply entregas_ok_step.
Qed.

Lemma ids_ok_step (c : call) (s : DataStore) :
  ids_ok s = true -> guarda c s = true -> ids_ok (efeito c s) = true.
Proof.
  unfold ids_ok. rewrite !andb_true_iff. intros [[Hn Hd] Hinv] G.
  assert (Hset : forall atv_id atv ra0 p,
             Dict.get atv_id (atividades s) = Some atv ->
             forallb
               (fun kv =>
                  (fst kv =? Atividade.id (snd kv)) && (1 <=? fst kv)
                  && (fst kv <? _next_atv_id s))
               (Dict.set atv_id (Atividade.set_entrega ra0 p atv)
                  (atividades s)) = true).
  { intros atv_id atv ra0 p Hget.
    apply forallb_items_set; [|assumption].
    exact (forallb_items_get _ _ _ _ Hinv Hget). }
  destruct c; cbn [efeito guarda] in *; unfold get_turma, get_atividade.
  - simpl. auto.
  - simpl. auto.
  - destruct (Dict.get codigo (turmas s)); simpl; auto.
  - simpl. repeat split.
    + apply Z.leb_le in Hn. apply Z.leb_le. lia.
    + now apply distinct_keys_set.
    + apply forallb_items_set.
      * simpl. apply Z.leb_le in Hn.
        rewrite Z.eqb_refl. simpl. apply andb_true_iff. split.
        -- now apply Z.leb_le.
        -- apply Z.ltb_lt. lia.
      * revert Hinv. apply forallb_impl. intros [k v]. simpl.
        rewrite !andb_true_iff, !Z.ltb_lt. intros [[H1 H2] H3].
        repeat split; auto. lia.
  - destruct (Dict.get atv_id (atividades s)) as [atv|] eqn:Ha; simpl; auto.
    repeat split; auto using distinct_keys_set.
  - destruct (Dict.get atv_id (atividades s)) as [atv|] eqn:Ha; simpl; auto.
    destruct (py_float float_of_str nota); simpl; auto.
    repeat split; auto using distinct_keys_set.
  - destruct (Dict.get ra (alunos s)); simpl; auto.
Qed.


Lemma ids_ok_next_free (s : DataStore) :
  ids_ok s = true -> Dict.mem (_next_atv_id s) (atividades s) = false.
Proof.
  unfold ids_ok. rewrite !andb_true_iff. intros [_ Hinv].
  unfold Dict.mem.
  destruct (Dict.get (_next_atv_id s) (atividades s)) as [atv|] eqn:E;
    [|reflexivity].
  pose proof (forallb_items_get _ _ _ _ Hinv E) as Hp. simpl in Hp.
  rewrite !andb_true_iff, Z.ltb_lt in Hp. lia.
Qed.

Lemma atribui_notas_ok (setter : float -> Aluno.t -> Aluno.t) (v : value)
  (a : Aluno.t) :
  (forall n, passa n = true -> aluno_notas_ok a = true ->
             aluno_notas_ok (setter n a) = true) ->
  aceitab v = true -> aluno_notas_ok a = true ->
  aluno_notas_ok (atribui setter v a) = true.
Proof.
  intros Hs Hv Ha. unfold atribui, aceitab in *.
  destruct v; auto;
    (destruct (py_float float_of_str _); [auto | discriminate]).
Qed.

Lemma payload_nota_ok_set_arquivo (atv : Atividade.t) (ra arquivo : string) :
  forallb payload_nota_ok (Dict.values (Atividade.entregas atv)) = true ->
  payload_nota_ok
    (VDict (Dict.set "arquivo" (VStr arquivo) (payload_of atv ra))) = true.
Proof.
  intros Hinv. unfold payload_nota_ok.
  rewrite dict_get_set_other by discriminate.
  unfold payload_of.
  destruct (Dict.get ra (Atividade.entregas atv)) as [p|] eqn:E;
    [|reflexivity].
  pose proof (forallb_values_get _ _ _ _ Hinv E) as Hp.
  destruct p; try reflexivity. exact Hp.
Qed.

Lemma notas_ok_step (c : call) (s : DataStore) :
  as_routers_build c = true -> notas_ok s = true -> guarda c s = true ->
  notas_ok (efeito c s) = true.
Proof.
  unfold notas_ok. rewrite !andb_true_iff. intros Hq [Ha Hv] G.
  destruct c; cbn [efeito guarda as_routers_build] in *;
    unfold get_turma, get_atividade.
  - simpl. split; [|assumption]. apply forallb_values_set; [|assumption].
    unfold aluno_notas_ok.
    destruct (Aluno.np1 aluno), (Aluno.np2 aluno), (Aluno.pim aluno);
      try discriminate. reflexivity.
  - simpl. auto.
  - destruct (Dict.get codigo (turmas s)); simpl; auto.
  - simpl. split; [assumption|]. apply forallb_values_set; [|assumption].
    simpl. destruct (Atividade.entregas atv); [reflexivity | discriminate].
  - destruct (Dict.get atv_id (atividades s)) as [atv|] eqn:E; simpl; auto.
    split; [assumption|]. apply forallb_values_set; [|assumption]. simpl.
    pose proof (forallb_values_get _ _ _ _ Hv E) as Hatv. cbv beta in Hatv.
    apply forallb_values_set; [|assumption].
    now apply payload_nota_ok_set_arquivo.
  - rewrite !andb_true_iff in G. destruct G as [[[G0 G1] G2] G3].
    destruct (Dict.get atv_id (atividades s)) as [atv|] eqn:E; simpl; auto.
    assert (E2 : aceitab nota
                 = match py_float float_of_str nota with
                   | Py.Ok n => passa n
                   | Py.Raise _ => false
                   end)
      by (destruct nota; try discriminate G0; reflexivity).
    rewrite E2 in G1.
    destruct (py_float float_of_str nota) as [n|e]; simpl; auto.
    split; [assumption|]. apply forallb_values_set; [|assumption]. simpl.
    pose proof (forallb_values_get _ _ _ _ Hv E) as Hatv. cbv beta in Hatv.
    apply forallb_values_set; [|assumption].
    unfold payload_nota_ok. now rewrite dict_get_set_same.
  - rewrite !andb_true_iff in G. destruct G as [[[G0 G1] G2] G3].
    destruct (Dict.get ra (alunos s)) as [a|] eqn:E; simpl; auto.
    split; [|assumption]. apply forallb_values_set; [|assumption].
    pose proof (forallb_values_get _ _ _ _ Ha E) as Hp.
    apply atribui_notas_ok; [| assumption |].
    { intros n Hn. unfold aluno_notas_ok. simpl.
      rewrite !andb_true_iff. intros [[H1 H2] H3]. auto. }
    apply atribui_notas_ok; [| assumption |].
    { intros n Hn. unfold aluno_notas_ok. simpl.
      rewrite !andb_true_iff. intros [[H1 H2] H3]. auto. }
    apply atribui_notas_ok; [| assumption | assumption].
    intros n Hn. unfold aluno_notas_ok. simpl.
    rewrite !andb_true_iff. intros [[H1 H2] H3]. auto.
Qed.

(** X9.  When the calls create students, classes and assignments as the
    routers do (no grades, no members, no submissions), every run of calls
    keeps this of the store: every payload of a submission is a dict, and
    each grade of a student and each grade of a submission is a float that
    went through the test of the range, that is, one that is neither below
    0 nor above 10 (which NaN is not either). *)
Theorem run_calls_notas_ok (cs : list call) (w : World) :
  forallb as_routers_build cs = true ->
  notas_ok (db w) = true ->
  notas_ok (db (fst (run_calls cs w))) = true.
Proof.
  apply (run_calls_invariant (fun s => notas_ok s = true) as_routers_build).
  intros c s. apply notas_ok_step.
Qed.

(** ** Grades of a student *)


(** ** The lists of what is pending *)

Lemma NoDup_map_filter {A B} (key : A -> B) (keep : A -> bool) (xs : list A) :
  NoDup (map key xs) -> NoDup (map key (filter keep xs)).
Proof.
  intros Hn. induction xs as [|x r IH]; simpl; [constructor|].
  simpl in Hn. inversion Hn as [|? ? Hx Hr]; subst.
  destruct (keep x); simpl; [|auto]. constructor; [|auto].
  intros Hin. apply Hx. apply in_map_iff in Hin.
  destruct Hin as [y [Ey Hy]]. apply filter_In in Hy.
  apply in_map_iff. exists y. tauto.
Qed.

Lemma ids_ok_keys (d : Dict.t Z Atividade.t) (n : Z) :
  forallb
    (fun kv => (fst kv =? Atividade.id (snd kv)) && (1 <=? fst kv)
               && (fst kv <? n)) d = true ->
  map Atividade.id (Dict.values d) = Dict.keys d.
Proof.
  induction d as [|[k v] r IH]; simpl; [reflexivity|].
  rewrite !andb_true_iff. intros [[[H1 _] _] Hr].
  apply Z.eqb_eq in H1. rewrite IH by assumption. now rewrite H1.
Qed.

Lemma ids_ok_distinct (s : DataStore) (codigo : string) :
  ids_ok s = true ->
  distinct (map Atividade.id (atividades_da_turma s codigo)) = true.
Proof.
  unfold ids_ok. rewrite !andb_true_iff. intros [[_ Hd] Hinv].
  apply distinct_NoDup. unfold atividades_da_turma.
  apply NoDup_map_filter. rewrite (ids_ok_keys _ _ Hinv).
  now apply distinct_NoDup.
Qed.

(** The entry of [i] in a dict built from a list of keyed items. *)
Lemma get_map_items {V} (f : Atividade.t -> V) (p : Atividade.t -> bool)
  (d : Dict.t Z Atividade.t) (n i : Z) :
  distinct (Dict.keys d) = true ->
  forallb
    (fun kv => (fst kv =? Atividade.id (snd kv)) && (1 <=? fst kv)
               && (fst kv <? n)) d = true ->
  Dict.get i (map (fun a => (Atividade.id a, f a)) (filter p (Dict.values d)))
  = match Dict.get i d with
    | Some a => if p a then Some (f a) else None
    | None => None
    end.
Proof.
  induction d as [|[k v] r IH]; simpl; [reflexivity|].
  rewrite !andb_true_iff. intros [Hk Hd] [[[H1 _] _] Hr].
  apply Z.eqb_eq in H1. specialize (IH Hd Hr).
  destruct (Z.eqb_spec i k) as [->|Hn].
  - destruct (p v); simpl.
    + rewrite <- H1. now rewrite Z.eqb_refl.
    + rewrite IH.
      assert (Hnone : Dict.get k r = None).
      { apply negb_true_iff in Hk.
        assert (Hm : Dict.mem k r = false).
        { apply dict_mem_false_notin. intros Hin.
          assert (Hex : existsb (key_eqb k) (Dict.keys r) = true).
          { apply existsb_exists. exists k. split; [assumption|].
            apply Z.eqb_refl. }
          simpl in Hex, Hk. rewrite Hex in Hk. discriminate. }
        unfold Dict.mem in Hm.
        destruct (Dict.get k r); [discriminate | reflexivity]. }
      now rewrite Hnone.
  - destruct (p v); simpl; [|assumption].
    rewrite <- H1. apply Z.eqb_neq in Hn. now rewrite Hn.
Qed.

Lemma pendencias_entrega_map (s : DataStore) (codigo : string) (t : Turma.t) :
  get_turma s codigo = Some t ->
  ids_ok s = true ->
  pendencias_entrega s codigo
  = Py.Ok (map (fun atv =>
                  (Atividade.id atv,
                   filter (fun ra => negb (Dict.mem ra (Atividade.entregas atv)))
                          (Turma.alunos t)))
             (atividades_da_turma s codigo)).
Proof.
  intros Ht Hok. unfold pendencias_entrega. rewrite Ht. f_equal.
  rewrite (fold_left_set_items Atividade.id
             (fun atv =>
                filter (fun ra => negb (Dict.mem ra (Atividade.entregas atv)))
                       (Turma.alunos t))).
  apply of_items_distinct. rewrite map_map. simpl.
  now apply ids_ok_distinct.
Qed.

Lemma pendencias_entrega_get (s : DataStore) (codigo : string) (t : Turma.t) :
  get_turma s codigo = Some t ->
  ids_ok s = true ->
  exists out,
    pendencias_entrega s codigo = Py.Ok out
    /\ forall i,
        Dict.get i out
        = match get_atividade s i with
          | Some atv =>
              if String.eqb (Atividade.turma_codigo atv) codigo then
                Some (filter
                        (fun ra => negb (Dict.mem ra (Atividade.entregas atv)))
                        (Turma.alunos t))
              else None
          | None => None
          end.
Proof.
  intros Ht Hok. rewrite (pendencias_entrega_map s codigo t Ht Hok).
  eexists. split; [reflexivity|]. intros i.
  unfold atividades_da_turma, get_atividade.
  unfold ids_ok in Hok. rewrite !andb_true_iff in Hok.
  destruct Hok as [[_ Hd] Hinv].
  apply (get_map_items _ _ _ (_next_atv_id s) i Hd Hinv).
Qed.

Lemma pendencias_nota_get (s : DataStore) (codigo : string) (t : Turma.t) :
  get_turma s codigo = Some t ->
  ids_ok s = true ->
  exists out,
    pendencias_nota s codigo = Py.Ok out
    /\ forall i,
        Dict.get i out
        = match get_atividade s i with
          | Some atv =>
              if String.eqb (Atividade.turma_codigo atv) codigo then
                Some (filter (fun ra => is_None (nota_da_entrega atv ra))
                        (Turma.alunos t))
              else None
          | None => None
          end.
Proof.
  intros Ht Hok.
  rewrite (pendencias_nota_por_atividade s codigo t Ht
             (ids_ok_distinct s codigo Hok)).
  eexists. split; [reflexivity|]. intros i.
  unfold atividades_da_turma, get_atividade.
  unfold ids_ok in Hok. rewrite !andb_true_iff in Hok.
  destruct Hok as [[_ Hd] Hinv].
  apply (get_map_items _ _ _ (_next_atv_id s) i Hd Hinv).
Qed.

(** X11.  In a store that holds each assignment under its own id,
    [pendencias_entrega] for a class that the store holds returns a dict
    with one entry for each assignment of that class, in the order of the
    store, and no other; the entry of an assignment lists, in the order of
    the class, the members of the class that are no key of the submissions
    of that assignment.  For a code that the store does not hold it raises
    ValueError. *)
Theorem pendencias_entrega_por_atividade (s : DataStore) (codigo : string) :
  ids_ok s = true ->
  match get_turma s codigo with
  | None =>
      pendencias_entrega s codigo
      = Py.Raise (Py.ValueError "Turma não encontrada.")
  | Some t =>
      exists out,
        pendencias_entrega s codigo = Py.Ok out
        /\ Dict.keys out = map Atividade.id (atividades_da_turma s codigo)
        /\ forall i,
            Dict.get i out
            = match get_atividade s i with
              | Some atv =>
                  if String.eqb (Atividade.turma_codigo atv) codigo then
                    Some (filter
                            (fun ra =>
                               negb (Dict.mem ra (Atividade.entregas atv)))
                            (Turma.alunos t))
                  else None
              | None => None
              end
  end.
Proof.
  intros Hok. destruct (get_turma s codigo) as [t|] eqn:Ht.
  - destruct (pendencias_entrega_get s codigo t Ht Hok) as [out [Ho Hg]].
    exists out. repeat split; [assumption | | assumption].
    rewrite (pendencias_entrega_map s codigo t Ht Hok) in Ho.
    injection Ho as <-. unfold Dict.keys. rewrite map_map. reflexivity.
  - unfold pendencias_entrega. now rewrite Ht.
Qed.

Lemma dict_keys_set_ext {K V1 V2} `{Key K} (k : K) (v1 : V1) (v2 : V2)
  (d1 : Dict.t K V1) (d2 : Dict.t K V2) :
  Dict.keys d1 = Dict.keys d2 ->
  Dict.keys (Dict.set k v1 d1) = Dict.keys (Dict.set k v2 d2).
Proof.
  revert d2. induction d1 as [|[k1 x1] r1 IH]; intros [|[k2 x2] r2]; simpl;
    try discriminate; auto.
  intros E. injection E as -> E.
  destruct (key_eqb k k2); simpl; f_equal; auto.
Qed.

(** Two loops that write under the same keys, one after the other, values
    that are related. *)
Lemma fold_set_rel {A K V1 V2} `{Key K} (R : V1 -> V2 -> Prop) (key : A -> K)
  (f : A -> V1) (g : A -> V2) (l : list A) :
  (forall x, R (f x) (g x)) ->
  forall (acc1 : Dict.t K V1) (acc2 : Dict.t K V2),
    Dict.keys acc1 = Dict.keys acc2 ->
    (forall i v1, Dict.get i acc1 = Some v1 ->
                  exists v2, Dict.get i acc2 = Some v2 /\ R v1 v2) ->
    Dict.keys (fold_left (fun out x => Dict.set (key x) (f x) out) l acc1)
    = Dict.keys (fold_left (fun out x => Dict.set (key x) (g x) out) l acc2)
    /\ (forall i v1,
          Dict.get i (fold_left (fun out x => Dict.set (key x) (f x) out) l acc1)
          = Some v1 ->
          exists v2,
            Dict.get i
              (fold_left (fun out x => Dict.set (key x) (g x) out) l acc2)
            = Some v2 /\ R v1 v2).
Proof.
  intros HR. induction l as [|x r IH]; intros acc1 acc2 Hk Hg; simpl;
    [auto|].
  apply IH.
  - now apply dict_keys_set_ext.
  - intros i v1. destruct (key_eqb_spec i (key x)) as [->|Hn].
    + rewrite !dict_get_set_same. intros E. injection E as <-. eauto.
    + rewrite !dict_get_set_other by assumption. apply Hg.
Qed.

(** X12.  Whenever [pendencias_entrega] returns for a class, so does
    [pendencias_nota], with the same ids in the same order, and under each
    id whoever is listed as not having delivered is listed as not having a
    grade as well. *)
Theorem pendencias_entrega_incl_nota (s : DataStore) (codigo : string)
  (pe : Dict.t Z (list string)) :
  pendencias_entrega s codigo = Py.Ok pe ->
  exists pn,
    pendencias_nota s codigo = Py.Ok pn
    /\ Dict.keys pn = Dict.keys pe
    /\ forall i faltam,
        Dict.get i pe = Some faltam ->
        exists sem_nota, Dict.get i pn = Some sem_nota /\ incl faltam sem_nota.
Proof.
  unfold pendencias_entrega, pendencias_nota.
  destruct (get_turma s codigo) as [t|]; [|discriminate].
  intros E. injection E as <-. eexists. split; [reflexivity|].
  destruct (fold_set_rel (@incl string) Atividade.id
              (fun atv =>
                 filter (fun ra => negb (Dict.mem ra (Atividade.entregas atv)))
                        (Turma.alunos t))
              (fun atv =>
                 filter (fun ra => is_None (nota_da_entrega atv ra))
                        (Turma.alunos t))
              (atividades_da_turma s codigo)) with (acc1 := @nil (Z * list string))
              (acc2 := @nil (Z * list string)) as [Hk Hg].
  - intros atv ra. rewrite !filter_In. intros [Hin Hm]. split; [assumption|].
    unfold nota_da_entrega, Dict.mem in *.
    destruct (Dict.get ra (Atividade.entregas atv)); [discriminate|reflexivity].
  - reflexivity.
  - intros i v1. discriminate.
  - split; [symmetry; exact Hk | exact Hg].
Qed.

Lemma filter_and {A} (p q : A -> bool) (l : list A) :
  filter (fun x => p x && q x) l = filter p (filter q l).
Proof.
  induction l as [|x r IH]; simpl; [reflexivity|].
  destruct (q x); simpl; [|now rewrite andb_false_r].
  rewrite andb_true_r. destruct (p x); now rewrite IH.
Qed.

Lemma filter_ext_all {A} (p q : A -> bool) (l : list A) :
  (forall x, p x = q x) -> filter p l = filter q l.
Proof. intros E. induction l as [|x r IH]; simpl; [reflexivity|]. now rewrite E, IH. Qed.

Lemma not_In_filter_neq (ra : string) (l : list string) :
  ~ In ra (filter (fun r => negb (String.eqb r ra)) l).
Proof.
  rewrite filter_In. intros [_ E]. now rewrite String.eqb_refl in E.
Qed.

(** The entries of a list of what is pending, before and after the
    submission of [ra] in assignment [atv_id] was written. *)
Lemma pendencia_after_update (f : Atividade.t -> string -> bool)
  (s s' : DataStore) (codigo : string) (t : Turma.t) (atv_id : Z)
  (atv atv' : Atividade.t) (ra : string) (out out' : Dict.t Z (list string)) :
  (forall i,
      Dict.get i out
      = match get_atividade s i with
        | Some a =>
            if String.eqb (Atividade.turma_codigo a) codigo
            then Some (filter (f a) (Turma.alunos t)) else None
        | None => None
        end) ->
  (forall i,
      Dict.get i out'
      = match get_atividade s' i with
        | Some a =>
            if String.eqb (Atividade.turma_codigo a) codigo
            then Some (filter (f a) (Turma.alunos t)) else None
        | None => None
        end) ->
  get_atividade s atv_id = Some atv ->
  Atividade.turma_codigo atv = codigo ->
  get_atividade s' atv_id = Some atv' ->
  Atividade.turma_codigo atv' = codigo ->
  (forall i, i <> atv_id -> get_atividade s' i = get_atividade s i) ->
  (forall r, f atv' r = negb (String.eqb r ra) && f atv r) ->
  exists l0,
    Dict.get atv_id out = Some l0
    /\ Dict.get atv_id out'
       = Some (filter (fun r => negb (String.eqb r ra)) l0)
    /\ forall i, i <> atv_id -> Dict.get i out' = Dict.get i out.
Proof.
  intros Ho Ho' Ha Hc Ha' Hc' Hoth Hf.
  exists (filter (f atv) (Turma.alunos t)). repeat split.
  - rewrite Ho, Ha, Hc, String.eqb_refl. reflexivity.
  - rewrite Ho', Ha', Hc', String.eqb_refl. f_equal.
    rewrite <- filter_and. now apply filter_ext_all.
  - intros i Hi. rewrite Ho, Ho', (Hoth i Hi). reflexivity.
Qed.

Lemma add_entrega_efeito (atv_id : Z) (ra arquivo : string) (w w' : World)
  (r : Atividade.t) :
  add_entrega atv_id ra arquivo w = (w', Py.Ok r) ->
  guarda (Call_add_entrega atv_id ra arquivo) (db w) = true
  /\ db w' = efeito (Call_add_entrega atv_id ra arquivo) (db w).
Proof.
  intros E.
  assert (Ex : exec (Call_add_entrega atv_id ra arquivo) w = (w', Py.Ok None))
    by (cbn [exec]; unfold bind; rewrite E; reflexivity).
  apply exec_returned in Ex. destruct Ex as [G ->]. auto.
Qed.

Lemma set_nota_entrega_efeito (atv_id : Z) (ra : string) (nota : value)
  (w w' : World) (r : Atividade.t) :
  set_nota_entrega atv_id ra nota w = (w', Py.Ok r) ->
  guarda (Call_set_nota_entrega atv_id ra nota) (db w) = true
  /\ db w' = efeito (Call_set_nota_entrega atv_id ra nota) (db w).
Proof.
  intros E.
  assert (Ex : exec (Call_set_nota_entrega atv_id ra nota) w = (w', Py.Ok None))
    by (cbn [exec]; unfold bind; rewrite E; reflexivity).
  apply exec_returned in Ex. destruct Ex as [G ->]. auto.
Qed.

(** X13.  In a store that holds each assignment under its own id, once
    [add_entrega] has returned for a student and an assignment,
    [pendencias_entrega] for the class of that assignment lists under that
    assignment whom it listed before, but for that student, and under the
    other assignments whom it listed before. *)
Theorem add_entrega_sai_da_pendencia (w w' : World) (atv_id : Z)
  (ra arquivo : string) (atv atv' : Atividade.t) (t : Turma.t) :
  ids_ok (db w) = true ->
  get_atividade (db w) atv_id = Some atv ->
  get_turma (db w) (Atividade.turma_codigo atv) = Some t ->
  add_entrega atv_id ra arquivo w = (w', Py.Ok atv') ->
  exists antes depois faltavam,
    pendencias_entrega (db w) (Atividade.turma_codigo atv) = Py.Ok antes
    /\ pendencias_entrega (db w') (Atividade.turma_codigo atv) = Py.Ok depois
    /\ Dict.get atv_id antes = Some faltavam
    /\ Dict.get atv_id depois
       = Some (filter (fun r => negb (String.eqb r ra)) faltavam)
    /\ (forall i, i <> atv_id -> Dict.get i depois = Dict.get i antes).
Proof.
  intros Hok Ha Ht E.
  apply add_entrega_efeito in E. destruct E as [G Edb].
  pose proof (ids_ok_step _ _ Hok G) as Hok'. rewrite <- Edb in Hok'.
  assert (Ht' : get_turma (db w') (Atividade.turma_codigo atv) = Some t).
  { rewrite Edb. cbn [efeito]. rewrite Ha. exact Ht. }
  destruct (pendencias_entrega_get _ _ _ Ht Hok) as [antes [Ho Hg]].
  destruct (pendencias_entrega_get _ _ _ Ht' Hok') as [depois [Ho' Hg']].
  destruct (pendencia_after_update
              (fun a r => negb (Dict.mem r (Atividade.entregas a)))
              (db w) (db w') (Atividade.turma_codigo atv) t atv_id atv
              (Atividade.set_entrega ra
                 (VDict (Dict.set "arquivo" (VStr arquivo) (payload_of atv ra)))
                 atv)
              ra antes depois Hg Hg' Ha eq_refl) as [l0 [H1 [H2 H3]]].
  - rewrite Edb. cbn [efeito]. rewrite Ha. unfold get_atividade. simpl.
    apply dict_get_set_same.
  - reflexivity.
  - intros i Hi. rewrite Edb. cbn [efeito]. rewrite Ha.
    unfold get_atividade. simpl. now apply dict_get_set_other.
  - intros r. simpl. rewrite dict_mem_set. simpl. now rewrite negb_orb.
  - exists antes, depois, l0. auto.
Qed.

(** X14.  In a store that holds each assignment under its own id, once
    [set_nota_entrega] has returned for a student and an assignment, the
    student is pending in neither list for that assignment, whether a file
    was ever delivered or not: [pendencias_nota] and [pendencias_entrega]
    for the class of the assignment list under it whom they listed before,
    but for that student, and under the other assignments whom they listed
    before. *)
Theorem set_nota_entrega_sai_das_pendencias (w w' : World) (atv_id : Z)
  (ra : string) (nota : value) (atv atv' : Atividade.t) (t : Turma.t) :
  ids_ok (db w) = true ->
  get_atividade (db w) atv_id = Some atv ->
  get_turma (db w) (Atividade.turma_codigo atv) = Some t ->
  set_nota_entrega atv_id ra nota w = (w', Py.Ok atv') ->
  (exists antes depois sem_nota,
      pendencias_nota (db w) (Atividade.turma_codigo atv) = Py.Ok antes
      /\ pendencias_nota (db w') (Atividade.turma_codigo atv) = Py.Ok depois
      /\ Dict.get atv_id antes = Some sem_nota
      /\ Dict.get atv_id depois
         = Some (filter (fun r => negb (String.eqb r ra)) sem_nota)
      /\ (forall i, i <> atv_id -> Dict.get i depois = Dict.get i antes))
  /\ (exists antes depois faltavam,
        pendencias_entrega (db w) (Atividade.turma_codigo atv) = Py.Ok antes
        /\ pendencias_entrega (db w') (Atividade.turma_codigo atv) = Py.Ok depois
        /\ Dict.get atv_id antes = Some faltavam
        /\ Dict.get atv_id depois
           = Some (filter (fun r => negb (String.eqb r ra)) faltavam)
        /\ (forall i, i <> atv_id -> Dict.get i depois = Dict.get i antes)).
Proof.
  intros Hok Ha Ht E.
  apply set_nota_entrega_efeito in E. destruct E as [G Edb].
  pose proof (ids_ok_step _ _ Hok G) as Hok'. rewrite <- Edb in Hok'.
  cbn [guarda] in G. rewrite !andb_true_iff in G.
  destruct G as [[[G0 G1] G2] G3].
  assert (E2 : aceitab nota
               = match py_float float_of_str nota with
                 | Py.Ok n => passa n
                 | Py.Raise _ => false
                 end)
    by (destruct nota; try discriminate G0; reflexivity).
  rewrite E2 in G1.
  destruct (py_float float_of_str nota) as [n|e] eqn:En; [|discriminate].
  assert (Edb' : db w'
                 = set_atividades
                     (Dict.set atv_id
                        (Atividade.set_entrega ra
                           (VDict (Dict.set "nota" (VFloat n) (payload_of atv ra)))
                           atv)
                        (atividades (db w))) (db w)).
  { rewrite Edb. cbn [efeito]. rewrite Ha, En. reflexivity. }
  clear Edb.
  assert (Ht' : get_turma (db w') (Atividade.turma_codigo atv) = Some t)
    by (rewrite Edb'; exact Ht).
  assert (Hget : get_atividade (db w') atv_id
                 = Some (Atividade.set_entrega ra
                           (VDict (Dict.set "nota" (VFloat n) (payload_of atv ra)))
                           atv)).
  { rewrite Edb'. unfold get_atividade. simpl. apply dict_get_set_same. }
  assert (Hoth : forall i, i <> atv_id ->
                           get_atividade (db w') i = get_atividade (db w) i).
  { intros i Hi. rewrite Edb'. unfold get_atividade. simpl.
    now apply dict_get_set_other. }
  split.
  - destruct (pendencias_nota_get _ _ _ Ht Hok) as [antes [Ho Hg]].
    destruct (pendencias_nota_get _ _ _ Ht' Hok') as [depois [Ho' Hg']].
    destruct (pendencia_after_update
                (fun a r => is_None (nota_da_entrega a r))
                (db w) (db w') (Atividade.turma_codigo atv) t atv_id atv _
                ra antes depois Hg Hg' Ha eq_refl Hget eq_refl Hoth)
      as [l0 [H1 [H2 H3]]].
    + intros r. unfold nota_da_entrega. simpl.
      destruct (String.eqb_spec r ra) as [->|Hn].
      * rewrite dict_get_set_same, dict_get_set_same. reflexivity.
      * rewrite dict_get_set_other by assumption. reflexivity.
    + exists antes, depois, l0. auto.
  - destruct (pendencias_entrega_get _ _ _ Ht Hok) as [antes [Ho Hg]].
    destruct (pendencias_entrega_get _ _ _ Ht' Hok') as [depois [Ho' Hg']].
    destruct (pendencia_after_update
                (fun a r => negb (Dict.mem r (Atividade.entregas a)))
                (db w) (db w') (Atividade.turma_codigo atv) t atv_id atv _
                ra antes depois Hg Hg' Ha eq_refl Hget eq_refl Hoth)
      as [l0 [H1 [H2 H3]]].
    + intros r. simpl. rewrite dict_mem_set. simpl. now rewrite negb_orb.
    + exists antes, depois, l0. auto.
Qed.

(** ** The two reports on the grades of an assignment *)

Lemma fold_add_acc (l : list Z) (a : Z) :
  fold_left Z.add l a = a + fold_left Z.add l 0.
Proof.
  revert a. induction l as [|x r IH]; intros a; simpl; [lia|].
  rewrite (IH (a + x)), (IH x). lia.
Qed.

Lemma soma_contagens_set (k c : Z) (d : Dict.t Z Z) :
  Dict.get k d = Some c ->
  soma_contagens (Dict.set k (c + 1) d) = soma_contagens d + 1.
Proof.
  unfold soma_contagens. induction d as [|[k' v'] r IH]; simpl;
    [discriminate|].
  destruct (k =? k'); simpl.
  - intros E. injection E as ->.
    rewrite (fold_add_acc _ (c + 1)), (fold_add_acc _ c). lia.
  - intros E. rewrite (fold_add_acc _ v'), (fold_add_acc (Dict.values r) v').
    rewrite (IH E). lia.
Qed.

Lemma tally_soma (notas : list float) (b b' : Dict.t Z Z) :
  tally notas b = Py.Ok b' ->
  soma_contagens b' = soma_contagens b + len notas.
Proof.
  revert b. induction notas as [|n r IH]; intros b; simpl.
  - intros E. injection E as <-. unfold len. simpl. lia.
  - destruct (Py.round_int n) as [i|e]; [|discriminate].
    destruct (Dict.get (Z.min (Z.max i 0) 10) b) as [c|] eqn:Hc;
      [|discriminate].
    intros E. rewrite (IH _ E), (soma_contagens_set _ _ _ Hc).
    unfold len. simpl List.length. lia.
Qed.

(** X15.  The two reports on the grades of an assignment go together: both
    answer 404 when the store has no such assignment; either says that
    there are no grades exactly when the other says so; and when
    [distribuicao_notas] gives a histogram, its counts add up to the number
    of the grades collected, which is more than none and is the
    [total_notas] of [media_notas] whenever that one gives a mean. *)
Theorem media_e_distribuicao_concordam (s : DataStore) (atividade_id : Z) :
  (get_atividade s atividade_id = None ->
   media_notas s atividade_id
   = Py.Raise (Py.HTTPException 404 "Atividade não encontrada.")
   /\ distribuicao_notas s atividade_id
      = Py.Raise (Py.HTTPException 404 "Atividade não encontrada."))
  /\ (forall j msg,
        media_notas s atividade_id = Py.Ok (MediaSemNotas j msg)
        <-> distribuicao_notas s atividade_id = Py.Ok (SemNotas j msg))
  /\ (forall j b,
        distribuicao_notas s atividade_id = Py.Ok (Distribuicao j b) ->
        exists atv notas,
          get_atividade s atividade_id = Some atv
          /\ _coletar_notas_da_atividade atv = Py.Ok notas
          /\ soma_contagens b = len notas
          /\ 0 < soma_contagens b
          /\ forall j' m n,
              media_notas s atividade_id = Py.Ok (Media j' m n) ->
              n = soma_contagens b).
Proof.
  unfold media_notas, distribuicao_notas.
  destruct (get_atividade s atividade_id) as [atv|].
  - split; [discriminate|].
    destruct (_coletar_notas_da_atividade atv) as [[|n r]|e] eqn:Hc.
    + split.
      * intros j msg. split; intros E; injection E as <- <-; reflexivity.
      * intros j b. discriminate.
    + split.
      * intros j msg.
        destruct (float_truediv_int (sum_floats (n :: r)) (len (n :: r)));
          destruct (tally (n :: r) buckets0); split; discriminate.
      * intros j b.
        destruct (tally (n :: r) buckets0) as [b'|e] eqn:T; [|discriminate].
        intros E. injection E as <- <-.
        pose proof (tally_soma _ _ _ T) as Hs.
        assert (H0 : soma_contagens buckets0 = 0) by reflexivity.
        assert (Hl : 0 < len (n :: r)) by (unfold len; simpl; lia).
        exists atv, (n :: r).
        split; [reflexivity|]. split; [exact Hc|].
        split; [lia|]. split; [lia|].
        intros j' m k.
        destruct (float_truediv_int (sum_floats (n :: r)) (len (n :: r)));
          [|discriminate].
        intros E. injection E as _ _ <-. lia.
    + split.
      * intros j msg. split; discriminate.
      * intros j b. discriminate.
  - split; [auto|]. split.
    + intros j msg. split; discriminate.
    + intros j b. discriminate.
Qed.

(** ** The routes that change the store *)

Lemma bind_ret_returned {A B} (m : M A) (f : A -> B) (w W : World) (o : B) :
  bind m (fun a => ret (f a)) w = (W, Py.Ok o) ->
  exists a, m w = (W, Py.Ok a) /\ o = f a.
Proof.
  unfold bind, ret. destruct (m w) as [w1 [a|e]]; [|discriminate].
  intros E. injection E as -> <-. eauto.
Qed.

Lemma bind_ret_raised {A B} (m : M A) (f : A -> B) (w W : World) (e : Py.exn) :
  bind m (fun a => ret (f a)) w = (W, Py.Raise e) -> m w = (W, Py.Raise e).
Proof.
  unfold bind, ret. destruct (m w) as [w1 [a|e']]; [discriminate|].
  intros E. now injection E as -> ->.
Qed.

Lemma get_notas_some (s : DataStore) (ra : string) :
  Dict.get ra (alunos s) <> None -> exists n, get_notas s ra = Some n.
Proof.
  unfold get_notas. destruct (Dict.get ra (alunos s)) as [a|]; [|congruence].
  intros _. cbv zeta.
  destruct (Aluno.np1 a), (Aluno.np2 a), (Aluno.pim a); eauto.
Qed.

(** Every request is a refusal of its route or one call of the store. *)
Lemma handle_spec (r : request) (w : World) :
  match call_of r (db w) with
  | Some c =>
      if guarda c (db w) then
        handle r w
        = (mkWorld (efeito c (db w)) (Some (dump (efeito c (db w))))
             (S (writes w)), Py.Ok tt)
      else exists msg, handle r w = (w, Py.Raise (Py.HTTPException 400 msg))
  | None =>
      match r with
      | Req_registrar_nota _ _ => handle r w = (w, Py.Raise Py.AttributeError)
      | _ => exists msg, handle r w = (w, Py.Raise (Py.HTTPException 404 msg))
      end
  end.
Proof.
  destruct r; cbn [call_of handle].
  - pose proof (exec_spec
                  (Call_add_turma
                     (Turma.make (tc_codigo payload) (tc_nome payload) [])) w)
      as Hs.
    destruct (guarda _ (db w)).
    + destruct Hs as [o Hs]. apply bind_ret_returned in Hs.
      destruct Hs as [a [Hs _]].
      unfold turmas_criar_turma, except_ValueError, bind, ret.
      rewrite Hs. reflexivity.
    + destruct Hs as [msg Hs]. apply bind_ret_raised in Hs. exists msg.
      unfold turmas_criar_turma, except_ValueError, bind, ret.
      rewrite Hs. reflexivity.
  - pose proof (exec_spec (Call_add_aluno_to_turma codigo ra) w) as Hs.
    destruct (guarda _ (db w)).
    + destruct Hs as [o Hs]. apply bind_ret_returned in Hs.
      destruct Hs as [a [Hs _]].
      unfold turmas_adicionar_aluno_na_turma, except_ValueError, bind, ret.
      rewrite Hs. reflexivity.
    + destruct Hs as [msg Hs]. apply bind_ret_raised in Hs. exists msg.
      unfold turmas_adicionar_aluno_na_turma, except_ValueError, bind, ret.
      rewrite Hs. reflexivity.
  - unfold atividades_criar_atividade, bind, get_db. cbv beta iota.
    destruct (get_turma (db w) (ac_turma_codigo payload)).
    + pose proof (exec_spec
                    (Call_add_atividade
                       (Atividade.make 0 (ac_turma_codigo payload)
                          (ac_titulo payload) (ac_data_entrega payload) [])) w)
        as Hs.
      cbn [guarda] in *. destruct Hs as [o Hs].
      apply bind_ret_returned in Hs. destruct Hs as [a [Hs _]].
      rewrite Hs. reflexivity.
    + unfold raise. eauto.
  - pose proof (exec_spec
                  (Call_add_entrega atividade_id (ec_ra entrega)
                     (ec_arquivo entrega)) w) as Hs.
    destruct (guarda _ (db w)).
    + destruct Hs as [o Hs]. apply bind_ret_returned in Hs.
      destruct Hs as [a [Hs _]].
      unfold atividades_entregar_atividade, except_ValueError, bind, ret.
      rewrite Hs. reflexivity.
    + destruct Hs as [msg Hs]. apply bind_ret_raised in Hs. exists msg.
      unfold atividades_entregar_atividade, except_ValueError, bind, ret.
      rewrite Hs. reflexivity.
  - reflexivity.
  - unfold consulta_rapida_lancar_notas, bind, get_db, except_ValueError.
    cbv beta iota zeta.
    destruct (get_aluno (db w) ra) as [a0|] eqn:Ha; [|unfold raise; eauto].
    destruct (guarda (Call_set_notas ra (body_get "np1" payload)
                        (body_get "np2" payload) (body_get "pim" payload))
                (db w)) eqn:G.
    + pose proof (set_notas_efeito _ _ _ _ w G) as Hs. cbv zeta in Hs.
      rewrite Hs.
      destruct (get_notas_some
                  (efeito (Call_set_notas ra (body_get "np1" payload)
                             (body_get "np2" payload) (body_get "pim" payload))
                     (db w)) ra) as [n Hn].
      { cbn [efeito]. unfold get_aluno in Ha. rewrite Ha. simpl.
        rewrite dict_get_set_same. discriminate. }
      rewrite Hn. reflexivity.
    + pose proof (exec_spec
                    (Call_set_notas ra (body_get "np1" payload)
                       (body_get "np2" payload) (body_get "pim" payload)) w)
        as Hs.
      rewrite G in Hs. destruct Hs as [msg Hs]. apply bind_ret_raised in Hs.
      exists msg. rewrite Hs. reflexivity.
Qed.

Lemma turmas_ok_step (c : call) (s : DataStore) :
  match c with
  | Call_add_atividade atv => Dict.mem (Atividade.turma_codigo atv) (turmas s)
  | _ => true
  end = true ->
  turmas_ok s = true -> guarda c s = true -> turmas_ok (efeito c s) = true.
Proof.
  unfold turmas_ok. intros Hq Hinv G.
  destruct c; cbn [efeito guarda] in *; unfold get_turma, get_atividade.
  - exact Hinv.
  - simpl. revert Hinv. apply forallb_impl. intros a.
    apply dict_mem_set_mono.
  - destruct (Dict.get codigo (turmas s)); [|assumption]. simpl.
    revert Hinv. apply forallb_impl. intros a. apply dict_mem_set_mono.
  - simpl. apply forallb_values_set; assumption.
  - destruct (Dict.get atv_id (atividades s)) as [atv|] eqn:E; [|assumption].
    simpl. apply forallb_values_set; [|assumption]. simpl.
    exact (forallb_values_get _ _ _ _ Hinv E).
  - destruct (Dict.get atv_id (atividades s)) as [atv|] eqn:E; [|assumption].
    destruct (py_float float_of_str nota); [|assumption].
    simpl. apply forallb_values_set; [|assumption]. simpl.
    exact (forallb_values_get _ _ _ _ Hinv E).
  - destruct (Dict.get ra (alunos s)); exact Hinv.
Qed.

Lemma handle_consistente (r : request) (w : World) :
  consistente (db w) = true -> consistente (db (fst (handle r w))) = true.
Proof.
  intros Hinv. pose proof (handle_spec r w) as Hs.
  destruct (call_of r (db w)) as [c|] eqn:Ec.
  - destruct (guarda c (db w)) eqn:G.
    + rewrite Hs. cbn [fst db].
      assert (Hq : as_routers_build c = true).
      { destruct r; simpl in Ec.
        - now injection Ec as <-.
        - now injection Ec as <-.
        - destruct (get_turma (db w) (ac_turma_codigo payload));
            [|discriminate]. now injection Ec as <-.
        - now injection Ec as <-.
        - discriminate.
        - destruct (get_aluno (db w) ra); [|discriminate].
          now injection Ec as <-. }
      assert (Hq' : match c with
                    | Call_add_atividade atv =>
                        Dict.mem (Atividade.turma_codigo atv) (turmas (db w))
                    | _ => true
                    end = true).
      { destruct r; simpl in Ec.
        - now injection Ec as <-.
        - now injection Ec as <-.
        - unfold get_turma in Ec. unfold Dict.mem.
          destruct (Dict.get (ac_turma_codigo payload) (turmas (db w))) eqn:E;
            [|discriminate]. injection Ec as <-. simpl. now rewrite E.
        - now injection Ec as <-.
        - discriminate.
        - destruct (get_aluno (db w) ra); [|discriminate].
          now injection Ec as <-. }
      unfold consistente in *. rewrite !andb_true_iff in *.
      destruct Hinv as [[[[H1 H2] H3] H4] H5].
      repeat split.
      * now apply membros_ok_step.
      * now apply entregas_ok_step.
      * now apply ids_ok_step.
      * now apply notas_ok_step.
      * now apply turmas_ok_step.
    + destruct Hs as [msg ->]. exact Hinv.
  - destruct r;
      first [ rewrite Hs; exact Hinv
            | destruct Hs as [msg Hs]; rewrite Hs; exact Hinv ].
Qed.

(** X16.  The routes that change the store keep it consistent, whatever the
    requests and whatever their answers: members of classes are registered
    students listed once, submissions belong to registered students,
    assignments are held once under their own ids below the counter, the
    grades held went through the test of the range, and every assignment
    belongs to a class that the store holds. *)
Theorem serve_consistente (rs : list request) (w : World) :
  consistente (db w) = true -> consistente (db (serve rs w)) = true.
Proof.
  unfold serve. revert w. induction rs as [|r rs IH]; intros w Hinv;
    [exact Hinv|].
  simpl. apply IH. now apply handle_consistente.
Qed.


(** X18.  What the professor's route writes is what the student's route
    shows: when [lancar_notas] returns for an RA, [status_aluno] on the
    store that it leaves returns for that RA, with the three grades, the
    mean and the situation that [lancar_notas] answered. *)
Theorem lancar_notas_entao_status (ra : string) (payload : Dict.t string value)
  (w w' : World) (r : NotasLancadas) :
  consulta_rapida_lancar_notas ra payload w = (w', Py.Ok r) ->
  nl_ra r = ra
  /\ get_notas (db w') ra = Some (nl_notas r)
  /\ consulta_rapida_status_atualizado (db w') ra = Py.Ok (ra, Some (nl_notas r))
  /\ exists st,
      aluno_portal_status_aluno (db w') ra = Py.Ok st
      /\ st_ra st = ra
      /\ st_np1 st = notas_np1 (nl_notas r)
      /\ st_np2 st = notas_np2 (nl_notas r)
      /\ st_pim st = notas_pim (nl_notas r)
      /\ st_media st = media (nl_notas r)
      /\ st_situacao st = situacao (nl_notas r).
Proof.
  unfold consulta_rapida_lancar_notas, bind, get_db, except_ValueError.
  cbv beta iota zeta.
  destruct (get_aluno (db w) ra) as [a0|] eqn:Ha; [|discriminate].
  destruct (guarda (Call_set_notas ra (body_get "np1" payload)
                      (body_get "np2" payload) (body_get "pim" payload))
              (db w)) eqn:G.
  - pose proof (set_notas_efeito _ _ _ _ w G) as Hs. cbv zeta in Hs.
    rewrite Hs. clear Hs.
    set (s' := efeito (Call_set_notas ra (body_get "np1" payload)
                         (body_get "np2" payload) (body_get "pim" payload))
                 (db w)).
    assert (Hget : exists a', get_aluno s' ra = Some a').
    { unfold s', get_aluno. cbn [efeito]. unfold get_aluno in Ha.
      rewrite Ha. simpl. rewrite dict_get_set_same. eauto. }
    destruct Hget as [a' Ha'].
    destruct (get_notas_some s' ra) as [n Hn].
    { unfold get_aluno in Ha'. rewrite Ha'. discriminate. }
    rewrite Hn. unfold ret. intros E. injection E as <- <-.
    cbn [db nl_ra nl_notas].
    split; [reflexivity|]. split; [assumption|]. split.
    + unfold consulta_rapida_status_atualizado. now rewrite Ha', Hn.
    + unfold aluno_portal_status_aluno. rewrite Ha', Hn.
      eexists. split; [reflexivity|]. simpl. repeat split.
  - pose proof (exec_spec
                  (Call_set_notas ra (body_get "np1" payload)
                     (body_get "np2" payload) (body_get "pim" payload)) w)
      as Hs.
    rewrite G in Hs. destruct Hs as [msg Hs]. apply bind_ret_raised in Hs.
    rewrite Hs. discriminate.
Qed.

(** ** The portal of the student *)

Lemma filter_first {A} (p : A -> bool) (l : list A) :
  match filter p l with
  | [] => forall x, In x l -> p x = false
  | y :: _ =>
      exists l1 l2,
        l = (l1 ++ y :: l2)%list /\ p y = true
        /\ forall x, In x l1 -> p x = false
  end.
Proof.
  induction l as [|a r IH]; simpl; [intros x []|].
  destruct (p a) eqn:Ea.
  - exists [], r. repeat split; [assumption | intros x []].
  - destruct (filter p r) as [|y f].
    + intros x [<-|Hx]; auto.
    + destruct IH as [l1 [l2 [-> [Hy Hl]]]].
      exists (a :: l1), l2. repeat split; [assumption|].
      intros x [<-|Hx]; auto.
Qed.

(** X19.  [status_aluno] answers 404 for an RA that the store does not hold;
    for a student of the store it answers the name, the course and the
    view of [get_notas], and as class the code of the first class, in the
    order of the store, whose list has the RA, whatever other classes list
    it too, and no class when none lists it. *)
Theorem status_aluno_turma (s : DataStore) (ra : string) :
  match get_aluno s ra with
  | None =>
      aluno_portal_status_aluno s ra
      = Py.Raise (Py.HTTPException 404 "Aluno não encontrado.")
  | Some aluno =>
      exists st n,
        aluno_portal_status_aluno s ra = Py.Ok st
        /\ get_notas s ra = Some n
        /\ st_ra st = ra
        /\ st_nome st = Aluno.nome aluno /\ st_curso st = Aluno.curso aluno
        /\ st_np1 st = notas_np1 n /\ st_np2 st = notas_np2 n
        /\ st_pim st = notas_pim n
        /\ st_media st = media n /\ st_situacao st = situacao n
        /\ match st_turma st with
           | None =>
               forall t, In t (Dict.values (turmas s)) ->
                         list_mem ra (Turma.alunos t) = false
           | Some c =>
               exists l1 t l2,
                 Dict.values (turmas s) = (l1 ++ t :: l2)%list
                 /\ Turma.codigo t = c
                 /\ list_mem ra (Turma.alunos t) = true
                 /\ forall t', In t' l1 -> list_mem ra (Turma.alunos t') = false
           end
  end.
Proof.
  unfold aluno_portal_status_aluno.
  destruct (get_aluno s ra) as [aluno|] eqn:Ha; [|reflexivity].
  destruct (get_notas_some s ra) as [n Hn].
  { unfold get_aluno in Ha. rewrite Ha. discriminate. }
  rewrite Hn. eexists. exists n. split; [reflexivity|]. simpl.
  repeat (split; [reflexivity|]).
  unfold turmas_do_aluno.
  pose proof (filter_first (fun t => list_mem ra (Turma.alunos t))
                (Dict.values (turmas s))) as Hf.
  destruct (filter (fun t => list_mem ra (Turma.alunos t))
              (Dict.values (turmas s))) as [|t f]; simpl.
  - exact Hf.
  - destruct Hf as [l1 [l2 [E [Hp Hl]]]]. exists l1, t, l2. auto.
Qed.

(** ** Submitting again *)



(** ** Starting on a file *)

Lemma reads_only_bind {A B} (m : M A) (k : A -> M B) :
  reads_only m -> (forall a, reads_only (k a)) -> reads_only (bind m k).
Proof.
  intros Hm Hk w. unfold bind. specialize (Hm w).
  destruct (m w) as [w1 [a|e]]; simpl in *; [|assumption].
  destruct (Hk a w1) as [H1 H2]. destruct Hm as [H3 H4]. split; congruence.
Qed.

Lemma reads_only_lift {A} (r : Py.result A) : reads_only (lift r).
Proof. intros w. unfold lift. destruct r; auto. Qed.

Lemma reads_only_modify (f : DataStore -> DataStore) : reads_only (modify_db f).
Proof. intros w. split; reflexivity. Qed.

Lemma reads_only_load : reads_only _load.
Proof.
  intros w. unfold _load. destruct (data_file w) as [raw|] eqn:Hf; [|auto].
  rewrite <- Hf.
  apply (reads_only_bind
           (lift (load_table "alunos" (@Py.Ok string) new_Aluno raw))).
  { apply reads_only_lift. }
  intros a. apply reads_only_bind; [apply reads_only_modify|]. intros _.
  apply reads_only_bind; [apply reads_only_lift|]. intros t.
  apply reads_only_bind; [apply reads_only_modify|]. intros _.
  apply reads_only_bind; [apply reads_only_lift|]. intros v.
  apply reads_only_bind; [apply reads_only_modify|]. intros _.
  apply reads_only_bind; [apply reads_only_lift|]. intros n.
  apply reads_only_modify.
Qed.

(** X21.  Creating the store only reads: whether [_load] returns or raises
    on what the file holds, the file holds afterwards what it held and
    nothing was written; and without a file the store starts empty, with 1
    as the next id. *)
Theorem init_reads_only (w : World) :
  data_file (fst (__init__ w)) = data_file w
  /\ writes (fst (__init__ w)) = writes w
  /\ (data_file w = None ->
      __init__ w = (mkWorld empty_store None (writes w), Py.Ok tt)).
Proof.
  assert (H : reads_only __init__).
  { unfold __init__. apply reads_only_bind; [apply reads_only_modify|].
    intros _. apply reads_only_load. }
  destruct (H w) as [H1 H2]. split; [exact H1|]. split; [exact H2|].
  intros Hn. unfold __init__, bind, modify_db, _load. simpl.
  rewrite Hn. reflexivity.
Qed.

(** X22.  When the counter of ids points at an id that is in use, as a file
    may have it, [add_atividade] puts the new assignment in the place of
    the one that was there: the id is given again, the assignment found
    under it afterwards is the new one with its own submissions, and the
    store holds as many assignments as before, under the same ids. *)
Theorem add_atividade_overwrites (atv old : Atividade.t) (w : World) :
  get_atividade (db w) (_next_atv_id (db w)) = Some old ->
  exists w' atv',
    add_atividade atv w = (w', Py.Ok atv')
    /\ Atividade.id atv' = _next_atv_id (db w)
    /\ get_atividade (db w') (Atividade.id atv') = Some atv'
    /\ Atividade.entregas atv' = Atividade.entregas atv
    /\ Dict.keys (atividades (db w')) = Dict.keys (atividades (db w))
    /\ len (atividades (db w')) = len (atividades (db w)).
Proof.
  intros Hold.
  set (atv' := Atividade.set_id (_next_atv_id (db w)) atv).
  set (s' := mkDataStore (alunos (db w)) (turmas (db w))
               (Dict.set (_next_atv_id (db w)) atv' (atividades (db w)))
               (_next_atv_id (db w) + 1)).
  exists (mkWorld s' (Some (dump s')) (S (writes w))), atv'.
  split; [reflexivity|]. split; [reflexivity|]. subst s'. cbn [db atividades].
  assert (Hm : Dict.mem (_next_atv_id (db w)) (atividades (db w)) = true).
  { unfold Dict.mem. unfold get_atividade in Hold. now rewrite Hold. }
  pose proof (dict_keys_set_mem (_next_atv_id (db w)) atv' _ Hm) as Hk.
  split; [|split; [reflexivity|split; [exact Hk|]]].
  - unfold get_atividade. cbn [atividades]. apply dict_get_set_same.
  - unfold len. f_equal.
    rewrite <- (length_map fst (Dict.set _ _ _)), <- (length_map fst (atividades (db w))).
    unfold Dict.keys in Hk. now rewrite Hk.
Qed.

(** ** Assignments as objects *)

Lemma length_escreve (o : nat) (a : Atividade.t) (m : list Atividade.t) :
  List.length (escreve o a m) = List.length m.
Proof.
  revert o. induction m as [|x r IH]; intros [|o]; simpl; auto.
Qed.

Lemma objeto_escreve_same (o : nat) (a : Atividade.t) (m : list Atividade.t) :
  (o < List.length m)%nat -> objeto (escreve o a m) o = a.
Proof.
  revert o. induction m as [|x r IH]; intros [|o] Hl; simpl in *;
    try lia; auto.
  unfold objeto in *. simpl. apply IH. lia.
Qed.

Lemma objeto_escreve_other (o o' : nat) (a : Atividade.t)
  (m : list Atividade.t) :
  o' <> o -> objeto (escreve o a m) o' = objeto m o'.
Proof.
  revert o o'. induction m as [|x r IH]; intros [|o] [|o'] Hne; simpl; auto;
    try congruence.
  unfold objeto in *. simpl. apply IH. congruence.
Qed.

Lemma objeto_app (m : list Atividade.t) (a : Atividade.t) (o : nat) :
  (o < List.length m)%nat -> objeto (m ++ [a]) o = objeto m o.
Proof. intros Hl. unfold objeto. now apply app_nth1. Qed.

Lemma objeto_app_novo (m : list Atividade.t) (a : Atividade.t) :
  objeto (m ++ [a]) (List.length m) = a.
Proof.
  unfold objeto. rewrite app_nth2 by lia. now rewrite Nat.sub_diag.
Qed.

Lemma existsb_eqb_In (o : nat) (l : list nat) :
  existsb (Nat.eqb o) l = true <-> In o l.
Proof.
  rewrite existsb_exists. split.
  - intros [x [Hx E]]. apply Nat.eqb_eq in E. now subst.
  - intros Hx. exists o. split; [assumption | apply Nat.eqb_refl].
Qed.

Lemma guardado_false (o : nat) (ow : ObjWorld) :
  guardado o ow = false <-> ~ In o (Dict.values (o_atividades ow)).
Proof.
  unfold guardado. rewrite <- existsb_eqb_In.
  destruct (existsb (Nat.eqb o) (Dict.values (o_atividades ow)));
    split; intros; congruence.
Qed.

Lemma sem_repetidos_NoDup (l : list nat) :
  sem_repetidos l = true <-> NoDup l.
Proof.
  induction l as [|o r IH]; simpl.
  - split; [constructor | reflexivity].
  - rewrite andb_true_iff, negb_true_iff, IH. split.
    + intros [Hn Hr]. constructor; [|assumption].
      rewrite <- existsb_eqb_In. congruence.
    + intros Hnd. inversion Hnd as [|? ? Hn Hr]; subst. split; [|assumption].
      rewrite <- existsb_eqb_In in Hn.
      destruct (existsb (Nat.eqb o) r); congruence.
Qed.

Lemma sem_partilha_spec (ow : ObjWorld) :
  sem_partilha ow = true
  <-> NoDup (Dict.values (o_atividades ow))
      /\ forall o, In o (Dict.values (o_atividades ow)) ->
                   (o < List.length (objetos ow))%nat.
Proof.
  unfold sem_partilha.
  rewrite andb_true_iff, sem_repetidos_NoDup, forallb_forall.
  split; intros [H1 H2]; (split; [assumption|]); intros o Ho.
  - apply Nat.ltb_lt. auto.
  - apply Nat.ltb_lt. auto.
Qed.

Lemma dict_get_In_values {K V} `{Key K} (k : K) (v : V) (d : Dict.t K V) :
  Dict.get k d = Some v -> In v (Dict.values d).
Proof.
  induction d as [|[k' v'] r IH]; simpl; [discriminate|].
  destruct (key_eqb k k'); [intros [= ->]; now left | auto].
Qed.

Lemma dict_values_set_In {K V} `{Key K} (k : K) (v x : V) (d : Dict.t K V) :
  In x (Dict.values (Dict.set k v d)) -> x = v \/ In x (Dict.values d).
Proof.
  induction d as [|[k' v'] r IH]; simpl.
  - intros [<-|[]]. now left.
  - destruct (key_eqb k k'); simpl.
    + intros [<-|Hx]; auto.
    + intros [<-|Hx]; auto. destruct (IH Hx); auto.
Qed.

Lemma dict_values_set_NoDup {K V} `{Key K} (k : K) (v : V) (d : Dict.t K V) :
  ~ In v (Dict.values d) -> NoDup (Dict.values d) ->
  NoDup (Dict.values (Dict.set k v d)).
Proof.
  induction d as [|[k' v'] r IH]; simpl; intros Hn Hnd.
  - constructor; [intros [] | constructor].
  - inversion Hnd as [|? ? Hv' Hr]; subst.
    destruct (key_eqb k k'); simpl.
    + constructor; [tauto | assumption].
    + constructor; [|apply IH; tauto].
      intros Hin. apply dict_values_set_In in Hin. destruct Hin; [|tauto].
      subst. tauto.
Qed.

Lemma vistas_get (m : list Atividade.t) (tab : Dict.t Z nat) (k : Z) :
  Dict.get k (atividades_vistas m tab) = option_map (objeto m) (Dict.get k tab).
Proof.
  induction tab as [|[k' o] r IH]; simpl; [reflexivity|].
  destruct (k =? k'); [reflexivity | assumption].
Qed.

Lemma vistas_set (m : list Atividade.t) (tab : Dict.t Z nat) (k : Z) (o : nat) :
  atividades_vistas m (Dict.set k o tab)
  = Dict.set k (objeto m o) (atividades_vistas m tab).
Proof.
  induction tab as [|[k' o'] r IH]; simpl; [reflexivity|].
  destruct (k =? k'); simpl; [reflexivity|]. f_equal. exact IH.
Qed.

Lemma vistas_ext (m m' : list Atividade.t) (tab : Dict.t Z nat) :
  (forall o, In o (Dict.values tab) -> objeto m' o = objeto m o) ->
  atividades_vistas m' tab = atividades_vistas m tab.
Proof.
  induction tab as [|[k o] r IH]; simpl; intros Hm; [reflexivity|].
  rewrite Hm by now left. f_equal. apply IH. auto.
Qed.

(** A write on the object held once, under [k], is a write under [k]. *)
Lemma vistas_escreve (m : list Atividade.t) (tab : Dict.t Z nat) (k : Z)
  (o : nat) (a : Atividade.t) :
  Dict.get k tab = Some o -> NoDup (Dict.values tab) ->
  (o < List.length m)%nat ->
  atividades_vistas (escreve o a m) tab
  = Dict.set k a (atividades_vistas m tab).
Proof.
  intros Hg Hnd Hl. induction tab as [|[k' o'] r IH]; simpl in *;
    [discriminate|].
  inversion Hnd as [|? ? Hn Hr]; subst.
  destruct (k =? k').
  - injection Hg as ->. rewrite objeto_escreve_same by assumption. f_equal.
    apply vistas_ext. intros x Hx. apply objeto_escreve_other. congruence.
  - rewrite objeto_escreve_other.
    + f_equal. apply IH; assumption.
    + apply dict_get_In_values in Hg. congruence.
Qed.

Lemma visto_o_save (ow : ObjWorld) :
  visto (o_save ow)
  = mkWorld (db (visto ow)) (Some (dump (db (visto ow)))) (S (o_writes ow)).
Proof. reflexivity. Qed.

Lemma nova_atividade_visto (atv : Atividade.t) (ow : ObjWorld) :
  sem_partilha ow = true -> visto (fst (nova_atividade atv ow)) = visto ow.
Proof.
  intros Hp. apply sem_partilha_spec in Hp. destruct Hp as [_ Hv].
  unfold visto, nova_atividade. simpl. f_equal. f_equal.
  apply vistas_ext. intros o Ho. apply objeto_app. auto.
Qed.

Lemma nova_atividade_sem_partilha (atv : Atividade.t) (ow : ObjWorld) :
  sem_partilha ow = true -> sem_partilha (fst (nova_atividade atv ow)) = true.
Proof.
  rewrite !sem_partilha_spec. simpl. intros [Hnd Hv]. split; [assumption|].
  intros o Ho. rewrite length_app. simpl. specialize (Hv o Ho). lia.
Qed.

Lemma nova_atividade_novo (atv : Atividade.t) (ow : ObjWorld) :
  sem_partilha ow = true ->
  let (ow1, o) := nova_atividade atv ow in
  (o < List.length (objetos ow1))%nat
  /\ guardado o ow1 = false
  /\ objeto (objetos ow1) o = atv.
Proof.
  intros Hp. apply sem_partilha_spec in Hp. destruct Hp as [_ Hv].
  simpl. split; [rewrite length_app; simpl; lia|]. split.
  - apply guardado_false. simpl. intros Hin. specialize (Hv _ Hin). lia.
  - apply objeto_app_novo.
Qed.

(** Given an object that the store does not hold, [add_atividade] does to
    the store what it does by value. *)
Lemma add_atividade_obj_visto (o : nat) (ow : ObjWorld) :
  (o < List.length (objetos ow))%nat -> guardado o ow = false ->
  let s' :=
    mkDataStore (o_alunos ow) (o_turmas ow)
      (Dict.set (o_next_atv_id ow)
         (Atividade.set_id (o_next_atv_id ow) (objeto (objetos ow) o))
         (atividades (db (visto ow))))
      (o_next_atv_id ow + 1) in
  visto (fst (add_atividade_obj o ow))
  = mkWorld s' (Some (dump s')) (S (o_writes ow))
  /\ objeto (objetos (fst (add_atividade_obj o ow))) o
     = Atividade.set_id (o_next_atv_id ow) (objeto (objetos ow) o).
Proof.
  intros Hl Hg. apply guardado_false in Hg.
  unfold add_atividade_obj. cbn [fst]. rewrite visto_o_save.
  set (a := Atividade.set_id (o_next_atv_id ow) (objeto (objetos ow) o)).
  assert (E : db (visto (mkObjWorld (escreve o a (objetos ow)) (o_alunos ow)
                    (o_turmas ow)
                    (Dict.set (Atividade.id (objeto (escreve o a (objetos ow)) o))
                       o (o_atividades ow))
                    (o_next_atv_id ow + 1) (o_data_file ow) (o_writes ow)))
              = mkDataStore (o_alunos ow) (o_turmas ow)
                  (Dict.set (o_next_atv_id ow) a (atividades (db (visto ow))))
                  (o_next_atv_id ow + 1)).
  { unfold visto. cbn [db alunos turmas atividades _next_atv_id
                       objetos o_alunos o_turmas o_atividades o_next_atv_id].
    rewrite objeto_escreve_same by assumption.
    rewrite vistas_set, objeto_escreve_same by assumption.
    f_equal. fold a. f_equal.
    apply vistas_ext. intros x Hx. apply objeto_escreve_other. congruence. }
  cbn zeta. rewrite E. split; [reflexivity|].
  cbn [objetos o_save]. now apply objeto_escreve_same.
Qed.

Lemma add_atividade_obj_sem_partilha (o : nat) (ow : ObjWorld) :
  (o < List.length (objetos ow))%nat -> guardado o ow = false ->
  sem_partilha ow = true ->
  sem_partilha (fst (add_atividade_obj o ow)) = true.
Proof.
  intros Hl Hg. apply guardado_false in Hg.
  rewrite !sem_partilha_spec. intros [Hnd Hv].
  unfold add_atividade_obj. cbn [fst o_save o_atividades objetos]. split.
  - now apply dict_values_set_NoDup.
  - intros x Hx. rewrite length_escreve.
    apply dict_values_set_In in Hx. destruct Hx as [->|Hx]; auto.
Qed.

(** A write of a payload on the object held under [k] is, by value, the
    write of [add_entrega] and [set_nota_entrega]. *)
Lemma escreve_entrega_visto (o : nat) (k : Z) (ra field : string) (v : value)
  (ow : ObjWorld) :
  sem_partilha ow = true -> Dict.get k (o_atividades ow) = Some o ->
  let atv := objeto (objetos ow) o in
  let s' :=
    set_atividades
      (Dict.set k
         (Atividade.set_entrega ra
            (VDict (Dict.set field v (payload_of atv ra))) atv)
         (atividades (db (visto ow))))
      (db (visto ow)) in
  visto (escreve_entrega o ra field v ow)
  = mkWorld s' (Some (dump s')) (S (o_writes ow)).
Proof.
  intros Hp Hg. apply sem_partilha_spec in Hp. destruct Hp as [Hnd Hv].
  cbn zeta. unfold escreve_entrega. rewrite visto_o_save.
  match goal with
  | |- mkWorld ?a _ _ = mkWorld ?b _ _ => assert (E : a = b)
  end.
  { unfold visto, set_atividades.
    cbn [db alunos turmas atividades _next_atv_id
         objetos o_alunos o_turmas o_atividades o_next_atv_id].
    f_equal. apply vistas_escreve; auto.
    apply Hv. eapply dict_get_In_values. eassumption. }
  rewrite E. reflexivity.
Qed.

Lemma escreve_entrega_sem_partilha (o : nat) (ra field : string) (v : value)
  (ow : ObjWorld) :
  sem_partilha ow = true ->
  sem_partilha (escreve_entrega o ra field v ow) = true.
Proof.
  rewrite !sem_partilha_spec. intros [Hnd Hv].
  unfold escreve_entrega. cbn [o_save o_atividades objetos].
  split; [assumption|]. intros x Hx. rewrite length_escreve. auto.
Qed.

Lemma sem_atividades_visto (c : call) (ow : ObjWorld) :
  atividades (db (fst (exec c (visto ow)))) = atividades (db (visto ow)) ->
  exec c (visto ow)
  = (visto (fst (sem_atividades (exec c) ow)),
     snd (sem_atividades (exec c) ow)).
Proof.
  unfold sem_atividades. destruct (exec c (visto ow)) as [w' r]. simpl.
  intros E. destruct w' as [[al tu at' nx] df wr]. simpl in *. subst at'.
  reflexivity.
Qed.

Lemma sem_atividades_sem_partilha {A} (m : M A) (ow : ObjWorld) :
  sem_partilha (fst (sem_atividades m ow)) = sem_partilha ow.
Proof.
  unfold sem_atividades. destruct (m (visto ow)) as [w' r]. reflexivity.
Qed.

(** The calls by value, run on the objects, do to the store as seen what
    they do by value, as long as no object is held under two ids; and they
    leave it so. *)
Lemma oexec_visto (c : call) (ow : ObjWorld) :
  sem_partilha ow = true ->
  exec c (visto ow)
  = (visto (fst (oexec (OCall c) ow)), snd (oexec (OCall c) ow))
  /\ sem_partilha (fst (oexec (OCall c) ow)) = true.
Proof.
  intros Hp.
  assert (Hsem : forall c' : call,
             oexec (OCall c') ow = sem_atividades (exec c') ow ->
             (guarda c' (db (visto ow)) = true ->
              atividades (efeito c' (db (visto ow)))
              = atividades (db (visto ow))) ->
             exec c' (visto ow)
             = (visto (fst (oexec (OCall c') ow)), snd (oexec (OCall c') ow))
             /\ sem_partilha (fst (oexec (OCall c') ow)) = true).
  { intros c' E Hat. rewrite E. split.
    - apply sem_atividades_visto. rewrite exec_db.
      destruct (guarda c' (db (visto ow))); auto.
    - now rewrite sem_atividades_sem_partilha. }
  destruct c.
  - apply Hsem; reflexivity.
  - apply Hsem; reflexivity.
  - apply Hsem; [reflexivity|]. intros _. cbn [efeito].
    destruct (get_turma (db (visto ow)) codigo); reflexivity.
  - pose proof (nova_atividade_novo atv ow Hp) as Hn.
    pose proof (nova_atividade_visto atv ow Hp) as Hv.
    pose proof (nova_atividade_sem_partilha atv ow Hp) as Hp1.
    cbn [oexec].
    assert (Hnx : o_next_atv_id (fst (nova_atividade atv ow))
                  = o_next_atv_id ow) by reflexivity.
    assert (Hwr : o_writes (fst (nova_atividade atv ow)) = o_writes ow)
      by reflexivity.
    assert (Hal : o_alunos (fst (nova_atividade atv ow)) = o_alunos ow)
      by reflexivity.
    assert (Htu : o_turmas (fst (nova_atividade atv ow)) = o_turmas ow)
      by reflexivity.
    destruct (nova_atividade atv ow) as [ow1 o]. cbn [fst] in *.
    destruct Hn as [Hl [Hg Ho]].
    pose proof (add_atividade_obj_visto o ow1 Hl Hg) as [Hw Hid].
    pose proof (add_atividade_obj_sem_partilha o ow1 Hl Hg Hp1) as Hp2.
    destruct (add_atividade_obj o ow1) as [ow' r]. cbn [fst snd] in *.
    split; [|assumption].
    rewrite Hw, Hid, Ho, Hv, Hnx, Hwr, Hal, Htu. reflexivity.
  - cbn [oexec]. unfold add_entrega_obj, get_atividade_obj.
    unfold exec, add_entrega, bind, get_db, get_atividade, ret, raise,
      modify_db, _save. cbv beta iota.
    change (atividades (db (visto ow)))
      with (atividades_vistas (objetos ow) (o_atividades ow)).
    rewrite vistas_get.
    destruct (Dict.get atv_id (o_atividades ow)) as [o|] eqn:E; simpl;
      [|auto].
    destruct (Dict.mem ra (o_alunos ow)); simpl; [|auto]. split.
    + rewrite (escreve_entrega_visto o atv_id ra "arquivo" (VStr arquivo) ow
                 Hp E).
      reflexivity.
    + now apply escreve_entrega_sem_partilha.
  - cbn [oexec]. unfold set_nota_entrega_obj, get_atividade_obj.
    destruct (is_None nota) eqn:N.
    + destruct nota; try discriminate N. auto.
    + assert (E1 : set_nota_entrega atv_id ra nota
                   = match py_float float_of_str nota with
                     | Py.Raise _ => raise (Py.ValueError "Nota inválida.")
                     | Py.Ok n =>
                         if (n <? 0)%float || (10 <? n)%float then
                           raise (Py.ValueError "Nota deve estar entre 0 e 10.")
                         else
                           s <- get_db ;;
                           match get_atividade s atv_id with
                           | None => raise (Py.ValueError "Atividade não encontrada.")
                           | Some atv =>
                               if negb (Dict.mem ra (alunos s)) then
                                 raise (Py.ValueError "Aluno (RA) não encontrado.")
                               else
                                 let payload := payload_of atv ra in
                                 let payload := Dict.set "nota" (VFloat n) payload in
                                 let atv := Atividade.set_entrega ra (VDict payload) atv in
                                 modify_db (fun s => set_atividades (Dict.set atv_id atv (atividades s)) s) ;;
                                 _save ;;
                                 ret atv
                           end
                     end)
        by (destruct nota; try discriminate N; reflexivity).
      assert (E2 : forall X (a : X) (f : X),
                 match nota with VNone => a | _ => f end = f)
        by (intros; destruct nota; try discriminate N; reflexivity).
      rewrite E2. unfold exec. rewrite E1. clear E1 E2.
      destruct (py_float float_of_str nota) as [n|e]; [|auto].
      destruct ((n <? 0)%float || (10 <? n)%float); [auto|].
      unfold bind, get_db, get_atividade, ret, raise, modify_db, _save.
      cbv beta iota.
      change (atividades (db (visto ow)))
        with (atividades_vistas (objetos ow) (o_atividades ow)).
      rewrite vistas_get.
      destruct (Dict.get atv_id (o_atividades ow)) as [o|] eqn:E; simpl;
        [|auto].
      destruct (Dict.mem ra (o_alunos ow)); simpl; [|auto]. split.
      * rewrite (escreve_entrega_visto o atv_id ra "nota" (VFloat n) ow Hp E).
        reflexivity.
      * now apply escreve_entrega_sem_partilha.
  - apply Hsem; [reflexivity|]. intros _. cbn [efeito].
    destruct (Dict.get ra (alunos (db (visto ow)))); reflexivity.
Qed.

(** A caller who gives [add_atividade] an object built for the call, as
    the routers do, sees what the calls by value give. *)
Lemma orun_run_calls (cs : list call) (ow : ObjWorld) :
  sem_partilha ow = true ->
  visto (orun (map OCall cs) ow) = fst (run_calls cs (visto ow))
  /\ objetos_novos (map OCall cs) ow = true.
Proof.
  revert ow. induction cs as [|c r IH]; intros ow Hp; [auto|].
  destruct (oexec_visto c ow Hp) as [E Hp1].
  destruct (IH _ Hp1) as [IH1 IH2].
  cbn [map orun fold_left objetos_novos run_calls]. rewrite E.
  destruct (run_calls r (visto (fst (oexec (OCall c) ow)))) as [w2 ids] eqn:R.
  split.
  - unfold orun in IH1. rewrite IH1. reflexivity.
  - rewrite IH2. reflexivity.
Qed.

Lemma oexec_ids_ok (c : ocall) (ow : ObjWorld) :
  sem_partilha ow = true -> ids_ok (db (visto ow)) = true ->
  match c with
  | OCall_add_atividade o =>
      (o <? List.length (objetos ow))%nat && negb (guardado o ow)
  | _ => true
  end = true ->
  sem_partilha (fst (oexec c ow)) = true
  /\ ids_ok (db (visto (fst (oexec c ow)))) = true.
Proof.
  intros Hp Hok Hc. destruct c as [atv|o|c].
  - cbn [oexec fst]. split; [now apply nova_atividade_sem_partilha|].
    now rewrite nova_atividade_visto.
  - apply andb_true_iff in Hc. destruct Hc as [Hl Hg].
    apply Nat.ltb_lt in Hl. apply negb_true_iff in Hg.
    pose proof (add_atividade_obj_visto o ow Hl Hg) as [Hw _].
    pose proof (add_atividade_obj_sem_partilha o ow Hl Hg Hp) as Hp1.
    cbn [oexec]. destruct (add_atividade_obj o ow) as [ow' r].
    cbn [fst] in *. split; [assumption|]. rewrite Hw. cbn [db].
    exact (ids_ok_step (Call_add_atividade (objeto (objetos ow) o))
             (db (visto ow)) Hok eq_refl).
  - destruct (oexec_visto c ow Hp) as [E Hp1]. split; [assumption|].
    replace (visto (fst (oexec (OCall c) ow))) with (fst (exec c (visto ow)))
      by now rewrite E.
    rewrite exec_db. destruct (guarda c (db (visto ow))) eqn:G; [|assumption].
    now apply ids_ok_step.
Qed.

(** X7.  Every run of calls in which [add_atividade] is only given objects
    that the store does not hold then (one built for the call, as the
    routers do, or one of the caller's that was not added before) keeps
    this of the store: each assignment is held once, under the id that it
    carries, the ids in use are at least 1 and below the counter from which
    the next id is taken, and no object is held under two ids.  (A store
    read from a file need not be so: the file gives the counter and the ids
    as it pleases.  Nor is it kept when [add_atividade] is given an object
    that the store holds: see [add_atividade_mesmo_objeto].) *)
Theorem orun_ids_ok (cs : list ocall) (ow : ObjWorld) :
  sem_partilha ow = true ->
  ids_ok (db (visto ow)) = true ->
  objetos_novos cs ow = true ->
  ids_ok (db (visto (orun cs ow))) = true
  /\ sem_partilha (orun cs ow) = true.
Proof.
  revert ow. induction cs as [|c r IH]; intros ow Hp Hok Hn; [auto|].
  cbn [objetos_novos] in Hn. apply andb_true_iff in Hn.
  destruct Hn as [Hc Hr].
  destruct (oexec_ids_ok c ow Hp Hok) as [Hp1 Hok1].
  { destruct c; auto. }
  exact (IH _ Hp1 Hok1 Hr).
Qed.

(** X8.  In a store whose ids in use are below the counter and which holds
    no object under two ids, [add_atividade] gives the counter as id, which
    was free, and holds the object under it.  Given an object that the
    store does not hold, it takes the place of no assignment: the
    assignments that the store held are all there as they were, and the new
    one comes after them, so that there is one assignment more.  Given the
    object that the store holds under [k], it writes the new id on that
    object: the assignment found under [k] then carries the new id, not
    [k], and is found under the new id as well. *)
Theorem add_atividade_obj_never_overwrites (o : nat) (ow : ObjWorld) :
  sem_partilha ow = true ->
  ids_ok (db (visto ow)) = true ->
  (o < List.length (objetos ow))%nat ->
  let ow' := fst (add_atividade_obj o ow) in
  let i := o_next_atv_id ow in
  let atv' := Atividade.set_id i (objeto (objetos ow) o) in
  get_atividade (db (visto ow)) i = None
  /\ get_atividade (db (visto ow')) i = Some atv'
  /\ (guardado o ow = false ->
      atividades (db (visto ow'))
      = (atividades (db (visto ow)) ++ [(i, atv')])%list
      /\ (forall k a, get_atividade (db (visto ow)) k = Some a ->
                      get_atividade (db (visto ow')) k = Some a)
      /\ len (atividades (db (visto ow')))
         = len (atividades (db (visto ow))) + 1)
  /\ (forall k, get_atividade_obj ow k = Some o ->
                get_atividade (db (visto ow)) k = Some (objeto (objetos ow) o)
                /\ Atividade.id (objeto (objetos ow) o) = k
                /\ k <> i
                /\ get_atividade (db (visto ow')) k = Some atv'
                /\ ids_ok (db (visto ow')) = false).
Proof.
  intros Hp Hok Hl. cbn zeta.
  pose proof (ids_ok_next_free _ Hok) as Hfree.
  cbn [db visto _next_atv_id atividades] in Hfree.
  assert (Hnone : Dict.get (o_next_atv_id ow)
                    (atividades_vistas (objetos ow) (o_atividades ow)) = None).
  { unfold Dict.mem in Hfree.
    destruct (Dict.get (o_next_atv_id ow)
                (atividades_vistas (objetos ow) (o_atividades ow)));
      [discriminate | reflexivity]. }
  set (atv' := Atividade.set_id (o_next_atv_id ow) (objeto (objetos ow) o)).
  assert (Hnew : forall k,
             Dict.get k (atividades (db (visto (fst (add_atividade_obj o ow)))))
             = option_map (objeto (escreve o atv' (objetos ow)))
                 (Dict.get k (Dict.set (o_next_atv_id ow) o (o_atividades ow)))).
  { intros k. unfold add_atividade_obj.
    cbn [fst o_save visto db atividades objetos o_atividades].
    fold atv'. rewrite objeto_escreve_same by assumption.
    apply vistas_get. }
  split; [exact Hnone|]. split; [|split].
  - unfold get_atividade. rewrite Hnew, dict_get_set_same. simpl.
    now rewrite objeto_escreve_same.
  - intros Hg. pose proof (add_atividade_obj_visto o ow Hl Hg) as [Hw _].
    rewrite Hw. cbn [db efeito atividades visto alunos turmas _next_atv_id].
    fold atv'. rewrite (dict_set_new _ _ _ Hfree). split; [reflexivity|].
    split.
    + intros k a Hk. unfold get_atividade in *.
      cbn [db visto atividades] in Hk |- *.
      rewrite <- (dict_set_new _ _ _ Hfree).
      rewrite dict_get_set_other; [assumption|]. intros ->. congruence.
    + unfold len. rewrite length_app. simpl. lia.
  - intros k Hk. unfold get_atividade_obj in Hk.
    assert (Hold : Dict.get k (atividades_vistas (objetos ow) (o_atividades ow))
                   = Some (objeto (objetos ow) o))
      by (rewrite vistas_get, Hk; reflexivity).
    assert (Hids := Hok). unfold ids_ok in Hids.
    rewrite !andb_true_iff in Hids. destruct Hids as [_ Hinv].
    pose proof (forallb_items_get _ _ _ _ Hinv Hold) as Hkv.
    cbn [fst snd db visto _next_atv_id] in Hkv.
    rewrite !andb_true_iff in Hkv. destruct Hkv as [[Hid H1] Hlt].
    apply Z.eqb_eq in Hid. apply Z.ltb_lt in Hlt.
    assert (Hne : k <> o_next_atv_id ow) by lia.
    assert (Hk' : Dict.get k
                    (atividades (db (visto (fst (add_atividade_obj o ow)))))
                  = Some atv').
    { rewrite Hnew, dict_get_set_other by congruence. rewrite Hk. simpl.
      now rewrite objeto_escreve_same. }
    split; [exact Hold|]. split; [now rewrite Hid|]. split; [exact Hne|].
    split; [exact Hk'|].
    destruct (ids_ok (db (visto (fst (add_atividade_obj o ow))))) eqn:Hok';
      [|reflexivity].
    unfold ids_ok in Hok'. rewrite !andb_true_iff in Hok'.
    destruct Hok' as [_ Hinv'].
    pose proof (forallb_items_get _ _ _ _ Hinv' Hk') as Hkv'.
    cbn [fst snd] in Hkv'. rewrite !andb_true_iff in Hkv'.
    destruct Hkv' as [[Hid' _] _]. apply Z.eqb_eq in Hid'.
    subst atv'. simpl in Hid'. congruence.
Qed.

End Store.

(* ================================================================== *)
(** * The properties on the sample data *)
(* ================================================================== *)

(** The student of the sample with grades 8, 6 and 10 has mean 7.6 and is
    approved; a student with grades 7, 7 and 6.975, whose mean is below 7
    before it is rounded, has mean 7.0 and is approved. *)
Lemma get_notas_media_situacao_witness :
  (exists n,
      get_notas sample_store "H76DJH0" = Some n
      /\ media n = Some 7.6%float /\ situacao n = "Aprovado")
  /\ (exists n,
        get_notas
          (mkDataStore
             [("K00XYZ1",
               Aluno.make "Caio" "K00XYZ1" "ADS" (Some 7%float) (Some 7%float)
                 (Some 6.975%float))] [] [] 1) "K00XYZ1"
        = Some n
        /\ media n = Some 7%float
        /\ rounded_to 2 ((7 * 4 + 7 * 4 + 6.975 * 2) / 10)%float 7%float
        /\ situacao n = "Aprovado").
Proof.
  split.
  - destruct (get_notas_media_situacao sample_store "H76DJH0" ana eq_refl)
      as [n [Hg [_ [_ [_ [Hm _]]]]]].
    exists n. split; [exact Hg|].
    destruct (Hm 8%float 6%float 10%float eq_refl eq_refl eq_refl)
      as [H1 [_ [_ H4]]].
    split; [exact H1 | exact H4].
  - destruct (get_notas_media_situacao
                (mkDataStore
                   [("K00XYZ1",
                     Aluno.make "Caio" "K00XYZ1" "ADS" (Some 7%float)
                       (Some 7%float) (Some 6.975%float))] [] [] 1)
                "K00XYZ1"
                (Aluno.make "Caio" "K00XYZ1" "ADS" (Some 7%float) (Some 7%float)
                   (Some 6.975%float))
                eq_refl)
      as [n [Hg [_ [_ [_ [Hm _]]]]]].
    exists n. split; [exact Hg|].
    destruct (Hm 7%float 7%float 6.975%float eq_refl eq_refl eq_refl)
      as [H1 [H2 [_ H4]]].
    split; [exact H1|]. split; [exact H2 | exact H4].
Defined.

(** Adding the first student of the sample again. *)
Lemma add_aluno_duplicate_witness :
  add_aluno ana sample_world
  = (sample_world, Py.Raise (Py.ValueError "RA já cadastrado.")).
Proof. apply (add_aluno_duplicate sample_world ana). reflexivity. Defined.

(** Three grades of which the second is out of the range: nothing is
    assigned, not even the first. *)
Lemma failed_call_leaves_world_witness :
  exec no_float_of_str
    (Call_set_notas "G12ABC3" (VFloat 9) (VFloat 11) VNone) sample_world
  = (sample_world, Py.Raise (Py.ValueError "NP2 deve estar entre 0 e 10."))
  /\ (sample_world = sample_world
      /\ exists msg,
          Py.ValueError "NP2 deve estar entre 0 e 10." = Py.ValueError msg).
Proof.
  split; [reflexivity|].
  apply (failed_call_leaves_world no_float_of_str
           (Call_set_notas "G12ABC3" (VFloat 9) (VFloat 11) VNone)
           sample_world sample_world
           (Py.ValueError "NP2 deve estar entre 0 e 10.")).
  reflexivity.
Defined.

(** A new file reference for the graded submission of the sample: the
    grade 9.5 is still there; a new grade: the file reference is still
    there. *)
Lemma entrega_writes_one_field_witness :
  (exists w' atv',
      add_entrega 1 "H76DJH0" "Atividade1_v2.pdf" sample_world = (w', Py.Ok atv')
      /\ Dict.get "arquivo" (payload_of atv' "H76DJH0")
         = Some (VStr "Atividade1_v2.pdf")
      /\ Dict.get "nota" (payload_of atv' "H76DJH0") = Some (VFloat 9.5))
  /\ (exists w' atv',
        set_nota_entrega no_float_of_str 1 "H76DJH0" (VFloat 7) sample_world
        = (w', Py.Ok atv')
        /\ Dict.get "nota" (payload_of atv' "H76DJH0") = Some (VFloat 7)
        /\ Dict.get "arquivo" (payload_of atv' "H76DJH0")
           = Some (VStr "Atividade1.pdf")).
Proof.
  destruct (entrega_writes_one_field no_float_of_str sample_world 1 "H76DJH0"
              atv1 eq_refl eq_refl) as [Ha Hn].
  split.
  - destruct (Ha "Atividade1_v2.pdf") as [w' [atv' [Hrun [_ [Hf [Hk _]]]]]].
    exists w', atv'. split; [exact Hrun|]. split; [exact Hf|].
    rewrite (Hk "nota"); [reflexivity | discriminate].
  - destruct (Hn (VFloat 7) 7%float eq_refl eq_refl eq_refl)
      as [w' [atv' [Hrun [_ [Hf [Hk _]]]]]].
    exists w', atv'. split; [exact Hrun|]. split; [exact Hf|].
    rewrite (Hk "arquivo"); [reflexivity | discriminate].
Defined.

(** The sample saved with its counter at 5 and loaded again: the next
    assignment gets id 5; and from the empty store the ids of three
    assignments created among other calls are 1, 2, 3. *)
Lemma add_atividade_ids_witness :
  snd (run_calls no_float_of_str
         [Call_add_atividade atv3; Call_add_aluno ana; Call_add_atividade atv1;
          Call_add_entrega 7 "H76DJH0" "x.pdf"; Call_add_atividade atv2]
         (fst (__init__ no_float_of_str no_int_of_str no_int_of_str (boot None))))
  = [1; 2; 3]
  /\ exists w'' atv',
      add_atividade atv3
        (fst (__init__ no_float_of_str no_int_of_str no_int_of_str
                (boot (Some (dump sample_store)))))
      = (w'', Py.Ok atv')
      /\ Atividade.id atv' = 5.
Proof.
  destruct (add_atividade_ids no_float_of_str no_float_of_str no_int_of_str
              no_int_of_str)
    as [Hids Hload].
  split.
  - rewrite Hids. reflexivity.
  - apply (Hload
             (match dump sample_store with VDict d => d | _ => [] end)
             (fst (__init__ no_float_of_str no_int_of_str no_int_of_str
                     (boot (Some (dump sample_store)))))).
    + reflexivity.
    + vm_compute. reflexivity.
Defined.


(** The class of the sample without students: its assignment has one
    submission and 0.0 as percentage. *)
Lemma relatorio_turma_sem_divisao_witness :
  exists r,
    relatorio_turma sample_store "TADS02" = Py.Ok r
    /\ map resumo_id (rel_atividades r) = [2]
    /\ forall a, In a (rel_atividades r) -> percentual_entregas a = 0%float.
Proof.
  destruct (relatorio_turma_sem_divisao sample_store "TADS02" tads02 eq_refl)
    as [_ [Hz _]].
  destruct (Hz eq_refl) as [Hall Hret].
  destruct (Hret eq_refl eq_refl) as [r Hr].
  exists r. split; [exact Hr|]. exact (Hall r Hr).
Defined.



(** C2: the code on the snapshot edited by hand.  Both students are members
    of the class and neither submission carries a valid grade, yet the list
    of pending grades of the assignment is empty. *)
Theorem pendencias_nota_nota_invalida :
  __init__ no_float_of_str no_int_of_str no_int_of_str
    (boot (Some edited_snapshot))
  = (mkWorld edited_store (Some edited_snapshot) 0, Py.Ok tt)
  /\ get_turma edited_store "TADS01" = Some tads01
  /\ atividades_da_turma edited_store "TADS01" = [edited_atv]
  /\ map (nota_valida no_float_of_str)
         (Dict.values (Atividade.entregas edited_atv)) = [None; None]
  /\ pendencias_nota edited_store "TADS01" = Py.Ok [(1, [])].
Proof. repeat split; vm_compute; reflexivity. Qed.

(** C6: the code on NaN.  NaN is no number of [0, 10], yet [set_notas]
    accepts it, stores it and writes the file. *)
Theorem set_notas_accepts_nan :
  in_range nan = false
  /\ exists w' a',
      set_notas no_float_of_str "G12ABC3" (VFloat nan) VNone VNone sample_world
      = (w', Py.Ok (Some (mkNotas (Some nan) None None None "Sem notas")))
      /\ Dict.get "G12ABC3" (alunos (db w')) = Some a'
      /\ Aluno.np1 a' = Some nan
      /\ writes w' = S (writes sample_world).
Proof.
  split; [reflexivity|].
  eexists. eexists. split; [vm_compute; reflexivity|].
  split; [reflexivity|]. split; reflexivity.
Qed.

(** The same through the methods of the store alone: NaN is accepted as the
    grade of a submission, is no valid grade for the reports, and its
    student is not listed as pending. *)
Lemma pendencias_nota_nan :
  exists w' atv',
    set_nota_entrega no_float_of_str 1 "G12ABC3" (VFloat nan) sample_world
    = (w', Py.Ok atv')
    /\ Dict.get "G12ABC3" (Atividade.entregas atv')
       = Some (VDict [("nota", VFloat nan)])
    /\ nota_valida no_float_of_str (VDict [("nota", VFloat nan)]) = None
    /\ pendencias_nota (db w') "TADS01"
       = Py.Ok [(1, []); (3, ["H76DJH0"; "G12ABC3"]); (4, [])].
Proof.
  eexists. eexists. split; [vm_compute; reflexivity|].
  repeat split; vm_compute; reflexivity.
Qed.

(* ------------------------------------------------------------------ *)
(** ** Sessions *)
(* ------------------------------------------------------------------ *)

Lemma string_app_assoc (a b c : string) :
  ((a ++ b) ++ c)%string = (a ++ (b ++ c))%string.
Proof. induction a as [|x a IH]; simpl; [reflexivity | now rewrite IH]. Qed.

Lemma split_from_no_blank (tok cur : string) :
  forallb (fun c => negb (Auth.isspace c)) (list_ascii_of_string tok) = true ->
  Auth.split_from cur tok
  = match (cur ++ tok)%string with
    | EmptyString => []
    | _ => [(cur ++ tok)%string]
    end.
Proof.
  revert cur. induction tok as [|c r IH]; intros cur; simpl.
  - intros _. replace (cur ++ "")%string with cur; [reflexivity|].
    clear. induction cur as [|x cur IH]; simpl; [reflexivity|].
    now rewrite <- IH.
  - rewrite andb_true_iff. intros [Hc Hr]. apply negb_true_iff in Hc.
    rewrite Hc, (IH _ Hr), string_app_assoc. reflexivity.
Qed.

Lemma split_bearer (token : string) :
  Auth.token_ok token = true ->
  Auth.split ("Bearer " ++ token) = ["Bearer"; token].
Proof.
  unfold Auth.token_ok. rewrite andb_true_iff. intros [Hne Hnb].
  unfold Auth.split. simpl.
  rewrite (split_from_no_blank token "" Hnb). simpl.
  destruct token; [discriminate | reflexivity].
Qed.

Lemma get_pop_same {V} (k : string) (d : Dict.t string V) :
  Dict.get k (Auth.pop k d) = None.
Proof.
  unfold Auth.pop. induction d as [|[k' v] r IH]; simpl; [reflexivity|].
  destruct (String.eqb k k') eqn:E; simpl; [assumption|].
  now rewrite E.
Qed.

Lemma get_pop_other {V} (k t : string) (d : Dict.t string V) :
  t <> k -> Dict.get t (Auth.pop k d) = Dict.get t d.
Proof.
  intros Hn. unfold Auth.pop. induction d as [|[k' v] r IH]; simpl;
    [reflexivity|].
  destruct (String.eqb_spec k k') as [<-|Hk]; simpl.
  - apply String.eqb_neq in Hn. now rewrite Hn.
  - now rewrite IH.
Qed.

Lemma get_session_bearer (now : Z) (token : string) (sessions : Auth.Sessions) :
  Auth.token_ok token = true ->
  Auth._get_session_from_header now (Some ("Bearer " ++ token)%string) sessions
  = match Dict.get token sessions with
    | None =>
        (sessions,
         Py.Raise (Py.HTTPException 401 "Token inválido ou expirado."))
    | Some sess =>
        if Auth.exp sess <? now then
          (Auth.pop token sessions,
           Py.Raise (Py.HTTPException 401 "Token expirado."))
        else (sessions, Py.Ok sess)
    end.
Proof.
  intros Hok. unfold Auth._get_session_from_header.
  rewrite (split_bearer token Hok). reflexivity.
Qed.

(** X23.  A login that is accepted opens a session that lasts eight hours
    from the instant of the login and that the token of the answer
    reaches: until then, [me] with the header "Bearer " followed by that
    token answers the username, the role and the RA of the login and
    leaves the sessions as they are; the sessions under other tokens are
    those that there were. *)
Theorem login_then_me (token : string) (now now' : Z)
  (payload : Auth.LoginPayload) (sessions sessions' : Auth.Sessions)
  (r : Auth.LoginResponse) :
  Auth.token_ok token = true ->
  Auth.login token now payload sessions = (sessions', Py.Ok r) ->
  now' <= Auth.resp_exp r ->
  Auth.resp_token r = token
  /\ Auth.resp_exp r = now + 8 * 3600 * 1000000
  /\ Auth.resp_username r = Auth.login_username payload
  /\ Auth.me now' (Some ("Bearer " ++ token)%string) sessions'
     = (sessions',
        Py.Ok (Auth.resp_username r, Auth.resp_role r, Auth.resp_ra r))
  /\ (forall t, t <> token -> Dict.get t sessions' = Dict.get t sessions).
Proof.
  intros Hok. unfold Auth.login.
  destruct (Dict.get (Auth.login_username payload) Auth.USERS) as [user|] eqn:Hu;
    [|discriminate].
  destruct (negb (Auth.login_password payload =? Auth.user_password user)%string);
    [discriminate|].
  unfold Auth._issue_token. intros E. injection E as <- <-. simpl.
  intros Hle.
  split; [reflexivity|]. split; [reflexivity|]. split.
  - revert Hu. unfold Auth.USERS. simpl.
    destruct (Auth.login_username payload =? "aluno")%string eqn:E1.
    + intros E. injection E as <-. now apply String.eqb_eq in E1.
    + destruct (Auth.login_username payload =? "professor")%string eqn:E2;
        [|discriminate].
      intros E. injection E as <-. now apply String.eqb_eq in E2.
  - split.
    + unfold Auth.me. rewrite (get_session_bearer _ _ _ Hok).
      rewrite dict_get_set_same. simpl.
      destruct (now + Auth.SESSION_TTL <? now') eqn:L; [|reflexivity].
      apply Z.ltb_lt in L. unfold Auth.SESSION_TTL in *. lia.
    + intros t Ht. now apply dict_get_set_other.
Qed.

Lemma logout_bearer (token : string) (sessions : Auth.Sessions) :
  Auth.token_ok token = true ->
  Auth.logout (Some ("Bearer " ++ token)%string) sessions
  = Auth.pop token sessions.
Proof.
  intros Hok. unfold Auth.logout. rewrite (split_bearer token Hok).
  reflexivity.
Qed.

(** X24.  After [logout] with the header "Bearer " followed by a token, that
    token opens nothing: [_get_session_from_header] refuses it with 401 at
    any instant, while the sessions under other tokens are those that
    there were; and a [logout] without header changes nothing. *)
Theorem logout_invalidates (token : string) (sessions : Auth.Sessions) :
  Auth.token_ok token = true ->
  let sessions' := Auth.logout (Some ("Bearer " ++ token)%string) sessions in
  (forall now,
      Auth._get_session_from_header now (Some ("Bearer " ++ token)%string)
        sessions'
      = (sessions',
         Py.Raise (Py.HTTPException 401 "Token inválido ou expirado.")))
  /\ (forall t, t <> token -> Dict.get t sessions' = Dict.get t sessions)
  /\ Auth.logout None sessions = sessions.
Proof.
  intros Hok. cbv zeta. rewrite (logout_bearer _ _ Hok).
  split; [|split].
  - intros now. rewrite (get_session_bearer _ _ _ Hok).
    now rewrite get_pop_same.
  - intros t Ht. now apply get_pop_other.
  - reflexivity.
Qed.

(** X25.  A token whose session has run out is refused with 401 and its
    session is taken out, so that from then on the token is unknown at
    whatever instant; the sessions under other tokens are not touched. *)
Theorem expired_token_removed (token : string) (now : Z)
  (sessions : Auth.Sessions) (sess : Auth.Session) :
  Auth.token_ok token = true ->
  Dict.get token sessions = Some sess ->
  Auth.exp sess < now ->
  exists sessions',
    Auth._get_session_from_header now (Some ("Bearer " ++ token)%string)
      sessions
    = (sessions', Py.Raise (Py.HTTPException 401 "Token expirado."))
    /\ Dict.get token sessions' = None
    /\ (forall t, t <> token -> Dict.get t sessions' = Dict.get t sessions)
    /\ forall now',
        Auth._get_session_from_header now' (Some ("Bearer " ++ token)%string)
          sessions'
        = (sessions',
           Py.Raise (Py.HTTPException 401 "Token inválido ou expirado.")).
Proof.
  intros Hok Hget Hexp. exists (Auth.pop token sessions).
  repeat split.
  - rewrite (get_session_bearer _ _ _ Hok), Hget.
    apply Z.ltb_lt in Hexp. now rewrite Hexp.
  - apply get_pop_same.
  - intros t Ht. now apply get_pop_other.
  - intros now'. rewrite (get_session_bearer _ _ _ Hok).
    now rewrite get_pop_same.
Qed.

(** X26.  [require_professor] and [require_aluno] let through nothing but a
    session that [SESSIONS] holds under the token of the header, that has
    not run out, and whose role is the one asked for; and they leave the
    sessions as they are when they let through. *)
Theorem require_role_grants_only_live_sessions (now : Z)
  (authorization : option string) (sessions sessions' : Auth.Sessions)
  (sess : Auth.Session) :
  (Auth.require_professor now authorization sessions = (sessions', Py.Ok sess) ->
   Auth.role sess = "professor"
   /\ sessions' = sessions /\ now <= Auth.exp sess
   /\ exists a p0 token,
       authorization = Some a /\ Auth.split a = [p0; token]
       /\ Auth.lower p0 = "bearer" /\ Dict.get token sessions = Some sess)
  /\ (Auth.require_aluno now authorization sessions = (sessions', Py.Ok sess) ->
      Auth.role sess = "aluno"
      /\ sessions' = sessions /\ now <= Auth.exp sess
      /\ exists a p0 token,
          authorization = Some a /\ Auth.split a = [p0; token]
          /\ Auth.lower p0 = "bearer" /\ Dict.get token sessions = Some sess).
Proof.
  assert (H : forall papel detail,
             Auth.require_role papel detail now authorization sessions
             = (sessions', Py.Ok sess) ->
             Auth.role sess = papel
             /\ sessions' = sessions /\ now <= Auth.exp sess
             /\ exists a p0 token,
                 authorization = Some a /\ Auth.split a = [p0; token]
                 /\ Auth.lower p0 = "bearer"
                 /\ Dict.get token sessions = Some sess).
  { intros papel detail. unfold Auth.require_role, Auth.require_auth,
      Auth._get_session_from_header.
    destruct authorization as [[|c a]|]; try discriminate.
    destruct (Auth.split (String c a)) as [|p0 [|token [|x l]]] eqn:Hs;
      try discriminate.
    destruct (String.eqb (Auth.lower p0) "bearer") eqn:Hb; simpl;
      [|discriminate].
    destruct (Dict.get token sessions) as [s0|] eqn:Hg; [|discriminate].
    destruct (Auth.exp s0 <? now) eqn:He; [discriminate|].
    destruct (String.eqb (Auth.role s0) papel) eqn:Hr; simpl; [|discriminate].
    intros E. injection E as <- <-.
    apply String.eqb_eq in Hr, Hb. apply Z.ltb_ge in He.
    repeat split; auto. exists (String c a), p0, token. auto. }
  split; apply H.
Qed.

(** X27.  Right after a login, and until its session runs out, the token of
    the answer passes [require_professor] exactly when the login was that
    of the professor, and is refused with 403 otherwise; and it passes
    [require_aluno] exactly when the login was that of the student, and is
    refused with 403 otherwise. *)
Theorem login_then_require_role (token : string) (now now' : Z)
  (payload : Auth.LoginPayload) (sessions sessions' : Auth.Sessions)
  (r : Auth.LoginResponse) :
  Auth.token_ok token = true ->
  Auth.login token now payload sessions = (sessions', Py.Ok r) ->
  now' <= Auth.resp_exp r ->
  let h := Some ("Bearer " ++ token)%string in
  let sess :=
    Auth.mkSession (Auth.resp_username r) (Auth.resp_role r) (Auth.resp_ra r)
      (Auth.resp_exp r) in
  (Auth.login_username payload = "professor" \/ Auth.login_username payload = "aluno")
  /\ Auth.require_professor now' h sessions'
     = (sessions',
        if String.eqb (Auth.login_username payload) "professor" then Py.Ok sess
        else Py.Raise (Py.HTTPException 403
                         "Acesso permitido somente ao professor."))
  /\ Auth.require_aluno now' h sessions'
     = (sessions',
        if String.eqb (Auth.login_username payload) "aluno" then Py.Ok sess
        else Py.Raise (Py.HTTPException 403
                         "Acesso permitido somente ao aluno.")).
Proof.
  intros Hok. unfold Auth.login.
  destruct (Dict.get (Auth.login_username payload) Auth.USERS) as [user|] eqn:Hu;
    [|discriminate].
  destruct (negb (Auth.login_password payload =? Auth.user_password user)%string);
    [discriminate|].
  unfold Auth._issue_token. intros E. injection E as <- <-. simpl.
  intros Hle.
  assert (Hnot : (now + Auth.SESSION_TTL <? now') = false).
  { apply Z.ltb_ge. unfold Auth.SESSION_TTL in *. lia. }
  unfold Auth.require_professor, Auth.require_aluno, Auth.require_role,
    Auth.require_auth.
  rewrite (get_session_bearer _ _ _ Hok), dict_get_set_same. simpl.
  rewrite Hnot.
  revert Hu. unfold Auth.USERS. simpl.
  destruct (Auth.login_username payload =? "aluno")%string eqn:E1.
  - intros E. injection E as <-. apply String.eqb_eq in E1. rewrite E1.
    simpl. auto.
  - destruct (Auth.login_username payload =? "professor")%string eqn:E2;
      [|discriminate].
    intros E. injection E as <-. apply String.eqb_eq in E2. rewrite E2.
    simpl. auto.
Qed.

(* ------------------------------------------------------------------ *)
(** ** The properties above, on the sample data *)
(* ------------------------------------------------------------------ *)



Lemma returned_call_is_durable_witness :
  let w' := fst (exec no_float_of_str (Call_add_turma (Turma.make "TADS03" "ADS" []))
                   sample_world) in
  data_file w' = Some (dump (db w'))
  /\ writes w' = 9%nat
  /\ __init__ no_float_of_str no_int_of_str no_int_of_str (boot (data_file w'))
     = (mkWorld (db w') (data_file w') 0, Py.Ok tt).
Proof.
  destruct (returned_call_is_durable no_float_of_str no_float_of_str
              no_int_of_str no_int_of_str
              (Call_add_turma (Turma.make "TADS03" "ADS" []))
              sample_world
              (fst (exec no_float_of_str
                      (Call_add_turma (Turma.make "TADS03" "ADS" []))
                      sample_world))
              None eq_refl) as [H1 [H2 H3]].
  split; [exact H1|]. split; [exact H2|]. apply H3; reflexivity.
Defined.

Lemma run_calls_membros_ok_witness :
  membros_ok (db (fst (run_calls no_float_of_str sample_calls (boot None))))
  = true.
Proof.
  apply (run_calls_membros_ok no_float_of_str sample_calls (boot None));
    reflexivity.
Defined.

Lemma run_calls_entregas_ok_witness :
  entregas_ok (db (fst (run_calls no_float_of_str sample_calls (boot None))))
  = true.
Proof.
  apply (run_calls_entregas_ok no_float_of_str sample_calls (boot None));
    reflexivity.
Defined.

Lemma orun_ids_ok_witness :
  ids_ok (db (visto (orun no_float_of_str sample_ocalls sample_objetos)))
  = true
  /\ sem_partilha (orun no_float_of_str sample_ocalls sample_objetos) = true.
Proof.
  apply (orun_ids_ok no_float_of_str sample_ocalls sample_objetos);
    reflexivity.
Defined.

(** [add_atividade(o); add_atividade(o)]: the store holds [o] under 1 and
    under 2, and [o.id] is 2. *)
Example add_atividade_mesmo_objeto :
  atividades (db (visto (orun no_float_of_str mesmo_objeto sem_objetos)))
  = [(1, Atividade.set_id 2 atv3); (2, Atividade.set_id 2 atv3)]
  /\ objetos_novos no_float_of_str mesmo_objeto sem_objetos = false
  /\ ids_ok (db (visto (orun no_float_of_str mesmo_objeto sem_objetos)))
     = false.
Proof. repeat split; reflexivity. Qed.

Lemma add_atividade_obj_never_overwrites_witness :
  (let ow := fst (nova_atividade atv3 sample_objetos) in
   let ow' := fst (add_atividade_obj 4%nat ow) in
   get_atividade (db (visto ow')) 5 = Some (Atividade.set_id 5 atv3)
   /\ get_atividade (db (visto ow')) 1 = Some atv1
   /\ len (atividades (db (visto ow'))) = 5)
  /\ (let ow' := fst (add_atividade_obj 0%nat sample_objetos) in
      get_atividade (db (visto ow')) 5 = Some (Atividade.set_id 5 atv1)
      /\ get_atividade (db (visto ow')) 1 = Some (Atividade.set_id 5 atv1)
      /\ ids_ok (db (visto ow')) = false).
Proof.
  split.
  - destruct (add_atividade_obj_never_overwrites 4%nat
                (fst (nova_atividade atv3 sample_objetos)) eq_refl eq_refl)
      as [_ [H1 [H2 _]]]; [simpl; lia|].
    destruct (H2 eq_refl) as [_ [H3 H4]].
    split; [exact H1|]. split; [apply H3; reflexivity | exact H4].
  - destruct (add_atividade_obj_never_overwrites 0%nat sample_objetos
                eq_refl eq_refl) as [_ [H1 [_ H2]]]; [simpl; lia|].
    destruct (H2 1 eq_refl) as [_ [_ [_ [H3 H4]]]].
    split; [exact H1|]. split; [exact H3 | exact H4].
Defined.

Lemma run_calls_notas_ok_witness :
  notas_ok (db (fst (run_calls no_float_of_str sample_calls (boot None))))
  = true.
Proof.
  apply (run_calls_notas_ok no_float_of_str sample_calls (boot None));
    reflexivity.
Defined.

Lemma pendencias_entrega_por_atividade_witness :
  exists out,
    pendencias_entrega sample_store "TADS01" = Py.Ok out
    /\ Dict.keys out = [1; 3; 4]
    /\ Dict.get 1 out = Some ["G12ABC3"]
    /\ Dict.get 3 out = Some ["H76DJH0"; "G12ABC3"]
    /\ Dict.get 2 out = None.
Proof.
  pose proof (pendencias_entrega_por_atividade sample_store "TADS01" eq_refl)
    as H.
  change (get_turma sample_store "TADS01") with (Some tads01) in H.
  cbv iota in H. destruct H as [out [H1 [H2 H3]]].
  exists out. split; [exact H1|]. split; [exact H2|].
  rewrite !H3. repeat split.
Defined.

Lemma pendencias_entrega_incl_nota_witness :
  let s := db (fst (add_entrega 3 "G12ABC3" "x.pdf" sample_world)) in
  pendencias_entrega s "TADS01"
  = Py.Ok [(1, ["G12ABC3"]); (3, ["H76DJH0"]); (4, [])]
  /\ exists pn,
      pendencias_nota s "TADS01" = Py.Ok pn
      /\ Dict.keys pn = [1; 3; 4]
      /\ forall i faltam,
          Dict.get i [(1, ["G12ABC3"]); (3, ["H76DJH0"]); (4, [])] = Some faltam ->
          exists sem_nota, Dict.get i pn = Some sem_nota /\ incl faltam sem_nota.
Proof.
  split; [reflexivity|].
  apply (pendencias_entrega_incl_nota
           (db (fst (add_entrega 3 "G12ABC3" "x.pdf" sample_world))) "TADS01"
           [(1, ["G12ABC3"]); (3, ["H76DJH0"]); (4, [])]).
  reflexivity.
Defined.

Lemma add_entrega_sai_da_pendencia_witness :
  exists antes depois,
    pendencias_entrega (db sample_world) "TADS01" = Py.Ok antes
    /\ pendencias_entrega
         (db (fst (add_entrega 3 "G12ABC3" "x.pdf" sample_world))) "TADS01"
       = Py.Ok depois
    /\ Dict.get 3 antes = Some ["H76DJH0"; "G12ABC3"]
    /\ Dict.get 3 depois = Some ["H76DJH0"].
Proof.
  destruct (add_entrega_sai_da_pendencia no_float_of_str sample_world
              (fst (add_entrega 3 "G12ABC3" "x.pdf" sample_world))
              3 "G12ABC3" "x.pdf" atv3
              (Atividade.set_entrega "G12ABC3"
                 (VDict [("arquivo", VStr "x.pdf")]) atv3)
              tads01 eq_refl eq_refl eq_refl eq_refl)
    as [antes [depois [l0 [H1 [H2 [H3 [H4 H5]]]]]]].
  exists antes, depois. split; [exact H1|]. split; [exact H2|].
  assert (E : l0 = ["H76DJH0"; "G12ABC3"]).
  { change (pendencias_entrega (db sample_world) (Atividade.turma_codigo atv3))
      with (@Py.Ok (Dict.t Z (list string))
              [(1, ["G12ABC3"]); (3, ["H76DJH0"; "G12ABC3"]); (4, [])]) in H1.
    injection H1 as <-. simpl in H3. now injection H3 as <-. }
  subst l0. split; [exact H3 | exact H4].
Defined.

Lemma set_nota_entrega_sai_das_pendencias_witness :
  let w' := fst (set_nota_entrega no_float_of_str 3 "G12ABC3" (VFloat 8)
                   sample_world) in
  (exists antes depois,
      pendencias_nota (db sample_world) "TADS01" = Py.Ok antes
      /\ pendencias_nota (db w') "TADS01" = Py.Ok depois
      /\ Dict.get 3 antes = Some ["H76DJH0"; "G12ABC3"]
      /\ Dict.get 3 depois = Some ["H76DJH0"])
  /\ (exists antes depois,
        pendencias_entrega (db sample_world) "TADS01" = Py.Ok antes
        /\ pendencias_entrega (db w') "TADS01" = Py.Ok depois
        /\ Dict.get 3 antes = Some ["H76DJH0"; "G12ABC3"]
        /\ Dict.get 3 depois = Some ["H76DJH0"]).
Proof.
  destruct (set_nota_entrega_sai_das_pendencias no_float_of_str sample_world
              (fst (set_nota_entrega no_float_of_str 3 "G12ABC3" (VFloat 8)
                      sample_world))
              3 "G12ABC3" (VFloat 8) atv3
              (Atividade.set_entrega "G12ABC3"
                 (VDict [("nota", VFloat 8)]) atv3)
              tads01 eq_refl eq_refl eq_refl eq_refl)
    as [[a1 [d1 [l1 [H1 [H2 [H3 [H4 H5]]]]]]]
        [a2 [d2 [l2 [K1 [K2 [K3 [K4 K5]]]]]]]].
  split.
  - exists a1, d1. split; [exact H1|]. split; [exact H2|].
    assert (E : l1 = ["H76DJH0"; "G12ABC3"]).
    { change (pendencias_nota (db sample_world) (Atividade.turma_codigo atv3))
        with (@Py.Ok (Dict.t Z (list string))
                [(1, ["G12ABC3"]); (3, ["H76DJH0"; "G12ABC3"]); (4, [])]) in H1.
      injection H1 as <-. simpl in H3. now injection H3 as <-. }
    subst l1. split; [exact H3 | exact H4].
  - exists a2, d2. split; [exact K1|]. split; [exact K2|].
    assert (E : l2 = ["H76DJH0"; "G12ABC3"]).
    { change (pendencias_entrega (db sample_world) (Atividade.turma_codigo atv3))
        with (@Py.Ok (Dict.t Z (list string))
                [(1, ["G12ABC3"]); (3, ["H76DJH0"; "G12ABC3"]); (4, [])]) in K1.
      injection K1 as <-. simpl in K3. now injection K3 as <-. }
    subst l2. split; [exact K3 | exact K4].
Defined.

Lemma serve_consistente_witness :
  consistente (db (serve no_float_of_str sample_requests tidy_world)) = true.
Proof.
  apply (serve_consistente no_float_of_str sample_requests tidy_world).
  reflexivity.
Defined.

Lemma lancar_notas_entao_status_witness :
  let w' :=
    fst (consulta_rapida_lancar_notas no_float_of_str "G12ABC3"
           [("np1", VFloat 7.5); ("np2", VInt 6); ("pim", VInt 10)] tidy_world) in
  exists st,
    aluno_portal_status_aluno (db w') "G12ABC3" = Py.Ok st
    /\ st_np1 st = Some 7.5%float
    /\ st_media st = Some 7.4%float
    /\ st_situacao st = "Aprovado".
Proof.
  destruct (lancar_notas_entao_status no_float_of_str "G12ABC3"
              [("np1", VFloat 7.5); ("np2", VInt 6); ("pim", VInt 10)]
              tidy_world
              (fst (consulta_rapida_lancar_notas no_float_of_str "G12ABC3"
                      [("np1", VFloat 7.5); ("np2", VInt 6); ("pim", VInt 10)]
                      tidy_world))
              (mkNotasLancadas "ok" "Notas lançadas/atualizadas com sucesso."
                 "G12ABC3"
                 (mkNotas (Some 7.5%float) (Some 6%float) (Some 10%float)
                    (Some 7.4%float) "Aprovado"))
              eq_refl)
    as [H1 [H2 [H3 [st [H4 [H5 [H6 [H7 [H8 [H9 H10]]]]]]]]]].
  exists st. split; [exact H4|]. split; [exact H6|].
  split; [exact H9 | exact H10].
Defined.

Lemma login_then_me_witness :
  Auth.me (1000 + 3600 * 1000000) (Some "Bearer 3f2b-77")
    (fst (Auth.login "3f2b-77" 1000 (Auth.mkLoginPayload "aluno" "aluno123")
            []))
  = (fst (Auth.login "3f2b-77" 1000 (Auth.mkLoginPayload "aluno" "aluno123")
            []),
     Py.Ok ("aluno", "aluno", Some "H76DJH0")).
Proof.
  destruct (login_then_me "3f2b-77" 1000 (1000 + 3600 * 1000000)
              (Auth.mkLoginPayload "aluno" "aluno123") []
              (fst (Auth.login "3f2b-77" 1000
                      (Auth.mkLoginPayload "aluno" "aluno123") []))
              (Auth.mkLoginResponse "3f2b-77" "aluno" "aluno" (Some "H76DJH0")
                 (1000 + 8 * 3600 * 1000000))
              eq_refl eq_refl)
    as [H1 [H2 [H3 [H4 H5]]]].
  - simpl. lia.
  - exact H4.
Defined.

Lemma logout_invalidates_witness :
  Auth._get_session_from_header 2000 (Some "Bearer 3f2b-77")
    (Auth.logout (Some "Bearer 3f2b-77")
       [("3f2b-77", Auth.mkSession "aluno" "aluno" (Some "H76DJH0") 9000);
        ("9c1d-02", Auth.mkSession "professor" "professor" None 9000)])
  = ([("9c1d-02", Auth.mkSession "professor" "professor" None 9000)],
     Py.Raise (Py.HTTPException 401 "Token inválido ou expirado.")).
Proof.
  destruct (logout_invalidates "3f2b-77"
              [("3f2b-77", Auth.mkSession "aluno" "aluno" (Some "H76DJH0") 9000);
               ("9c1d-02", Auth.mkSession "professor" "professor" None 9000)]
              eq_refl) as [H1 _].
  exact (H1 2000).
Defined.

Lemma expired_token_removed_witness :
  exists sessions',
    Auth._get_session_from_header 9001 (Some "Bearer 3f2b-77")
      [("3f2b-77", Auth.mkSession "aluno" "aluno" (Some "H76DJH0") 9000);
       ("9c1d-02", Auth.mkSession "professor" "professor" None 9500)]
    = (sessions', Py.Raise (Py.HTTPException 401 "Token expirado."))
    /\ Dict.get "3f2b-77" sessions' = None
    /\ Auth._get_session_from_header 100 (Some "Bearer 3f2b-77") sessions'
       = (sessions',
          Py.Raise (Py.HTTPException 401 "Token inválido ou expirado.")).
Proof.
  destruct (expired_token_removed "3f2b-77" 9001
              [("3f2b-77", Auth.mkSession "aluno" "aluno" (Some "H76DJH0") 9000);
               ("9c1d-02", Auth.mkSession "professor" "professor" None 9500)]
              (Auth.mkSession "aluno" "aluno" (Some "H76DJH0") 9000)
              eq_refl eq_refl) as [s' [H1 [H2 [H3 H4]]]].
  - simpl. lia.
  - exists s'. split; [exact H1|]. split; [exact H2 | exact (H4 100)].
Defined.

Lemma login_then_require_role_witness :
  let sessions' :=
    fst (Auth.login "3f2b-77" 1000 (Auth.mkLoginPayload "aluno" "aluno123") []) in
  Auth.require_professor 2000 (Some "Bearer 3f2b-77") sessions'
  = (sessions',
     Py.Raise (Py.HTTPException 403 "Acesso permitido somente ao professor."))
  /\ Auth.require_aluno 2000 (Some "Bearer 3f2b-77") sessions'
     = (sessions',
        Py.Ok (Auth.mkSession "aluno" "aluno" (Some "H76DJH0")
                 (1000 + 8 * 3600 * 1000000))).
Proof.
  destruct (login_then_require_role "3f2b-77" 1000 2000
              (Auth.mkLoginPayload "aluno" "aluno123") []
              (fst (Auth.login "3f2b-77" 1000
                      (Auth.mkLoginPayload "aluno" "aluno123") []))
              (Auth.mkLoginResponse "3f2b-77" "aluno" "aluno" (Some "H76DJH0")
                 (1000 + 8 * 3600 * 1000000))
              eq_refl eq_refl)
    as [H1 [H2 H3]].
  - simpl. lia.
  - split; [exact H2 | exact H3].
Defined.


Lemma add_atividade_overwrites_witness :
  exists w' atv',
    add_atividade atv3
      (mkWorld (mkDataStore [] [("TADS01", tads01)] [(1, atv1)] 1) None 0)
    = (w', Py.Ok atv')
    /\ Atividade.id atv' = 1
    /\ get_atividade (db w') 1 = Some atv'
    /\ Atividade.entregas atv' = []
    /\ Dict.keys (atividades (db w')) = [1].
Proof.
  destruct (add_atividade_overwrites atv3 atv1
              (mkWorld (mkDataStore [] [("TADS01", tads01)] [(1, atv1)] 1)
                 None 0) eq_refl)
    as [w' [atv' [H1 [H2 [H3 [H4 [H5 H6]]]]]]].
  exists w', atv'. split; [exact H1|]. split; [exact H2|].
  split; [rewrite H2 in H3; exact H3|]. split; [exact H4 | exact H5].
Defined.
